(** * main-go-social: posts, friends and groups services

    A shallow embedding of the service layer of the three Go services
    [posts-api], [friends-api] and [groups-api], together with the part of
    their GORM repositories the services call.

    Conventions of the embedding.
    - A table is the list of its rows, new rows at the end.  A row keeps
      its soft-delete marker [DeletedAt : option Z]; every GORM query on a
      model with a [gorm.DeletedAt] field only sees rows whose marker is
      [None], and [Delete] sets the marker instead of removing the row.
      [First] returns the first selected row of the list; the services use
      it with a primary key or with a key of which they keep one live row.
      A SQL comparison of two strings is their equality.
    - The constraints a write can violate are the primary keys and the unique
      indexes declared in the SQL migrations of the repository (MySQL: rows
      whose index columns include a NULL never collide).  A write that
      violates none of them succeeds: transient failures of the database
      connection are not modelled, and neither are the foreign keys, since
      every insert of the services follows a lookup of the parent row.
    - [time.Now()] and [generateUUID()] are inputs of the operation that
      calls them ([now], [uuid]); timestamps are integers.
    - Go's [int] and [int64] are 64-bit, [int32] is 32-bit, all signed; the
      wrap-around of a conversion or of an arithmetic operation is written
      with [int64] and [int32] below.
    - The [media] column holds the JSON text of a string array; it is modelled
      by the array it encodes, the empty column being the empty list; the
      stored text is always written by [json.Marshal], so it parses. *)

From Stdlib Require Import String List ZArith Lia Bool.
From Stdlib Require Import Sorting.Sorted.
Import ListNotations.

Local Open Scope Z_scope.
Local Open Scope string_scope.

(** ** Go machine integers *)

Module GoInt.

Definition wrap (bits : Z) (z : Z) : Z :=
  (z + 2 ^ (bits - 1)) mod 2 ^ bits - 2 ^ (bits - 1).

Definition int32 (z : Z) : Z := wrap 32 z.
Definition int64 (z : Z) : Z := wrap 64 z.

Definition in_int32 (z : Z) : Prop := - 2 ^ 31 <= z < 2 ^ 31.
Definition in_int64 (z : Z) : Prop := - 2 ^ 63 <= z < 2 ^ 63.

End GoInt.
Import GoInt.

(** ** Results of fallible calls *)

(** gRPC status codes used by the post service. *)
Inductive Code := InvalidArgument | NotFound | PermissionDenied | AlreadyExists | Internal.

(** [status.Error(code, msg)]. *)
Record Status := mkStatus { code : Code; message : string }.

(** Errors of the repositories and of the services that return plain Go
    errors: the two GORM errors a query or a write can produce here, and
    [errors.New msg]. *)
Inductive error :=
| ErrRecordNotFound
| ErrDuplicatedKey
| ErrorsNew (msg : string).

Inductive result (E A : Type) :=
| Ok (a : A)
| Err (e : E).
Arguments Ok {E A} a.
Arguments Err {E A} e.

(** ** Query helpers shared by the repositories *)

(** [.Offset(offset).Limit(limit)] on an already ordered row list.  GORM
    emits no OFFSET clause for an offset that is not positive; the limit is
    positive in every call of the services. *)
Definition paged {A : Type} (offset limit : Z) (rows : list A) : list A :=
  firstn (Z.to_nat limit) (skipn (Z.to_nat offset) rows).

(** [.Order("created_at DESC")]: rows by decreasing key, rows of equal key
    in table order. *)
Fixpoint insertDesc {A : Type} (key : A -> Z) (x : A) (l : list A) : list A :=
  match l with
  | [] => [x]
  | y :: l' => if (key y <=? key x)%Z then x :: l else y :: insertDesc key x l'
  end.

Definition orderDesc {A : Type} (key : A -> Z) (rows : list A) : list A :=
  fold_right (insertDesc key) [] rows.

(** [.First(&row)] over the rows a query selects. *)
Definition first {A : Type} (rows : list A) : result error A :=
  match rows with
  | [] => Err ErrRecordNotFound
  | r :: _ => Ok r
  end.

Definition isNone {A : Type} (o : option A) : bool :=
  match o with None => true | Some _ => false end.

(** On insert GORM sets a [CreatedAt] or [UpdatedAt] that is still the zero
    [time.Time], here 0, to the current time. *)
Definition autoTime (now t : Z) : Z := if (t =? 0)%Z then now else t.

(** [.Offset(offset).Limit(limit)] for any offset and limit, as GORM 1.25
    builds it: a LIMIT clause for a limit that is not negative, an OFFSET
    clause for a positive offset.  MySQL refuses an OFFSET clause without a
    LIMIT clause. *)
Definition window {A : Type} (offset limit : Z) (rows : list A) : result error (list A) :=
  if (0 <=? limit)%Z
  then Ok (firstn (Z.to_nat limit)
                  (if (0 <? offset)%Z then skipn (Z.to_nat offset) rows else rows))
  else if (0 <? offset)%Z
  then Err (ErrorsNew "Error 1064 (42000): You have an error in your SQL syntax")
  else Ok rows.

(** What a Go call does: it returns, or it panics. *)
Inductive execution (A : Type) :=
| Returns (a : A)
| Panics (msg : string).
Arguments Returns {A} a.
Arguments Panics {A} msg.

(** [int32((count + int64(limit) - 1) / int64(limit))], the page count of the
    friend and group services; the division panics on a zero divisor. *)
Definition totalPages (count limit : Z) : execution Z :=
  if (int64 limit =? 0)%Z
  then Panics "runtime error: integer divide by zero"
  else Returns (int32 (Z.quot (int64 (count + int64 limit - 1)) (int64 limit))).

(** * The post service: [posts-api] *)

Module Posts.

(** ** [internal/models/post.go] *)

(** [models.Post].  [Media] is the stored column, [MediaArray] the field
    used in the application ([None] is the nil slice); GORM does not store
    [MediaArray]. *)
Record Post := mkPost {
  ID : string;
  AuthorID : string;
  AuthorName : string;
  AuthorAvatar : string;
  Content : string;
  Visibility : string;
  GroupID : string;
  GroupName : string;
  Media : list string;
  MediaArray : option (list string);
  LikesCount : Z;
  CommentsCount : Z;
  CreatedAt : Z;
  UpdatedAt : Z;
  DeletedAt : option Z
}.

Record Comment := mkComment {
  cID : string;
  cPostID : string;
  cAuthorID : string;
  cAuthorName : string;
  cAuthorAvatar : string;
  cContent : string;
  cCreatedAt : Z;
  cUpdatedAt : Z;
  cDeletedAt : option Z
}.

Record Like := mkLike {
  lID : string;
  lPostID : string;
  lUserID : string;
  lCreatedAt : Z;
  lDeletedAt : option Z
}.

(** The three tables of the posts database. *)
Record DB := mkDB {
  posts : list Post;
  comments : list Comment;
  likes : list Like
}.

Definition set_posts (db : DB) (ps : list Post) : DB :=
  mkDB ps (comments db) (likes db).
Definition set_likes (db : DB) (ls : list Like) : DB :=
  mkDB (posts db) (comments db) ls.

Definition set_ID (p : Post) (v : string) : Post :=
  mkPost v (AuthorID p) (AuthorName p) (AuthorAvatar p) (Content p)
         (Visibility p) (GroupID p) (GroupName p) (Media p) (MediaArray p)
         (LikesCount p) (CommentsCount p) (CreatedAt p) (UpdatedAt p) (DeletedAt p).
Definition set_Content (p : Post) (v : string) : Post :=
  mkPost (ID p) (AuthorID p) (AuthorName p) (AuthorAvatar p) v
         (Visibility p) (GroupID p) (GroupName p) (Media p) (MediaArray p)
         (LikesCount p) (CommentsCount p) (CreatedAt p) (UpdatedAt p) (DeletedAt p).
Definition set_Visibility (p : Post) (v : string) : Post :=
  mkPost (ID p) (AuthorID p) (AuthorName p) (AuthorAvatar p) (Content p)
         v (GroupID p) (GroupName p) (Media p) (MediaArray p)
         (LikesCount p) (CommentsCount p) (CreatedAt p) (UpdatedAt p) (DeletedAt p).
Definition set_Media (p : Post) (v : list string) : Post :=
  mkPost (ID p) (AuthorID p) (AuthorName p) (AuthorAvatar p) (Content p)
         (Visibility p) (GroupID p) (GroupName p) v (MediaArray p)
         (LikesCount p) (CommentsCount p) (CreatedAt p) (UpdatedAt p) (DeletedAt p).
Definition set_MediaArray (p : Post) (v : option (list string)) : Post :=
  mkPost (ID p) (AuthorID p) (AuthorName p) (AuthorAvatar p) (Content p)
         (Visibility p) (GroupID p) (GroupName p) (Media p) v
         (LikesCount p) (CommentsCount p) (CreatedAt p) (UpdatedAt p) (DeletedAt p).
Definition set_LikesCount (p : Post) (v : Z) : Post :=
  mkPost (ID p) (AuthorID p) (AuthorName p) (AuthorAvatar p) (Content p)
         (Visibility p) (GroupID p) (GroupName p) (Media p) (MediaArray p)
         v (CommentsCount p) (CreatedAt p) (UpdatedAt p) (DeletedAt p).
Definition set_UpdatedAt (p : Post) (v : Z) : Post :=
  mkPost (ID p) (AuthorID p) (AuthorName p) (AuthorAvatar p) (Content p)
         (Visibility p) (GroupID p) (GroupName p) (Media p) (MediaArray p)
         (LikesCount p) (CommentsCount p) (CreatedAt p) v (DeletedAt p).

Definition set_lID (l : Like) (v : string) : Like :=
  mkLike v (lPostID l) (lUserID l) (lCreatedAt l) (lDeletedAt l).
Definition set_lDeletedAt (l : Like) (v : option Z) : Like :=
  mkLike (lID l) (lPostID l) (lUserID l) (lCreatedAt l) v.

Definition set_comments (db : DB) (cs : list Comment) : DB :=
  mkDB (posts db) cs (likes db).

Definition set_CommentsCount (p : Post) (v : Z) : Post :=
  mkPost (ID p) (AuthorID p) (AuthorName p) (AuthorAvatar p) (Content p)
         (Visibility p) (GroupID p) (GroupName p) (Media p) (MediaArray p)
         (LikesCount p) v (CreatedAt p) (UpdatedAt p) (DeletedAt p).
Definition set_DeletedAt (p : Post) (v : option Z) : Post :=
  mkPost (ID p) (AuthorID p) (AuthorName p) (AuthorAvatar p) (Content p)
         (Visibility p) (GroupID p) (GroupName p) (Media p) (MediaArray p)
         (LikesCount p) (CommentsCount p) (CreatedAt p) (UpdatedAt p) v.

(** A comment as [commentRepository.Create] inserts it: [BeforeCreate]
    fills the empty ID, GORM the zero timestamps. *)
Definition insertedComment (now : Z) (uuid : string) (c : Comment) : Comment :=
  mkComment (if cID c =? "" then uuid else cID c) (cPostID c) (cAuthorID c)
            (cAuthorName c) (cAuthorAvatar c) (cContent c)
            (autoTime now (cCreatedAt c)) (autoTime now (cUpdatedAt c)) (cDeletedAt c).

(** The soft delete of a comment row at [now]; the column [updated_at] is
    declared [ON UPDATE CURRENT_TIMESTAMP] and follows. *)
Definition softDeleteComment (c : Comment) (now : Z) : Comment :=
  mkComment (cID c) (cPostID c) (cAuthorID c) (cAuthorName c) (cAuthorAvatar c)
            (cContent c) (cCreatedAt c) now (Some now).

(** Length of a possibly nil slice: [len(post.MediaArray)]. *)
Definition len (s : option (list string)) : nat :=
  match s with
  | Some l => length l
  | None => O
  end.

(** ** [internal/repository/post_repository.go] *)

Module PostRepository.

(** A row as a query scans it into a zeroed [models.Post], followed by
    the parse of the media column the finders share:
    [if post.Media != "" { post.MediaArray = mediaArray }]. *)
Definition scan (row : Post) : Post :=
  match Media row with
  | [] => set_MediaArray row None
  | _ :: _ => set_MediaArray row (Some (Media row))
  end.

(** The row GORM writes for an application value. *)
Definition stored (post : Post) : Post := set_MediaArray post None.

Definition live (row : Post) : bool := isNone (DeletedAt row).

(** [if len(post.MediaArray) > 0 { post.Media = string(mediaJSON) }],
    the first step of [Create] and [Update]. *)
Definition marshalMedia (post : Post) : Post :=
  if (0 <? len (MediaArray post))%nat
  then match MediaArray post with
       | Some l => set_Media post l
       | None => post
       end
  else post.

(** [Create]: the [BeforeCreate] hook fills an empty ID, then the row is
    inserted; the primary key must be new (the migration of the posts
    table is not among the sources; the key is the one the gorm tag of
    [Post.ID] declares).  Returns the post as the caller sees it
    afterwards, and the new database. *)
Definition Create (uuid : string) (db : DB) (post : Post)
  : result error (Post * DB) :=
  let post := marshalMedia post in
  let post := if ID post =? "" then set_ID post uuid else post in
  if existsb (fun row => ID row =? ID post) (posts db)
  then Err ErrDuplicatedKey
  else Ok (post, set_posts db (posts db ++ [stored post])).

Definition FindByID (db : DB) (id : string) : result error Post :=
  match first (filter (fun row => live row && (ID row =? id)) (posts db)) with
  | Err e => Err e
  | Ok row => Ok (scan row)
  end.

Definition FindByAuthor (db : DB) (authorID : string) (page limit : Z)
  : result error (list Post * Z) :=
  let offset := int64 ((page - 1) * limit) in
  let matching := filter (fun row => live row && (AuthorID row =? authorID)) (posts db) in
  let count := Z.of_nat (length matching) in
  let posts := paged offset limit (orderDesc CreatedAt matching) in
  Ok (map scan posts, count).

Definition FindByGroup (db : DB) (groupID : string) (page limit : Z)
  : result error (list Post * Z) :=
  let offset := int64 ((page - 1) * limit) in
  let matching := filter (fun row => live row && (GroupID row =? groupID)) (posts db) in
  let count := Z.of_nat (length matching) in
  let posts := paged offset limit (orderDesc CreatedAt matching) in
  Ok (map scan posts, count).

Definition FindPublic (db : DB) (page limit : Z)
  : result error (list Post * Z) :=
  let offset := int64 ((page - 1) * limit) in
  let matching := filter (fun row => live row && (Visibility row =? "public")) (posts db) in
  let count := Z.of_nat (length matching) in
  let posts := paged offset limit (orderDesc CreatedAt matching) in
  Ok (map scan posts, count).

(** [author_id IN ?] with the friend ids; a nil or empty list matches
    no author. *)
Definition inIDs (id : string) (ids : option (list string)) : bool :=
  match ids with
  | Some l => existsb (fun x => x =? id) l
  | None => false
  end.

Definition FindVisible (db : DB) (userID : string)
           (friendIDs : option (list string)) (page limit : Z)
  : result error (list Post * Z) :=
  let offset := int64 ((page - 1) * limit) in
  let matching :=
    filter (fun row =>
              live row
              && ((Visibility row =? "public")
                  || ((Visibility row =? "private") && inIDs (AuthorID row) friendIDs)))
           (posts db) in
  let count := Z.of_nat (length matching) in
  let posts := paged offset limit (orderDesc CreatedAt matching) in
  Ok (map scan posts, count).

(** [Update]: [Save] sets [UpdatedAt] and writes every column of the live
    row with the post's primary key; when no live row has it, [Save]
    falls back to an insert that overwrites a row with the same key. *)
Definition Update (now : Z) (db : DB) (post : Post) : result error (Post * DB) :=
  let post := marshalMedia post in
  let post := set_UpdatedAt post now in
  if existsb (fun row => live row && (ID row =? ID post)) (posts db)
  then Ok (post,
           set_posts db
             (map (fun row => if live row && (ID row =? ID post) then stored post else row)
                  (posts db)))
  else if existsb (fun row => ID row =? ID post) (posts db)
  then Ok (post,
           set_posts db
             (map (fun row => if ID row =? ID post then stored post else row) (posts db)))
  else Ok (post, set_posts db (posts db ++ [stored post])).

(** [Update("likes_count", gorm.Expr("likes_count + ?", 1))] on the live
    row with that id; GORM also refreshes [updated_at]. *)
Definition IncrementLikesCount (now : Z) (db : DB) (id : string) : result error DB :=
  Ok (set_posts db
        (map (fun row =>
                if live row && (ID row =? id)
                then set_UpdatedAt (set_LikesCount row (LikesCount row + 1)) now
                else row)
             (posts db))).

Definition DecrementLikesCount (now : Z) (db : DB) (id : string) : result error DB :=
  Ok (set_posts db
        (map (fun row =>
                if live row && (ID row =? id)
                then set_UpdatedAt (set_LikesCount row (LikesCount row - 1)) now
                else row)
             (posts db))).

(** [Delete]: soft delete of the live rows with that id. *)
Definition Delete (now : Z) (db : DB) (id : string) : result error DB :=
  Ok (set_posts db
        (map (fun row =>
                if live row && (ID row =? id) then set_DeletedAt row (Some now) else row)
             (posts db))).

(** [Update("comments_count", gorm.Expr("comments_count + ?", 1))]. *)
Definition IncrementCommentsCount (now : Z) (db : DB) (id : string) : result error DB :=
  Ok (set_posts db
        (map (fun row =>
                if live row && (ID row =? id)
                then set_UpdatedAt (set_CommentsCount row (CommentsCount row + 1)) now
                else row)
             (posts db))).

Definition DecrementCommentsCount (now : Z) (db : DB) (id : string) : result error DB :=
  Ok (set_posts db
        (map (fun row =>
                if live row && (ID row =? id)
                then set_UpdatedAt (set_CommentsCount row (CommentsCount row - 1)) now
                else row)
             (posts db))).

End PostRepository.

(** ** [internal/repository/comment_repository.go] *)

Module CommentRepository.

Definition live (row : Comment) : bool := isNone (cDeletedAt row).

Definition FindByPost (db : DB) (postID : string) (page limit : Z)
  : result error (list Comment * Z) :=
  let offset := int64 ((page - 1) * limit) in
  let matching := filter (fun row => live row && (cPostID row =? postID)) (comments db) in
  let count := Z.of_nat (length matching) in
  let comments := paged offset limit (orderDesc cCreatedAt matching) in
  Ok (comments, count).

(** [Create]: the comments table has the primary key [id] only. *)
Definition Create (now : Z) (uuid : string) (db : DB) (comment : Comment)
  : result error (Comment * DB) :=
  let comment := insertedComment now uuid comment in
  if existsb (fun row => cID row =? cID comment) (comments db)
  then Err ErrDuplicatedKey
  else Ok (comment, set_comments db (comments db ++ [comment])).

Definition FindByID (db : DB) (id : string) : result error Comment :=
  first (filter (fun row => live row && (cID row =? id)) (comments db)).

(** [Delete]: soft delete of the live rows with that id. *)
Definition Delete (now : Z) (db : DB) (id : string) : result error DB :=
  Ok (set_comments db
        (map (fun row =>
                if live row && (cID row =? id) then softDeleteComment row now else row)
             (comments db))).

End CommentRepository.

(** ** [internal/repository/like_repository.go] *)

Module LikeRepository.

Definition live (row : Like) : bool := isNone (lDeletedAt row).

(** [Create]: the [BeforeCreate] hook fills an empty ID, then the row is
    inserted.  The likes table has the primary key [id] and
    [UNIQUE INDEX idx_likes_post_user (post_id, user_id)]; the index does
    not mention [deleted_at], so soft-deleted rows count as well. *)
Definition Create (uuid : string) (db : DB) (like : Like) : result error DB :=
  let like := if lID like =? "" then set_lID like uuid else like in
  if existsb (fun row => lID row =? lID like) (likes db)
     || existsb (fun row => (lPostID row =? lPostID like) && (lUserID row =? lUserID like))
                (likes db)
  then Err ErrDuplicatedKey
  else Ok (set_likes db (likes db ++ [like])).

Definition FindByPostAndUser (db : DB) (postID userID : string) : result error Like :=
  first (filter (fun row => live row && ((lPostID row =? postID) && (lUserID row =? userID)))
                (likes db)).

(** [Delete]: soft delete of the live rows with that id. *)
Definition Delete (now : Z) (db : DB) (id : string) : result error DB :=
  Ok (set_likes db
        (map (fun row =>
                if live row && (lID row =? id) then set_lDeletedAt row (Some now) else row)
             (likes db))).

End LikeRepository.

(** ** [internal/services/post_service.go] *)

Definition status {A : Type} (c : Code) (msg : string) : result Status A :=
  Err (mkStatus c msg).

(** [postService.isPostVisibleToUser]. *)
Definition isPostVisibleToUser (post : Post) (userID : string)
           (friendIDs : option (list string)) : bool :=
  if Visibility post =? "public" then true
  else if userID =? AuthorID post then true
  else if (Visibility post =? "private")
          && match friendIDs with
             | Some ids => existsb (fun friendID => friendID =? AuthorID post) ids
             | None => false
             end
       then true
  else if negb (GroupID post =? "") then true
  else false.

(** [postService.IsLiked]. *)
Definition IsLiked (db : DB) (postID userID : string) : result Status bool :=
  if postID =? "" then status InvalidArgument "post ID is required"
  else if userID =? "" then status InvalidArgument "user ID is required"
  else match LikeRepository.FindByPostAndUser db postID userID with
       | Err _ => Ok false
       | Ok _ => Ok true
       end.

(** [postService.CreatePost]. *)
Definition CreatePost (now : Z) (uuid : string) (db : DB)
           (userID content visibility groupID : string) (media : option (list string))
  : result Status Post * DB :=
  if userID =? "" then (status InvalidArgument "user ID is required", db)
  else if content =? "" then (status InvalidArgument "content is required", db)
  else if negb (visibility =? "public") && negb (visibility =? "private")
  then (status InvalidArgument "visibility must be 'public' or 'private'", db)
  else
    let authorName := "User " ++ userID in
    let authorAvatar := "" in
    let groupName := if negb (groupID =? "") then "Group " ++ groupID else "" in
    let post := mkPost "" userID authorName authorAvatar content visibility
                       groupID groupName [] media 0 0 now now None in
    match PostRepository.Create uuid db post with
    | Err _ => (status Internal "failed to create post", db)
    | Ok (post, db) => (Ok post, db)
    end.

(** [postService.GetPost]. *)
Definition GetPost (db : DB) (postID userID : string) : result Status (Post * bool) :=
  if postID =? "" then status InvalidArgument "post ID is required"
  else match PostRepository.FindByID db postID with
       | Err _ => status NotFound "post not found"
       | Ok post =>
         let isVisible := isPostVisibleToUser post userID None in
         if negb isVisible
         then status PermissionDenied "you don't have permission to view this post"
         else
           let isLiked :=
             if negb (userID =? "")
             then match IsLiked db postID userID with
                  | Ok b => b
                  | Err _ => false
                  end
             else false in
           Ok (post, isLiked)
       end.

(** [postService.GetPosts].  The [IsLiked] call inside the filter loop
    reads the likes table and drops the answer; it is left out. *)
Definition GetPosts (db : DB) (userID authorID groupID visibility : string)
           (page limit : Z) (friendIDs : option (list string))
  : result Status (list Post * Z * Z) :=
  let page := if (page <? 1)%Z then 1%Z else page in
  let limit := if (limit <? 1)%Z || (limit >? 100)%Z then 10%Z else limit in
  let found :=
    if negb (authorID =? "") then PostRepository.FindByAuthor db authorID page limit
    else if negb (groupID =? "") then PostRepository.FindByGroup db groupID page limit
    else if (userID =? "") || (visibility =? "public")
    then PostRepository.FindPublic db page limit
    else PostRepository.FindVisible db userID friendIDs page limit in
  match found with
  | Err _ => status Internal "failed to get posts"
  | Ok (posts, count) =>
    let visiblePosts :=
      filter (fun post => isPostVisibleToUser post userID friendIDs) posts in
    let totalPages := int32 (Z.quot (int64 (count + int64 limit - 1)) (int64 limit)) in
    Ok (visiblePosts, count, totalPages)
  end.

(** [postService.UpdatePost]. *)
Definition UpdatePost (now : Z) (db : DB) (postID userID content visibility : string)
           (media : option (list string)) : result Status Post * DB :=
  if postID =? "" then (status InvalidArgument "post ID is required", db)
  else if userID =? "" then (status InvalidArgument "user ID is required", db)
  else if content =? "" then (status InvalidArgument "content is required", db)
  else if negb (visibility =? "") && negb (visibility =? "public")
          && negb (visibility =? "private")
  then (status InvalidArgument "visibility must be 'public' or 'private'", db)
  else match PostRepository.FindByID db postID with
       | Err _ => (status NotFound "post not found", db)
       | Ok post =>
         if negb (AuthorID post =? userID)
         then (status PermissionDenied "you don't have permission to update this post", db)
         else
           let post := set_Content post content in
           let post := if negb (visibility =? "") then set_Visibility post visibility
                       else post in
           let post := match media with
                       | Some _ => set_MediaArray post media
                       | None => post
                       end in
           let post := set_UpdatedAt post now in
           match PostRepository.Update now db post with
           | Err _ => (status Internal "failed to update post", db)
           | Ok (post, db) => (Ok post, db)
           end
       end.

(** [postService.GetComments]. *)
Definition GetComments (db : DB) (postID : string) (page limit : Z)
  : result Status (list Comment * Z * Z) :=
  if postID =? "" then status InvalidArgument "post ID is required"
  else
    let page := if (page <? 1)%Z then 1%Z else page in
    let limit := if (limit <? 1)%Z || (limit >? 100)%Z then 10%Z else limit in
    match CommentRepository.FindByPost db postID page limit with
    | Err _ => status Internal "failed to get comments"
    | Ok (comments, count) =>
      let totalPages := int32 (Z.quot (int64 (count + int64 limit - 1)) (int64 limit)) in
      Ok (comments, count, totalPages)
    end.

(** A call that returns [(int32, error)]: the count, the error if any. *)
Definition counted : Type := Z * option Status.

Definition failed (n : Z) (c : Code) (msg : string) : counted :=
  (n, Some (mkStatus c msg)).

(** [postService.LikePost]. *)
Definition LikePost (now : Z) (uuid : string) (db : DB) (postID userID : string)
  : counted * DB :=
  if postID =? "" then (failed 0 InvalidArgument "post ID is required", db)
  else if userID =? "" then (failed 0 InvalidArgument "user ID is required", db)
  else match PostRepository.FindByID db postID with
       | Err _ => (failed 0 NotFound "post not found", db)
       | Ok post =>
         match LikeRepository.FindByPostAndUser db postID userID with
         | Ok _ =>
           (failed (int32 (LikesCount post)) AlreadyExists
                   "you have already liked this post", db)
         | Err _ =>
           let like := mkLike "" postID userID now None in
           match LikeRepository.Create uuid db like with
           | Err _ => (failed 0 Internal "failed to like post", db)
           | Ok db =>
             let db := match PostRepository.IncrementLikesCount now db postID with
                       | Err _ => db
                       | Ok db' => db'
                       end in
             match PostRepository.FindByID db postID with
             | Err _ => ((int32 (int64 (LikesCount post + 1)), None), db)
             | Ok updatedPost => ((int32 (LikesCount updatedPost), None), db)
             end
           end
         end
       end.

(** [postService.UnlikePost]. *)
Definition UnlikePost (now : Z) (db : DB) (postID userID : string) : counted * DB :=
  if postID =? "" then (failed 0 InvalidArgument "post ID is required", db)
  else if userID =? "" then (failed 0 InvalidArgument "user ID is required", db)
  else match PostRepository.FindByID db postID with
       | Err _ => (failed 0 NotFound "post not found", db)
       | Ok post =>
         match LikeRepository.FindByPostAndUser db postID userID with
         | Err _ =>
           (failed (int32 (LikesCount post)) NotFound "you have not liked this post", db)
         | Ok like =>
           match LikeRepository.Delete now db (lID like) with
           | Err _ => (failed 0 Internal "failed to unlike post", db)
           | Ok db =>
             let db := match PostRepository.DecrementLikesCount now db postID with
                       | Err _ => db
                       | Ok db' => db'
                       end in
             match PostRepository.FindByID db postID with
             | Err _ => ((int32 (int64 (LikesCount post - 1)), None), db)
             | Ok updatedPost => ((int32 (LikesCount updatedPost), None), db)
             end
           end
         end
       end.

(** A call that returns only an error: [None] is nil. *)
Definition refused (c : Code) (msg : string) : option Status := Some (mkStatus c msg).

(** [postService.DeletePost]. *)
Definition DeletePost (now : Z) (db : DB) (postID userID : string) : option Status * DB :=
  if postID =? "" then (refused InvalidArgument "post ID is required", db)
  else if userID =? "" then (refused InvalidArgument "user ID is required", db)
  else match PostRepository.FindByID db postID with
       | Err _ => (refused NotFound "post not found", db)
       | Ok post =>
         if negb (AuthorID post =? userID)
         then (refused PermissionDenied "you don't have permission to delete this post", db)
         else match PostRepository.Delete now db postID with
              | Err _ => (refused Internal "failed to delete post", db)
              | Ok db => (None, db)
              end
       end.

(** [postService.AddComment]. *)
Definition AddComment (now : Z) (uuid : string) (db : DB)
           (postID userID authorName authorAvatar content : string)
  : result Status Comment * DB :=
  if postID =? "" then (status InvalidArgument "post ID is required", db)
  else if userID =? "" then (status InvalidArgument "user ID is required", db)
  else if content =? "" then (status InvalidArgument "content is required", db)
  else match PostRepository.FindByID db postID with
       | Err _ => (status NotFound "post not found", db)
       | Ok _ =>
         let comment :=
           mkComment "" postID userID authorName authorAvatar content now now None in
         match CommentRepository.Create now uuid db comment with
         | Err _ => (status Internal "failed to create comment", db)
         | Ok (comment, db) =>
           let db := match PostRepository.IncrementCommentsCount now db postID with
                     | Err _ => db
                     | Ok db' => db'
                     end in
           (Ok comment, db)
         end
       end.

(** [postService.DeleteComment]. *)
Definition DeleteComment (now : Z) (db : DB) (commentID postID userID : string)
  : option Status * DB :=
  if commentID =? "" then (refused InvalidArgument "comment ID is required", db)
  else if postID =? "" then (refused InvalidArgument "post ID is required", db)
  else if userID =? "" then (refused InvalidArgument "user ID is required", db)
  else match CommentRepository.FindByID db commentID with
       | Err _ => (refused NotFound "comment not found", db)
       | Ok comment =>
         if negb (cPostID comment =? postID)
         then (refused InvalidArgument "comment does not belong to the post", db)
         else match PostRepository.FindByID db postID with
              | Err _ => (refused NotFound "post not found", db)
              | Ok post =>
                if negb (cAuthorID comment =? userID) && negb (AuthorID post =? userID)
                then (refused PermissionDenied
                              "you don't have permission to delete this comment", db)
                else match CommentRepository.Delete now db commentID with
                     | Err _ => (refused Internal "failed to delete comment", db)
                     | Ok db =>
                       let db :=
                         match PostRepository.DecrementCommentsCount now db postID with
                         | Err _ => db
                         | Ok db' => db'
                         end in
                       (None, db)
                     end
              end
       end.

End Posts.

(** * The friend service: [friends-api] *)

Module Friends.

(** ** [internal/models] *)

Record FriendRequest := mkFriendRequest {
  frID : string;
  frSenderID : string;
  frReceiverID : string;
  frStatus : string;
  frCreatedAt : Z;
  frUpdatedAt : Z;
  frDeletedAt : option Z
}.

Record Friendship := mkFriendship {
  fsID : string;
  fsUserID : string;
  fsFriendID : string;
  fsCreatedAt : Z;
  fsUpdatedAt : Z;
  fsDeletedAt : option Z
}.

Record BlockedUser := mkBlockedUser {
  buID : string;
  buUserID : string;
  buBlockedUserID : string;
  buCreatedAt : Z;
  buUpdatedAt : Z;
  buDeletedAt : option Z
}.

Record DB := mkDB {
  friend_requests : list FriendRequest;
  friendships : list Friendship;
  blocked_users : list BlockedUser
}.

Definition set_friend_requests (db : DB) (v : list FriendRequest) : DB :=
  mkDB v (friendships db) (blocked_users db).
Definition set_friendships (db : DB) (v : list Friendship) : DB :=
  mkDB (friend_requests db) v (blocked_users db).

Definition set_frStatus (r : FriendRequest) (v : string) : FriendRequest :=
  mkFriendRequest (frID r) (frSenderID r) (frReceiverID r) v
                  (frCreatedAt r) (frUpdatedAt r) (frDeletedAt r).
Definition set_frUpdatedAt (r : FriendRequest) (v : Z) : FriendRequest :=
  mkFriendRequest (frID r) (frSenderID r) (frReceiverID r) (frStatus r)
                  (frCreatedAt r) v (frDeletedAt r).

Definition set_blocked_users (db : DB) (v : list BlockedUser) : DB :=
  mkDB (friend_requests db) (friendships db) v.

(** The soft delete of a row at [now]; the column [updated_at] is declared
    [ON UPDATE CURRENT_TIMESTAMP] in both tables and follows. *)
Definition softDeleteFriendship (f : Friendship) (now : Z) : Friendship :=
  mkFriendship (fsID f) (fsUserID f) (fsFriendID f) (fsCreatedAt f) now (Some now).
Definition softDeleteBlocked (b : BlockedUser) (now : Z) : BlockedUser :=
  mkBlockedUser (buID b) (buUserID b) (buBlockedUserID b) (buCreatedAt b) now (Some now).

(** ** [internal/repository/friend_repository.go]

    Each of the three tables has the primary key [id] and a unique index
    that ends in [deleted_at]; MySQL lets any number of rows share the other
    columns of such an index while their [deleted_at] is NULL, so an insert
    of a live row can only collide on the primary key. *)

Module FriendRepository.

Definition liveRequest (row : FriendRequest) : bool := isNone (frDeletedAt row).
Definition liveFriendship (row : Friendship) : bool := isNone (fsDeletedAt row).
Definition liveBlocked (row : BlockedUser) : bool := isNone (buDeletedAt row).

(** [CreateFriendRequest]: [BeforeCreate] fills the empty ID, GORM the
    zero timestamps. *)
Definition CreateFriendRequest (now : Z) (uuid : string) (db : DB)
           (request : FriendRequest) : result error (FriendRequest * DB) :=
  let request :=
    mkFriendRequest (if frID request =? "" then uuid else frID request)
                    (frSenderID request) (frReceiverID request) (frStatus request)
                    (autoTime now (frCreatedAt request))
                    (autoTime now (frUpdatedAt request)) (frDeletedAt request) in
  if existsb (fun row => frID row =? frID request) (friend_requests db)
  then Err ErrDuplicatedKey
  else Ok (request, set_friend_requests db (friend_requests db ++ [request])).

Definition GetFriendRequestByID (db : DB) (id : string) : result error FriendRequest :=
  first (filter (fun row => liveRequest row && (frID row =? id)) (friend_requests db)).

(** [Update("status", status)] on the live row with that id; GORM also
    refreshes [updated_at]. *)
Definition UpdateFriendRequestStatus (now : Z) (db : DB) (id status : string)
  : result error DB :=
  Ok (set_friend_requests db
        (map (fun row =>
                if liveRequest row && (frID row =? id)
                then set_frUpdatedAt (set_frStatus row status) now
                else row)
             (friend_requests db))).

Definition CreateFriendship (now : Z) (uuid : string) (db : DB)
           (friendship : Friendship) : result error DB :=
  let friendship :=
    mkFriendship (if fsID friendship =? "" then uuid else fsID friendship)
                 (fsUserID friendship) (fsFriendID friendship)
                 (autoTime now (fsCreatedAt friendship))
                 (autoTime now (fsUpdatedAt friendship)) (fsDeletedAt friendship) in
  if existsb (fun row => fsID row =? fsID friendship) (friendships db)
  then Err ErrDuplicatedKey
  else Ok (set_friendships db (friendships db ++ [friendship])).

(** [CheckFriendship]: status and, for a pending request, its id. *)
Definition CheckFriendship (db : DB) (userID friendID : string)
  : result error (string * string) :=
  let friendshipCount :=
    Z.of_nat (length (filter (fun row =>
                                liveFriendship row
                                && ((fsUserID row =? userID) && (fsFriendID row =? friendID)))
                             (friendships db))) in
  if (friendshipCount >? 0)%Z then Ok ("friends", "")
  else
    match first (filter (fun row =>
                           liveRequest row
                           && ((((frSenderID row =? userID) && (frReceiverID row =? friendID))
                                || ((frSenderID row =? friendID) && (frReceiverID row =? userID)))
                               && (frStatus row =? "pending")))
                        (friend_requests db)) with
    | Ok request => Ok ("pending", frID request)
    | Err ErrRecordNotFound =>
      let blockedCount :=
        Z.of_nat (length (filter (fun row =>
                                    liveBlocked row
                                    && (((buUserID row =? userID) && (buBlockedUserID row =? friendID))
                                        || ((buUserID row =? friendID) && (buBlockedUserID row =? userID))))
                                 (blocked_users db))) in
      if (blockedCount >? 0)%Z then Ok ("blocked", "")
      else Ok ("none", "")
    | Err e => Err e
    end.

(** The live friendship rows from [userID] to [friendID]. *)
Definition friendship (userID friendID : string) (row : Friendship) : bool :=
  liveFriendship row && ((fsUserID row =? userID) && (fsFriendID row =? friendID)).

(** One statement of [DeleteFriendship]: soft delete of the live rows from
    [userID] to [friendID], all stamped [now].  It violates the unique index
    [(user_id, friend_id, deleted_at)] when two rows get the stamp, or when
    one does and an earlier soft-deleted row of the pair carries it. *)
Definition deleteDirection (now : Z) (db : DB) (userID friendID : string)
  : result error DB :=
  let touched := filter (friendship userID friendID) (friendships db) in
  let stamped :=
    existsb (fun row =>
               (fsUserID row =? userID) && (fsFriendID row =? friendID)
               && match fsDeletedAt row with
                  | Some t => (t =? now)%Z
                  | None => false
                  end)
            (friendships db) in
  if (1 <? length touched)%nat || ((0 <? length touched)%nat && stamped)
  then Err ErrDuplicatedKey
  else Ok (set_friendships db
             (map (fun row =>
                     if friendship userID friendID row
                     then softDeleteFriendship row now
                     else row)
                  (friendships db))).

(** [DeleteFriendship]: the two directions, one statement after the other;
    the error, if any, and the database as the statements leave it. *)
Definition DeleteFriendship (now : Z) (db : DB) (userID friendID : string)
  : option error * DB :=
  match deleteDirection now db userID friendID with
  | Err err => (Some err, db)
  | Ok db =>
    match deleteDirection now db friendID userID with
    | Err err => (Some err, db)
    | Ok db => (None, db)
    end
  end.

(** The live block rows of [userID] against [blockedUserID]. *)
Definition blocking (userID blockedUserID : string) (row : BlockedUser) : bool :=
  liveBlocked row && ((buUserID row =? userID) && (buBlockedUserID row =? blockedUserID)).

(** [BlockUser]: [BeforeCreate] fills the empty ID, GORM the zero
    timestamps; the primary key must be new. *)
Definition BlockUser (now : Z) (uuid : string) (db : DB) (blockedUser : BlockedUser)
  : result error DB :=
  let blockedUser :=
    mkBlockedUser (if buID blockedUser =? "" then uuid else buID blockedUser)
                  (buUserID blockedUser) (buBlockedUserID blockedUser)
                  (autoTime now (buCreatedAt blockedUser))
                  (autoTime now (buUpdatedAt blockedUser)) (buDeletedAt blockedUser) in
  if existsb (fun row => buID row =? buID blockedUser) (blocked_users db)
  then Err ErrDuplicatedKey
  else Ok (set_blocked_users db (blocked_users db ++ [blockedUser])).

(** [UnblockUser]: soft delete of the live block rows, under the unique
    index [(user_id, blocked_user_id, deleted_at)]. *)
Definition UnblockUser (now : Z) (db : DB) (userID blockedUserID : string)
  : result error DB :=
  let touched := filter (blocking userID blockedUserID) (blocked_users db) in
  let stamped :=
    existsb (fun row =>
               (buUserID row =? userID) && (buBlockedUserID row =? blockedUserID)
               && match buDeletedAt row with
                  | Some t => (t =? now)%Z
                  | None => false
                  end)
            (blocked_users db) in
  if (1 <? length touched)%nat || ((0 <? length touched)%nat && stamped)
  then Err ErrDuplicatedKey
  else Ok (set_blocked_users db
             (map (fun row =>
                     if blocking userID blockedUserID row
                     then softDeleteBlocked row now
                     else row)
                  (blocked_users db))).

Definition IsUserBlocked (db : DB) (userID blockedUserID : string) : result error bool :=
  let count :=
    Z.of_nat (length (filter (blocking userID blockedUserID) (blocked_users db))) in
  Ok (count >? 0)%Z.

Definition GetFriendRequestsByReceiverID (db : DB) (receiverID status : string)
           (page limit : Z) : result error (list FriendRequest * Z) :=
  let matching :=
    filter (fun row =>
              liveRequest row
              && ((frReceiverID row =? receiverID)
                  && (if negb (status =? "") then frStatus row =? status else true)))
           (friend_requests db) in
  let count := Z.of_nat (length matching) in
  let offset := int64 ((page - 1) * limit) in
  match window offset limit matching with
  | Err err => Err err
  | Ok requests => Ok (requests, count)
  end.

Definition GetFriendshipsByUserID (db : DB) (userID : string) (page limit : Z)
  : result error (list Friendship * Z) :=
  let matching :=
    filter (fun row => liveFriendship row && (fsUserID row =? userID)) (friendships db) in
  let count := Z.of_nat (length matching) in
  let offset := int64 ((page - 1) * limit) in
  match window offset limit matching with
  | Err err => Err err
  | Ok friendships => Ok (friendships, count)
  end.

Definition GetBlockedUsers (db : DB) (userID : string) (page limit : Z)
  : result error (list BlockedUser * Z) :=
  let matching :=
    filter (fun row => liveBlocked row && (buUserID row =? userID)) (blocked_users db) in
  let count := Z.of_nat (length matching) in
  let offset := int64 ((page - 1) * limit) in
  match window offset limit matching with
  | Err err => Err err
  | Ok blockedUsers => Ok (blockedUsers, count)
  end.

End FriendRepository.

(** ** [internal/services/friend_service.go] *)

(** [friendService.SendFriendRequest]. *)
Definition SendFriendRequest (now : Z) (uuid : string) (db : DB)
           (senderID receiverID : string) : result error FriendRequest * DB :=
  if senderID =? receiverID
  then (Err (ErrorsNew "cannot send friend request to yourself"), db)
  else
    let checked (status : string) : result error FriendRequest * DB :=
      if status =? "friends" then (Err (ErrorsNew "already friends"), db)
      else if status =? "pending" then (Err (ErrorsNew "friend request already sent"), db)
      else if status =? "blocked"
      then (Err (ErrorsNew "cannot send friend request to blocked user"), db)
      else
        let request := mkFriendRequest "" senderID receiverID "pending" 0 0 None in
        match FriendRepository.CreateFriendRequest now uuid db request with
        | Err err => (Err err, db)
        | Ok (request, db) => (Ok request, db)
        end in
    match FriendRepository.CheckFriendship db senderID receiverID with
    | Ok (status, _) => checked status
    | Err ErrRecordNotFound => checked ""
    | Err err => (Err err, db)
    end.

(** [friendService.AcceptFriendRequest].  The two friendship rows get their
    ids from two calls of [generateUUID]. *)
Definition AcceptFriendRequest (now : Z) (uuid1 uuid2 : string) (db : DB)
           (requestID userID : string) : result error FriendRequest * DB :=
  match FriendRepository.GetFriendRequestByID db requestID with
  | Err err => (Err err, db)
  | Ok request =>
    if negb (frReceiverID request =? userID)
    then (Err (ErrorsNew "not authorized to accept this friend request"), db)
    else if negb (frStatus request =? "pending")
    then (Err (ErrorsNew "friend request is not pending"), db)
    else
      match FriendRepository.UpdateFriendRequestStatus now db requestID "accepted" with
      | Err err => (Err err, db)
      | Ok db =>
        let friendship1 :=
          mkFriendship "" (frSenderID request) (frReceiverID request) 0 0 None in
        match FriendRepository.CreateFriendship now uuid1 db friendship1 with
        | Err err => (Err err, db)
        | Ok db =>
          let friendship2 :=
            mkFriendship "" (frReceiverID request) (frSenderID request) 0 0 None in
          match FriendRepository.CreateFriendship now uuid2 db friendship2 with
          | Err err => (Err err, db)
          | Ok db =>
            let request := set_frStatus request "accepted" in
            let request := set_frUpdatedAt request now in
            (Ok request, db)
          end
        end
      end
  end.

(** [friendService.RejectFriendRequest]. *)
Definition RejectFriendRequest (now : Z) (db : DB) (requestID userID : string)
  : result error FriendRequest * DB :=
  match FriendRepository.GetFriendRequestByID db requestID with
  | Err err => (Err err, db)
  | Ok request =>
    if negb (frReceiverID request =? userID)
    then (Err (ErrorsNew "not authorized to reject this friend request"), db)
    else if negb (frStatus request =? "pending")
    then (Err (ErrorsNew "friend request is not pending"), db)
    else
      match FriendRepository.UpdateFriendRequestStatus now db requestID "rejected" with
      | Err err => (Err err, db)
      | Ok db =>
        let request := set_frStatus request "rejected" in
        let request := set_frUpdatedAt request now in
        (Ok request, db)
      end
  end.

(** [friendService.CheckFriendship]: status, request id. *)
Definition CheckFriendship (db : DB) (userID friendID : string)
  : result error (string * string) :=
  if userID =? friendID then Ok ("self", "")
  else
    match FriendRepository.CheckFriendship db userID friendID with
    | Ok (status, requestID) => Ok (status, requestID)
    | Err ErrRecordNotFound => Ok ("", "")
    | Err err => Err err
    end.

(** [friendService.GetFriendRequests]. *)
Definition GetFriendRequests (db : DB) (userID status : string) (page limit : Z)
  : execution (result error (list FriendRequest * Z * Z)) :=
  match FriendRepository.GetFriendRequestsByReceiverID db userID status page limit with
  | Err err => Returns (Err err)
  | Ok (requests, count) =>
    match totalPages count limit with
    | Panics msg => Panics msg
    | Returns totalPages => Returns (Ok (requests, count, totalPages))
    end
  end.

(** [friendService.GetFriends]. *)
Definition GetFriends (db : DB) (userID : string) (page limit : Z)
  : execution (result error (list Friendship * Z * Z)) :=
  match FriendRepository.GetFriendshipsByUserID db userID page limit with
  | Err err => Returns (Err err)
  | Ok (friendships, count) =>
    match totalPages count limit with
    | Panics msg => Panics msg
    | Returns totalPages => Returns (Ok (friendships, count, totalPages))
    end
  end.

(** [friendService.GetBlockedUsers]. *)
Definition GetBlockedUsers (db : DB) (userID : string) (page limit : Z)
  : execution (result error (list BlockedUser * Z * Z)) :=
  match FriendRepository.GetBlockedUsers db userID page limit with
  | Err err => Returns (Err err)
  | Ok (blockedUsers, count) =>
    match totalPages count limit with
    | Panics msg => Panics msg
    | Returns totalPages => Returns (Ok (blockedUsers, count, totalPages))
    end
  end.

(** [friendService.RemoveFriend]: the error, [None] for nil. *)
Definition RemoveFriend (now : Z) (db : DB) (userID friendID : string)
  : option error * DB :=
  match FriendRepository.CheckFriendship db userID friendID with
  | Err err => (Some err, db)
  | Ok (status, _) =>
    if negb (status =? "friends") then (Some (ErrorsNew "not friends"), db)
    else FriendRepository.DeleteFriendship now db userID friendID
  end.

(** [friendService.BlockUser]. *)
Definition BlockUser (now : Z) (uuid : string) (db : DB) (userID blockedUserID : string)
  : option error * DB :=
  if userID =? blockedUserID then (Some (ErrorsNew "cannot block yourself"), db)
  else
    match FriendRepository.IsUserBlocked db userID blockedUserID with
    | Err err => (Some err, db)
    | Ok isBlocked =>
      if isBlocked then (Some (ErrorsNew "user is already blocked"), db)
      else
        let block (db : DB) : option error * DB :=
          let blockedUser := mkBlockedUser "" userID blockedUserID 0 0 None in
          match FriendRepository.BlockUser now uuid db blockedUser with
          | Err err => (Some err, db)
          | Ok db => (None, db)
          end in
        let unfriend (status : string) : option error * DB :=
          if status =? "friends"
          then match FriendRepository.DeleteFriendship now db userID blockedUserID with
               | (Some err, db) => (Some err, db)
               | (None, db) => block db
               end
          else block db in
        match FriendRepository.CheckFriendship db userID blockedUserID with
        | Ok (status, _) => unfriend status
        | Err ErrRecordNotFound => unfriend ""
        | Err err => (Some err, db)
        end
    end.

(** [friendService.UnblockUser]. *)
Definition UnblockUser (now : Z) (db : DB) (userID blockedUserID : string)
  : option error * DB :=
  match FriendRepository.IsUserBlocked db userID blockedUserID with
  | Err err => (Some err, db)
  | Ok isBlocked =>
    if negb isBlocked then (Some (ErrorsNew "user is not blocked"), db)
    else match FriendRepository.UnblockUser now db userID blockedUserID with
         | Err err => (Some err, db)
         | Ok db => (None, db)
         end
  end.

End Friends.

(** * The group service: [groups-api] *)

Module Groups.

(** ** [internal/models/group.go] *)

Record Group := mkGroup {
  gID : string;
  gName : string;
  gDescription : string;
  gAvatar : string;
  gCreatorID : string;
  gCreatedAt : Z;
  gUpdatedAt : Z;
  gDeletedAt : option Z
}.

Record GroupMember := mkGroupMember {
  gmID : string;
  gmGroupID : string;
  gmUserID : string;
  gmRole : string;
  gmJoinedAt : Z;
  gmCreatedAt : Z;
  gmUpdatedAt : Z;
  gmDeletedAt : option Z
}.

Record DB := mkDB {
  groups : list Group;
  group_members : list GroupMember
}.

Definition set_groups (db : DB) (v : list Group) : DB := mkDB v (group_members db).
Definition set_group_members (db : DB) (v : list GroupMember) : DB := mkDB (groups db) v.

(** The soft delete of a membership row at [now]; the column [updated_at]
    is declared [ON UPDATE CURRENT_TIMESTAMP] and follows. *)
Definition softDelete (m : GroupMember) (now : Z) : GroupMember :=
  mkGroupMember (gmID m) (gmGroupID m) (gmUserID m) (gmRole m)
                (gmJoinedAt m) (gmCreatedAt m) now (Some now).

Definition softDeleteGroup (g : Group) (now : Z) : Group :=
  mkGroup (gID g) (gName g) (gDescription g) (gAvatar g) (gCreatorID g)
          (gCreatedAt g) now (Some now).

Definition set_gName (g : Group) (v : string) : Group :=
  mkGroup (gID g) v (gDescription g) (gAvatar g) (gCreatorID g)
          (gCreatedAt g) (gUpdatedAt g) (gDeletedAt g).
Definition set_gDescription (g : Group) (v : string) : Group :=
  mkGroup (gID g) (gName g) v (gAvatar g) (gCreatorID g)
          (gCreatedAt g) (gUpdatedAt g) (gDeletedAt g).
Definition set_gAvatar (g : Group) (v : string) : Group :=
  mkGroup (gID g) (gName g) (gDescription g) v (gCreatorID g)
          (gCreatedAt g) (gUpdatedAt g) (gDeletedAt g).
Definition set_gUpdatedAt (g : Group) (v : Z) : Group :=
  mkGroup (gID g) (gName g) (gDescription g) (gAvatar g) (gCreatorID g)
          (gCreatedAt g) v (gDeletedAt g).

(** ** [internal/repository/group_repository.go] *)

Module GroupRepository.

Definition liveGroup (row : Group) : bool := isNone (gDeletedAt row).
Definition liveMember (row : GroupMember) : bool := isNone (gmDeletedAt row).

(** [CreateGroup]: [BeforeCreate] fills the empty ID, GORM the zero
    timestamps; the primary key must be new. *)
Definition CreateGroup (now : Z) (uuid : string) (db : DB) (group : Group)
  : result error (Group * DB) :=
  let group :=
    mkGroup (if gID group =? "" then uuid else gID group)
            (gName group) (gDescription group) (gAvatar group) (gCreatorID group)
            (autoTime now (gCreatedAt group)) (autoTime now (gUpdatedAt group))
            (gDeletedAt group) in
  if existsb (fun row => gID row =? gID group) (groups db)
  then Err ErrDuplicatedKey
  else Ok (group, set_groups db (groups db ++ [group])).

Definition GetGroupByID (db : DB) (id : string) : result error Group :=
  first (filter (fun row => liveGroup row && (gID row =? id)) (groups db)).

(** [AddMember]: [BeforeCreate] fills the empty ID and the zero
    [JoinedAt].  The unique index of the table is
    [(group_id, user_id, deleted_at)], which a row with a NULL
    [deleted_at] cannot violate; the primary key must be new. *)
Definition AddMember (now : Z) (uuid : string) (db : DB) (member : GroupMember)
  : result error DB :=
  let member :=
    mkGroupMember (if gmID member =? "" then uuid else gmID member)
                  (gmGroupID member) (gmUserID member) (gmRole member)
                  (autoTime now (gmJoinedAt member))
                  (autoTime now (gmCreatedAt member))
                  (autoTime now (gmUpdatedAt member)) (gmDeletedAt member) in
  if existsb (fun row => gmID row =? gmID member) (group_members db)
  then Err ErrDuplicatedKey
  else Ok (set_group_members db (group_members db ++ [member])).

(** The rows [RemoveMember] touches. *)
Definition membership (groupID userID : string) (row : GroupMember) : bool :=
  liveMember row && ((gmGroupID row =? groupID) && (gmUserID row =? userID)).

(** [RemoveMember]: soft delete of the live rows of that group and user,
    all stamped [now].  The statement violates the unique index
    [(group_id, user_id, deleted_at)] when two rows get the stamp, or
    when one does and an earlier soft-deleted row of the pair carries
    the same stamp. *)
Definition RemoveMember (now : Z) (db : DB) (groupID userID : string)
  : result error DB :=
  let touched := filter (membership groupID userID) (group_members db) in
  let stamped :=
    existsb (fun row =>
               (gmGroupID row =? groupID) && (gmUserID row =? userID)
               && match gmDeletedAt row with
                  | Some t => (t =? now)%Z
                  | None => false
                  end)
            (group_members db) in
  if (1 <? length touched)%nat || ((0 <? length touched)%nat && stamped)
  then Err ErrDuplicatedKey
  else Ok (set_group_members db
             (map (fun row =>
                       if membership groupID userID row
                       then softDelete row now
                       else row)
                  (group_members db))).

Definition GetGroupMembers (db : DB) (groupID : string) (page limit : Z)
  : result error (list GroupMember * Z) :=
  let matching :=
    filter (fun row => liveMember row && (gmGroupID row =? groupID)) (group_members db) in
  let count := Z.of_nat (length matching) in
  let offset := int64 ((page - 1) * limit) in
  Ok (paged offset limit matching, count).

Definition IsMember (db : DB) (groupID userID : string) : result error bool :=
  let count :=
    Z.of_nat (length (filter (membership groupID userID) (group_members db))) in
  Ok (count >? 0)%Z.

(** [UpdateGroup]: [Save] sets [UpdatedAt] and writes every column of the
    live row with the group's primary key; when no live row has it, [Save]
    falls back to an insert that overwrites a row with the same key. *)
Definition UpdateGroup (now : Z) (db : DB) (group : Group) : result error (Group * DB) :=
  let group := set_gUpdatedAt group now in
  if existsb (fun row => liveGroup row && (gID row =? gID group)) (groups db)
  then Ok (group,
           set_groups db
             (map (fun row => if liveGroup row && (gID row =? gID group) then group else row)
                  (groups db)))
  else if existsb (fun row => gID row =? gID group) (groups db)
  then Ok (group,
           set_groups db
             (map (fun row => if gID row =? gID group then group else row) (groups db)))
  else Ok (group, set_groups db (groups db ++ [group])).

(** [DeleteGroup]: soft delete of the live rows with that id. *)
Definition DeleteGroup (now : Z) (db : DB) (id : string) : result error DB :=
  Ok (set_groups db
        (map (fun row =>
                if liveGroup row && (gID row =? id) then softDeleteGroup row now else row)
             (groups db))).

Definition GetMemberByID (db : DB) (groupID userID : string) : result error GroupMember :=
  first (filter (membership groupID userID) (group_members db)).

(** [GetGroupMembers] for any page and limit. *)
Definition GetGroupMembersPage (db : DB) (groupID : string) (page limit : Z)
  : result error (list GroupMember * Z) :=
  let matching :=
    filter (fun row => liveMember row && (gmGroupID row =? groupID)) (group_members db) in
  let count := Z.of_nat (length matching) in
  let offset := int64 ((page - 1) * limit) in
  match window offset limit matching with
  | Err err => Err err
  | Ok members => Ok (members, count)
  end.

End GroupRepository.

(** ** [internal/services/group_service.go] *)

(** What [JoinGroup] and [LeaveGroup] return: [(bool, int32, error)]. *)
Definition outcome : Type := bool * Z * option error.

(** [groupService.CreateGroup].  The group and its creator's membership
    get their ids from two calls of [generateUUID]. *)
Definition CreateGroup (now : Z) (uuid1 uuid2 : string) (db : DB)
           (userID name description avatar : string) : result error Group * DB :=
  if userID =? "" then (Err (ErrorsNew "user ID is required"), db)
  else if name =? "" then (Err (ErrorsNew "group name is required"), db)
  else
    let group := mkGroup "" name description avatar userID 0 0 None in
    match GroupRepository.CreateGroup now uuid1 db group with
    | Err err => (Err err, db)
    | Ok (group, db) =>
      let member := mkGroupMember "" (gID group) userID "creator" 0 0 0 None in
      match GroupRepository.AddMember now uuid2 db member with
      | Err _ => (Ok group, db)
      | Ok db => (Ok group, db)
      end
    end.

(** [groupService.JoinGroup]. *)
Definition JoinGroup (now : Z) (uuid : string) (db : DB) (groupID userID : string)
  : outcome * DB :=
  match GroupRepository.GetGroupByID db groupID with
  | Err err => ((false, 0%Z, Some err), db)
  | Ok _ =>
    match GroupRepository.IsMember db groupID userID with
    | Err err => ((false, 0%Z, Some err), db)
    | Ok isMember =>
      if isMember
      then ((false, 0%Z, Some (ErrorsNew "already a member of this group")), db)
      else
        let member := mkGroupMember "" groupID userID "member" 0 0 0 None in
        match GroupRepository.AddMember now uuid db member with
        | Err err => ((false, 0%Z, Some err), db)
        | Ok db =>
          match GroupRepository.GetGroupMembers db groupID 1 1 with
          | Err _ => ((true, 0%Z, None), db)
          | Ok (_, count) => ((true, int32 count, None), db)
          end
        end
    end
  end.

(** [groupService.LeaveGroup]. *)
Definition LeaveGroup (now : Z) (db : DB) (groupID userID : string) : outcome * DB :=
  match GroupRepository.GetGroupByID db groupID with
  | Err err => ((false, 0%Z, Some err), db)
  | Ok group =>
    match GroupRepository.IsMember db groupID userID with
    | Err err => ((false, 0%Z, Some err), db)
    | Ok isMember =>
      if negb isMember
      then ((false, 0%Z, Some (ErrorsNew "not a member of this group")), db)
      else if gCreatorID group =? userID
      then ((false, 0%Z, Some (ErrorsNew "creator cannot leave the group")), db)
      else
        match GroupRepository.RemoveMember now db groupID userID with
        | Err err => ((false, 0%Z, Some err), db)
        | Ok db =>
          match GroupRepository.GetGroupMembers db groupID 1 1 with
          | Err _ => ((true, 0%Z, None), db)
          | Ok (_, count) => ((true, int32 count, None), db)
          end
        end
    end
  end.

(** [groupService.UpdateGroup]. *)
Definition UpdateGroup (now : Z) (db : DB) (id userID name description avatar : string)
  : result error Group * DB :=
  match GroupRepository.GetGroupByID db id with
  | Err err => (Err err, db)
  | Ok group =>
    match GroupRepository.GetMemberByID db id userID with
    | Err _ => (Err (ErrorsNew "not authorized to update this group"), db)
    | Ok member =>
      if negb (gmRole member =? "creator") && negb (gmRole member =? "admin")
      then (Err (ErrorsNew "not authorized to update this group"), db)
      else
        let group := if negb (name =? "") then set_gName group name else group in
        let group :=
          if negb (description =? "") then set_gDescription group description else group in
        let group := if negb (avatar =? "") then set_gAvatar group avatar else group in
        match GroupRepository.UpdateGroup now db group with
        | Err err => (Err err, db)
        | Ok (group, db) => (Ok group, db)
        end
    end
  end.

(** [groupService.DeleteGroup]: the error, [None] for nil. *)
Definition DeleteGroup (now : Z) (db : DB) (id userID : string) : option error * DB :=
  match GroupRepository.GetGroupByID db id with
  | Err err => (Some err, db)
  | Ok group =>
    if negb (gCreatorID group =? userID)
    then (Some (ErrorsNew "not authorized to delete this group"), db)
    else match GroupRepository.DeleteGroup now db id with
         | Err err => (Some err, db)
         | Ok db => (None, db)
         end
  end.

(** [groupService.GetGroupMembers]. *)
Definition GetGroupMembers (db : DB) (groupID : string) (page limit : Z)
  : execution (result error (list GroupMember * Z * Z)) :=
  match GroupRepository.GetGroupByID db groupID with
  | Err err => Returns (Err err)
  | Ok _ =>
    match GroupRepository.GetGroupMembersPage db groupID page limit with
    | Err err => Returns (Err err)
    | Ok (members, count) =>
      match totalPages count limit with
      | Panics msg => Panics msg
      | Returns totalPages => Returns (Ok (members, count, totalPages))
      end
    end
  end.

End Groups.

(** * Vocabulary of the specification *)

Module Spec.

(** A possibly nil friend-id list contains an id. *)
Definition contains (friendIDs : option (list string)) (id : string) : Prop :=
  match friendIDs with
  | Some ids => In id ids
  | None => False
  end.

(** The four visibility rules of the resolver. *)
Definition visible (visibility authorID groupID viewerID : string)
           (friendIDs : option (list string)) : Prop :=
  visibility = "public"
  \/ viewerID = authorID
  \/ (visibility = "private" /\ contains friendIDs authorID)
  \/ groupID <> "".

(** "For every existing Post with visibility = private and every viewer
    that is neither the author nor in the author's friend list, GetPost
    fails with PermissionDenied." *)
Definition private_post_denied : Prop :=
  forall (db : Posts.DB) (postID viewerID : string) (friends : list string)
         (post : Posts.Post),
    postID <> "" ->
    Posts.PostRepository.FindByID db postID = Ok post ->
    Posts.Visibility post = "private" ->
    viewerID <> Posts.AuthorID post ->
    ~ In viewerID friends ->
    exists msg, Posts.GetPost db postID viewerID = Err (mkStatus PermissionDenied msg).

(** "page < 1 is coerced to 1". *)
Definition effectivePage (page : Z) : Z := Z.max 1 page.

(** "limit outside [1,100] is coerced to 10". *)
Definition effectiveLimit (limit : Z) : Z :=
  if (1 <=? limit)%Z && (limit <=? 100)%Z then limit else 10%Z.

(** [pages] is the ceiling of [count / limit]. *)
Definition ceiling (pages count limit : Z) : Prop :=
  ((pages - 1) * limit < count <= pages * limit)%Z.

(** The filter of the branch [GetPosts] takes: author, then group, then
    the public listing for an anonymous or public request, else the
    listing of public posts and private posts of friends. *)
Definition selected (userID authorID groupID visibility : string)
           (friendIDs : option (list string)) (row : Posts.Post) : bool :=
  if negb (authorID =? "") then Posts.AuthorID row =? authorID
  else if negb (groupID =? "") then Posts.GroupID row =? groupID
  else if (userID =? "") || (visibility =? "public")
  then Posts.Visibility row =? "public"
  else (Posts.Visibility row =? "public")
       || ((Posts.Visibility row =? "private")
           && Posts.PostRepository.inIDs (Posts.AuthorID row) friendIDs).

(** "UpdatePost fails with NotFound when the post id does not resolve, and
    with PermissionDenied when userID differs from the post's author id",
    for every call. *)
Definition update_errors : Prop :=
  forall (now : Z) (db : Posts.DB) (postID userID content visibility : string)
         (media : option (list string)),
    ((exists e, Posts.PostRepository.FindByID db postID = Err e) ->
     exists msg,
       fst (Posts.UpdatePost now db postID userID content visibility media)
       = Err (mkStatus NotFound msg))
    /\ (forall post,
           Posts.PostRepository.FindByID db postID = Ok post ->
           Posts.AuthorID post <> userID ->
           exists msg,
             fst (Posts.UpdatePost now db postID userID content visibility media)
             = Err (mkStatus PermissionDenied msg)).

(** The arguments [UpdatePost] accepts. *)
Definition valid_update (postID userID content visibility : string) : Prop :=
  postID <> "" /\ userID <> "" /\ content <> ""
  /\ (visibility = "" \/ visibility = "public" \/ visibility = "private").

(** The fields an update leaves alone. *)
Definition same_frame (post post' : Posts.Post) : Prop :=
  Posts.ID post' = Posts.ID post
  /\ Posts.AuthorID post' = Posts.AuthorID post
  /\ Posts.AuthorName post' = Posts.AuthorName post
  /\ Posts.AuthorAvatar post' = Posts.AuthorAvatar post
  /\ Posts.GroupID post' = Posts.GroupID post
  /\ Posts.GroupName post' = Posts.GroupName post
  /\ Posts.LikesCount post' = Posts.LikesCount post
  /\ Posts.CommentsCount post' = Posts.CommentsCount post
  /\ Posts.CreatedAt post' = Posts.CreatedAt post
  /\ Posts.DeletedAt post' = Posts.DeletedAt post.

(** The fields an update writes. *)
Definition edited (post post' : Posts.Post) (now : Z) (content visibility : string)
           (media : option (list string)) : Prop :=
  Posts.Content post' = content
  /\ Posts.UpdatedAt post' = now
  /\ (visibility = "" -> Posts.Visibility post' = Posts.Visibility post)
  /\ (visibility <> "" -> Posts.Visibility post' = visibility)
  /\ (media = None ->
      Posts.MediaArray post' = Posts.MediaArray post
      /\ Posts.Media post' = Posts.Media post)
  /\ (media <> None -> Posts.MediaArray post' = media).

(** "LeaveGroup fails with the error 'creator cannot leave the group'
    whenever u is g's creator." *)
Definition creator_error : Prop :=
  forall (now : Z) (db : Groups.DB) (groupID userID : string) (group : Groups.Group),
    Groups.GroupRepository.GetGroupByID db groupID = Ok group ->
    Groups.gCreatorID group = userID ->
    fst (Groups.LeaveGroup now db groupID userID)
    = (false, 0%Z, Some (ErrorsNew "creator cannot leave the group")).

End Spec.

(** * Vocabulary of the further properties *)

Module Props.

(** Rows by decreasing key: no row is followed by a row with a larger key. *)
Definition newestFirst {A : Type} (key : A -> Z) (rows : list A) : Prop :=
  StronglySorted (fun x y => (key y <= key x)%Z) rows.

(** The number of live likes of a post. *)
Definition liveLikes (db : Posts.DB) (postID : string) : Z :=
  Z.of_nat (length (filter (fun row => Posts.LikeRepository.live row
                                       && (Posts.lPostID row =? postID))
                           (Posts.likes db))).

(** Every live post carries the number of its live likes. *)
Definition likes_counted (db : Posts.DB) : Prop :=
  forall row,
    In row (Posts.posts db) ->
    Posts.PostRepository.live row = true ->
    Posts.LikesCount row = liveLikes db (Posts.ID row).

(** The primary key of the likes table. *)
Definition like_ids_distinct (db : Posts.DB) : Prop :=
  NoDup (map Posts.lID (Posts.likes db)).

(** The clock has passed every deletion stamp of a table. *)
Definition later {A : Type} (deletedAt : A -> option Z) (now : Z) (rows : list A) : Prop :=
  forall row t, In row rows -> deletedAt row = Some t -> (t < now)%Z.

(** A row relates the two users, in one direction or the other. *)
Definition between (a b x y : string) : bool :=
  ((x =? a) && (y =? b)) || ((x =? b) && (y =? a)).

(** No request, friendship or block, live or deleted, relates two users. *)
Definition strangers (db : Friends.DB) (a b : string) : Prop :=
  (forall row, In row (Friends.friend_requests db) ->
               between a b (Friends.frSenderID row) (Friends.frReceiverID row) = false)
  /\ (forall row, In row (Friends.friendships db) ->
                  between a b (Friends.fsUserID row) (Friends.fsFriendID row) = false)
  /\ (forall row, In row (Friends.blocked_users db) ->
                  between a b (Friends.buUserID row) (Friends.buBlockedUserID row) = false).

End Props.

(** * Sample data

    The rows of [database/seeds/posts.sql], all created at the same time. *)

Module Examples.
Import Posts.

Definition post1 : Post :=
  mkPost "post1" "user1" "John Doe" "https://example.com/avatars/john.jpg"
         "This is a public post by John" "public" "" ""
         ["https://example.com/images/sample1.jpg"] None 2 1 100 100 None.
Definition post2 : Post :=
  mkPost "post2" "user1" "John Doe" "https://example.com/avatars/john.jpg"
         "This is a private post by John" "private" "" "" [] None 0 0 100 100 None.
Definition post3 : Post :=
  mkPost "post3" "user2" "Jane Smith" "https://example.com/avatars/jane.jpg"
         "This is a public post by Jane" "public" "" "" [] None 1 2 100 100 None.
Definition post4 : Post :=
  mkPost "post4" "user2" "Jane Smith" "https://example.com/avatars/jane.jpg"
         "This is a post in Group A" "public" "group1" "Group A" [] None 0 0 100 100 None.
Definition post5 : Post :=
  mkPost "post5" "user3" "Bob Johnson" "https://example.com/avatars/bob.jpg"
         "This is a post in Group B" "public" "group2" "Group B"
         ["https://example.com/images/sample2.jpg";
          "https://example.com/images/sample3.jpg"] None 1 1 100 100 None.

Definition comment1 : Comment :=
  mkComment "comment1" "post1" "user2" "Jane Smith" "https://example.com/avatars/jane.jpg"
            "Great post, John!" 100 100 None.
Definition comment2 : Comment :=
  mkComment "comment2" "post3" "user1" "John Doe" "https://example.com/avatars/john.jpg"
            "Thanks for sharing, Jane!" 100 100 None.
Definition comment3 : Comment :=
  mkComment "comment3" "post3" "user3" "Bob Johnson" "https://example.com/avatars/bob.jpg"
            "I agree with John!" 100 100 None.
Definition comment4 : Comment :=
  mkComment "comment4" "post5" "user1" "John Doe" "https://example.com/avatars/john.jpg"
            "Nice photos, Bob!" 100 100 None.

Definition seed_db : DB :=
  mkDB [post1; post2; post3; post4; post5]
       [comment1; comment2; comment3; comment4]
       [mkLike "like1" "post1" "user2" 100 None;
        mkLike "like2" "post1" "user3" 100 None;
        mkLike "like3" "post3" "user1" 100 None;
        mkLike "like4" "post5" "user2" 100 None].

(** The empty posts database. *)
Definition empty_db : DB := mkDB [] [] [].

(** A private post of user1 that carries a group id, added to the seeds. *)
Definition post6 : Post :=
  mkPost "post6" "user1" "User user1" "" "members only" "private"
         "group1" "Group group1" [] None 0 0 200 200 None.

Definition grouped_db : DB :=
  mkDB (posts seed_db ++ [post6]) (comments seed_db) (likes seed_db).

(** The rows of the friends seed file. *)
Definition friends_seed : Friends.DB :=
  Friends.mkDB
    [Friends.mkFriendRequest "fr-001" "user-001" "user-002" "pending" 100 100 None;
     Friends.mkFriendRequest "fr-002" "user-003" "user-001" "pending" 100 100 None;
     Friends.mkFriendRequest "fr-003" "user-004" "user-001" "accepted" 100 100 None;
     Friends.mkFriendRequest "fr-004" "user-001" "user-005" "accepted" 100 100 None;
     Friends.mkFriendRequest "fr-005" "user-006" "user-001" "rejected" 100 100 None;
     Friends.mkFriendRequest "fr-006" "user-001" "user-007" "rejected" 100 100 None]
    [Friends.mkFriendship "f-001" "user-001" "user-004" 100 100 None;
     Friends.mkFriendship "f-002" "user-004" "user-001" 100 100 None;
     Friends.mkFriendship "f-003" "user-001" "user-005" 100 100 None;
     Friends.mkFriendship "f-004" "user-005" "user-001" 100 100 None]
    [Friends.mkBlockedUser "bu-001" "user-001" "user-008" 100 100 None;
     Friends.mkBlockedUser "bu-002" "user-009" "user-001" 100 100 None].

(** A group with its creator user1 and the member user2. *)
Definition group1 : Groups.Group :=
  Groups.mkGroup "group1" "Group A" "first group" "" "user1" 100 100 None.

Definition group_db : Groups.DB :=
  Groups.mkDB [group1]
              [Groups.mkGroupMember "gm1" "group1" "user1" "creator" 100 100 100 None;
               Groups.mkGroupMember "gm2" "group1" "user2" "member" 100 100 100 None].

(** A second group, created by user3 through [CreateGroup] with a member id
    that is taken: the enrollment of the creator fails, [CreateGroup]
    still succeeds, and group2 is left without a membership row of user3. *)
Definition group2 : Groups.Group :=
  Groups.mkGroup "group2" "Group B" "second group" "" "user3" 150 150 None.

Definition orphan_db : Groups.DB :=
  snd (Groups.CreateGroup 150 "group2" "gm2" group_db
                          "user3" "Group B" "second group" "").

End Examples.

(** * Facts about the machine integers *)

Module GoIntFacts.

Lemma int32_small z : in_int32 z -> int32 z = z.
Proof.
  unfold in_int32, int32, wrap; intros H.
  change (32 - 1)%Z with 31%Z. change (2 ^ 32)%Z with (2 * 2 ^ 31)%Z.
  rewrite Z.mod_small; lia.
Qed.

Lemma int64_small z : in_int64 z -> int64 z = z.
Proof.
  unfold in_int64, int64, wrap; intros H.
  change (64 - 1)%Z with 63%Z. change (2 ^ 64)%Z with (2 * 2 ^ 63)%Z.
  rewrite Z.mod_small; lia.
Qed.

End GoIntFacts.

(** * The post service: visibility *)

Module PostsVisibility.
Import Posts.

Lemma existsb_eqb_In (x : string) (l : list string) :
  existsb (fun y => y =? x) l = true <-> In x l.
Proof.
  rewrite existsb_exists. split.
  - intros [y [Hin Heq]]. apply String.eqb_eq in Heq. now subst.
  - intros Hin. exists x. split; [assumption | apply String.eqb_refl].
Qed.

(** C1.  [isPostVisibleToUser] is a total function of the post, the viewer
    id and the friend-id list, and it answers [true] exactly when one of
    the four rules applies: the post is public, or the viewer is the
    author, or the post is private and the friend list contains the
    author, or the post has a group id. *)
Theorem isPostVisibleToUser_rules (post : Post) (userID : string)
        (friendIDs : option (list string)) :
  isPostVisibleToUser post userID friendIDs = true
  <-> Spec.visible (Visibility post) (AuthorID post) (GroupID post) userID friendIDs.
Proof.
  unfold isPostVisibleToUser, Spec.visible, Spec.contains.
  destruct (String.eqb_spec (Visibility post) "public") as [Hpub | Hpub].
  { split; auto. }
  destruct (String.eqb_spec userID (AuthorID post)) as [Hown | Hown].
  { split; auto. }
  destruct (String.eqb_spec (Visibility post) "private") as [Hpriv | Hpriv];
    destruct friendIDs as [ids | ]; cbn [andb].
  - destruct (existsb (fun friendID => friendID =? AuthorID post) ids) eqn:Hex.
    + split; auto. intros _. right; right; left. split; auto.
      now apply existsb_eqb_In.
    + assert (Hnot : ~ In (AuthorID post) ids).
      { intros Hin. apply existsb_eqb_In in Hin. congruence. }
      destruct (String.eqb_spec (GroupID post) ""); cbn [negb].
      * split; [discriminate | ]. intros [? | [? | [[_ ?] | ?]]]; contradiction.
      * split; auto.
  - destruct (String.eqb_spec (GroupID post) ""); cbn [negb].
    + split; [discriminate | ]. intros [? | [? | [[_ []] | ?]]]; contradiction.
    + split; auto.
  - destruct (String.eqb_spec (GroupID post) ""); cbn [negb].
    + split; [discriminate | ]. intros [? | [? | [[? _] | ?]]]; contradiction.
    + split; auto.
  - destruct (String.eqb_spec (GroupID post) ""); cbn [negb].
    + split; [discriminate | ]. intros [? | [? | [[? _] | ?]]]; contradiction.
    + split; auto.
Qed.

End PostsVisibility.

(** * The post service: reading one post *)

Module PostsGetPost.
Import Posts Examples.

(** What [GetPost] answers once the post is found, in terms of the
    visibility check with the nil friend list. *)
Lemma GetPost_found (db : DB) (postID userID : string) (post : Post) :
  postID <> "" ->
  PostRepository.FindByID db postID = Ok post ->
  GetPost db postID userID =
  if isPostVisibleToUser post userID None
  then Ok (post,
           if negb (userID =? "")
           then match IsLiked db postID userID with Ok b => b | Err _ => false end
           else false)
  else status PermissionDenied "you don't have permission to view this post".
Proof.
  intros Hid Hfind. unfold GetPost.
  destruct (String.eqb_spec postID ""); [contradiction | ].
  rewrite Hfind. now destruct (isPostVisibleToUser post userID None).
Qed.

(** A private post without group is visible, under the nil friend list,
    to its author only. *)
Lemma private_ungrouped_visibility (post : Post) (userID : string) :
  Visibility post = "private" ->
  GroupID post = "" ->
  isPostVisibleToUser post userID None = (userID =? AuthorID post).
Proof.
  intros Hpriv Hgroup. unfold isPostVisibleToUser.
  rewrite Hpriv, Hgroup. cbn.
  now destruct (userID =? AuthorID post).
Qed.

(** C2, as stated, fails: user3 is neither the author user1 nor among the
    author's friends, the post is private, and [GetPost] hands it out
    because it carries a group id. *)
Lemma private_post_denied_fails : ~ Spec.private_post_denied.
Proof.
  intros claim.
  destruct (claim grouped_db "post6" "user3" ["user2"] post6) as [msg Hmsg].
  - discriminate.
  - reflexivity.
  - reflexivity.
  - discriminate.
  - intros [H | []]. discriminate.
  - vm_compute in Hmsg. discriminate.
Qed.

(** C2, amended.  For every existing post with visibility private and an
    empty group id, and every viewer that is neither the author nor in the
    author's friend list, [GetPost] fails with PermissionDenied. *)
Theorem GetPost_private_ungrouped_denied
        (db : DB) (postID viewerID : string) (friends : list string) (post : Post) :
  postID <> "" ->
  PostRepository.FindByID db postID = Ok post ->
  Visibility post = "private" ->
  GroupID post = "" ->
  viewerID <> AuthorID post ->
  ~ In viewerID friends ->
  GetPost db postID viewerID =
  Err (mkStatus PermissionDenied "you don't have permission to view this post").
Proof.
  intros Hid Hfind Hpriv Hgroup Hother _.
  rewrite (GetPost_found db postID viewerID post Hid Hfind).
  rewrite (private_ungrouped_visibility post viewerID Hpriv Hgroup).
  now destruct (String.eqb_spec viewerID (AuthorID post)).
Qed.

Lemma GetPost_private_ungrouped_denied_witness :
  GetPost seed_db "post2" "user2" =
  Err (mkStatus PermissionDenied "you don't have permission to view this post").
Proof.
  apply (GetPost_private_ungrouped_denied seed_db "post2" "user2" ["user3"] post2).
  - discriminate.
  - reflexivity.
  - reflexivity.
  - reflexivity.
  - discriminate.
  - intros [H | []]. discriminate.
Defined.

(** C9.  [GetPost] runs the visibility check with the nil friend list.  For
    an existing private post without group id it therefore succeeds exactly
    for the author, and every other viewer gets PermissionDenied, whoever
    the viewer's or the author's friends are: no friend list reaches the
    call. *)
Theorem GetPost_private_only_author
        (db : DB) (postID viewerID : string) (post : Post) :
  postID <> "" ->
  PostRepository.FindByID db postID = Ok post ->
  Visibility post = "private" ->
  GroupID post = "" ->
  ((exists liked, GetPost db postID viewerID = Ok (post, liked))
   <-> viewerID = AuthorID post)
  /\ (viewerID <> AuthorID post ->
      GetPost db postID viewerID =
      Err (mkStatus PermissionDenied "you don't have permission to view this post")).
Proof.
  intros Hid Hfind Hpriv Hgroup.
  rewrite (GetPost_found db postID viewerID post Hid Hfind).
  rewrite (private_ungrouped_visibility post viewerID Hpriv Hgroup).
  destruct (String.eqb_spec viewerID (AuthorID post)) as [Heq | Hne].
  - split; [ | contradiction]. split; [auto | ]. intros _. eexists. reflexivity.
  - split; [ | reflexivity]. split; [ | contradiction].
    intros [liked Hok]. discriminate.
Qed.

Lemma GetPost_private_only_author_witness :
  ((exists liked, GetPost seed_db "post2" "user2" = Ok (post2, liked))
   <-> "user2" = AuthorID post2)
  /\ ("user2" <> AuthorID post2 ->
      GetPost seed_db "post2" "user2" =
      Err (mkStatus PermissionDenied "you don't have permission to view this post")).
Proof.
  apply (GetPost_private_only_author seed_db "post2" "user2" post2).
  - discriminate.
  - reflexivity.
  - reflexivity.
  - reflexivity.
Defined.

End PostsGetPost.

(** * The post service: listing with pagination *)

Module PostsPagination.
Import Posts GoIntFacts.

(** ** The branch of [GetPosts] and what it fetches *)

(** [GetPosts] in terms of the rows its branch selects: the count is their
    number, the fetched page is cut out of them, and the visibility check
    only runs on the fetched page. *)
Lemma GetPosts_unfold (db : DB) (userID authorID groupID visibility : string)
      (page limit : Z) (friendIDs : option (list string)) :
  let p := if (page <? 1)%Z then 1%Z else page in
  let l := if (limit <? 1)%Z || (limit >? 100)%Z then 10%Z else limit in
  let matching :=
    filter (fun row => PostRepository.live row
                       && Spec.selected userID authorID groupID visibility friendIDs row)
           (posts db) in
  let fetched :=
    map PostRepository.scan
        (paged (int64 ((p - 1) * l)) l (orderDesc CreatedAt matching)) in
  let count := Z.of_nat (length matching) in
  GetPosts db userID authorID groupID visibility page limit friendIDs =
  Ok (filter (fun post => isPostVisibleToUser post userID friendIDs) fetched,
      count,
      int32 (Z.quot (int64 (count + int64 l - 1)) (int64 l))).
Proof.
  unfold GetPosts, Spec.selected.
  destruct (authorID =? ""); cbn [negb].
  2: reflexivity.
  destruct (groupID =? ""); cbn [negb].
  2: reflexivity.
  destruct ((userID =? "") || (visibility =? "public")); reflexivity.
Qed.

(** ** The clamps *)

Lemma page_clamp (page : Z) :
  (if (page <? 1)%Z then 1%Z else page) = Spec.effectivePage page.
Proof. unfold Spec.effectivePage. destruct (Z.ltb_spec page 1); lia. Qed.

Lemma limit_clamp (limit : Z) :
  (if (limit <? 1)%Z || (limit >? 100)%Z then 10%Z else limit)
  = Spec.effectiveLimit limit.
Proof.
  unfold Spec.effectiveLimit. rewrite Z.gtb_ltb.
  destruct (Z.ltb_spec limit 1), (Z.ltb_spec 100 limit),
           (Z.leb_spec 1 limit), (Z.leb_spec limit 100); cbn; lia.
Qed.

Lemma effectiveLimit_range (limit : Z) : (1 <= Spec.effectiveLimit limit <= 100)%Z.
Proof.
  unfold Spec.effectiveLimit.
  destruct (Z.leb_spec 1 limit), (Z.leb_spec limit 100); cbn; lia.
Qed.

Lemma effectivePage_range (page : Z) : (1 <= Spec.effectivePage page)%Z.
Proof. unfold Spec.effectivePage. lia. Qed.

(** The offset of a page number that comes from an int32 request field
    fits Go's int. *)
Lemma offset_of_int32 (page limit : Z) :
  in_int32 page ->
  ((Spec.effectivePage page - 1) * Spec.effectiveLimit limit < 2 ^ 63)%Z.
Proof.
  intros Hp. pose proof (effectiveLimit_range limit) as Hl.
  unfold in_int32, Spec.effectivePage in *.
  assert ((Z.max 1 page - 1) * Spec.effectiveLimit limit <= (2 ^ 31) * 100)%Z by nia.
  lia.
Qed.

(** ** The arithmetic of the two services *)

(** The offset the repositories compute does not wrap. *)
Lemma offset_exact (p l : Z) :
  (1 <= p)%Z -> (1 <= l <= 100)%Z -> ((p - 1) * l < 2 ^ 63)%Z ->
  int64 ((p - 1) * l) = ((p - 1) * l)%Z.
Proof.
  intros Hp Hl Hfit. apply int64_small. unfold in_int64.
  assert (0 <= (p - 1) * l)%Z by nia.
  lia.
Qed.

(** [int32((count + int64(limit) - 1) / int64(limit))] is the ceiling of
    count / limit. *)
Lemma totalPages_ceiling (count l : Z) :
  (0 <= count < 2 ^ 31)%Z -> (1 <= l <= 100)%Z ->
  Spec.ceiling (int32 (Z.quot (int64 (count + int64 l - 1)) (int64 l))) count l.
Proof.
  intros Hc Hl. unfold Spec.ceiling.
  rewrite (int64_small l) by (unfold in_int64; lia).
  rewrite (int64_small (count + l - 1)) by (unfold in_int64; lia).
  rewrite Z.quot_div_nonneg by lia.
  pose proof (Z.div_mod (count + l - 1) l ltac:(lia)) as Hdm.
  pose proof (Z.mod_pos_bound (count + l - 1) l ltac:(lia)) as Hmod.
  set (q := ((count + l - 1) / l)%Z) in *.
  assert (Hq : (0 <= q <= count)%Z) by nia.
  rewrite int32_small by (unfold in_int32; lia).
  nia.
Qed.

Lemma GetComments_unfold (db : DB) (postID : string) (page limit : Z) :
  postID <> "" ->
  let p := if (page <? 1)%Z then 1%Z else page in
  let l := if (limit <? 1)%Z || (limit >? 100)%Z then 10%Z else limit in
  let matching :=
    filter (fun row => CommentRepository.live row && (cPostID row =? postID))
           (comments db) in
  let count := Z.of_nat (length matching) in
  GetComments db postID page limit =
  Ok (paged (int64 ((p - 1) * l)) l (orderDesc cCreatedAt matching),
      count,
      int32 (Z.quot (int64 (count + int64 l - 1)) (int64 l))).
Proof.
  intros Hid. unfold GetComments.
  destruct (String.eqb_spec postID ""); [contradiction | reflexivity].
Qed.

Lemma count_bound {A : Type} (f : A -> bool) (rows : list A) :
  (Z.of_nat (length rows) < 2 ^ 31)%Z ->
  (0 <= Z.of_nat (length (filter f rows)) < 2 ^ 31)%Z.
Proof. pose proof (filter_length_le f rows). lia. Qed.

(** C3.  Pagination of [GetPosts] and [GetComments], for every call whose
    offset fits Go's int, as it does for every page number an int32 request
    field can carry, on tables of fewer than 2^31 rows: a page below 1 is
    replaced by 1, a limit outside [1,100] by 10 (so 0 becomes 10 and 100 is
    kept), the repository reads the ordered matching rows at offset
    (page - 1) * limit, that is, it skips the first (page - 1) * limit of
    them and returns the next limit ones, and the returned total_pages is
    the ceiling of total_count / limit; with limit 10, a total count of 25
    gives 3 pages and one of 20 gives 2. *)
Theorem pagination_policy :
  (forall (db : DB) (userID authorID groupID visibility : string)
          (page limit : Z) (friendIDs : option (list string)),
      ((Spec.effectivePage page - 1) * Spec.effectiveLimit limit < 2 ^ 63)%Z ->
      (Z.of_nat (length (posts db)) < 2 ^ 31)%Z ->
      let p := Spec.effectivePage page in
      let l := Spec.effectiveLimit limit in
      let matching :=
        filter (fun row => PostRepository.live row
                           && Spec.selected userID authorID groupID visibility friendIDs row)
               (posts db) in
      exists totalPages : Z,
        GetPosts db userID authorID groupID visibility page limit friendIDs =
        Ok (filter (fun post => isPostVisibleToUser post userID friendIDs)
                   (map PostRepository.scan
                        (firstn (Z.to_nat l)
                                (skipn (Z.to_nat ((p - 1) * l))
                                       (orderDesc CreatedAt matching)))),
            Z.of_nat (length matching), totalPages)
        /\ Spec.ceiling totalPages (Z.of_nat (length matching)) l)
  /\ (forall (db : DB) (postID : string) (page limit : Z),
         postID <> "" ->
         ((Spec.effectivePage page - 1) * Spec.effectiveLimit limit < 2 ^ 63)%Z ->
         (Z.of_nat (length (comments db)) < 2 ^ 31)%Z ->
         let p := Spec.effectivePage page in
         let l := Spec.effectiveLimit limit in
         let matching :=
           filter (fun row => CommentRepository.live row && (cPostID row =? postID))
                  (comments db) in
         exists totalPages : Z,
           GetComments db postID page limit =
           Ok (firstn (Z.to_nat l)
                      (skipn (Z.to_nat ((p - 1) * l)) (orderDesc cCreatedAt matching)),
               Z.of_nat (length matching), totalPages)
           /\ Spec.ceiling totalPages (Z.of_nat (length matching)) l)
  /\ (forall page limit : Z,
         in_int32 page ->
         ((Spec.effectivePage page - 1) * Spec.effectiveLimit limit < 2 ^ 63)%Z)
  /\ (forall (db : DB) (userID authorID groupID visibility : string)
              (page : Z) (friendIDs : option (list string)),
         GetPosts db userID authorID groupID visibility page 0 friendIDs =
         GetPosts db userID authorID groupID visibility page 10 friendIDs)
  /\ (forall (db : DB) (postID : string) (page : Z),
         GetComments db postID page 0 = GetComments db postID page 10)
  /\ Spec.effectiveLimit 100 = 100%Z
  /\ (forall (db : DB) (postID : string) (page : Z),
         postID <> "" ->
         Z.of_nat (length (filter (fun row => CommentRepository.live row
                                              && (cPostID row =? postID))
                                  (comments db))) = 25%Z ->
         exists rows, GetComments db postID page 10 = Ok (rows, 25%Z, 3%Z))
  /\ (forall (db : DB) (postID : string) (page : Z),
         postID <> "" ->
         Z.of_nat (length (filter (fun row => CommentRepository.live row
                                              && (cPostID row =? postID))
                                  (comments db))) = 20%Z ->
         exists rows, GetComments db postID page 10 = Ok (rows, 20%Z, 2%Z)).
Proof.
  split; [ | split; [ | split; [ | split; [ | split; [ | split; [ | split]]]]]].
  - intros db userID authorID groupID visibility page limit friendIDs Hfit Hrows.
    cbv zeta. rewrite GetPosts_unfold. cbv zeta.
    rewrite page_clamp, limit_clamp.
    pose proof (effectivePage_range page) as Hpr.
    pose proof (effectiveLimit_range limit) as Hlr.
    rewrite (offset_exact _ _ Hpr Hlr Hfit). unfold paged.
    eexists. split; [reflexivity | ].
    apply totalPages_ceiling; [ | assumption].
    now apply count_bound.
  - intros db postID page limit Hid Hfit Hrows.
    cbv zeta. rewrite (GetComments_unfold db postID page limit Hid). cbv zeta.
    rewrite page_clamp, limit_clamp.
    pose proof (effectivePage_range page) as Hpr.
    pose proof (effectiveLimit_range limit) as Hlr.
    rewrite (offset_exact _ _ Hpr Hlr Hfit). unfold paged.
    eexists. split; [reflexivity | ].
    apply totalPages_ceiling; [ | assumption].
    now apply count_bound.
  - intros page limit Hp. now apply offset_of_int32.
  - reflexivity.
  - reflexivity.
  - reflexivity.
  - intros db postID page Hid Hcount.
    rewrite (GetComments_unfold db postID page 10 Hid). cbv zeta.
    rewrite Hcount. eexists. reflexivity.
  - intros db postID page Hid Hcount.
    rewrite (GetComments_unfold db postID page 10 Hid). cbv zeta.
    rewrite Hcount. eexists. reflexivity.
Qed.

(** The policy at work on the seed data: page 2 of the two comments of post3
    with limit 1 skips the first and returns the second, page 1 returns the
    first and cuts the second off; page 2 of the four public posts with
    limit 2 returns the third and the fourth; page 0 and limit 0 are
    answered as page 1 and limit 10. *)
Lemma pagination_policy_witness :
  GetComments Examples.seed_db "post3" 2 1 = Ok ([Examples.comment3], 2%Z, 2%Z)
  /\ GetComments Examples.seed_db "post3" 1 1 = Ok ([Examples.comment2], 2%Z, 2%Z)
  /\ GetPosts Examples.seed_db "" "" "" "" 2 2 None
     = Ok ([PostRepository.scan Examples.post4; PostRepository.scan Examples.post5],
           4%Z, 2%Z)
  /\ (exists rows totalPages,
         GetComments Examples.seed_db "post3" 0 0 = Ok (rows, 2%Z, totalPages)
         /\ Spec.ceiling totalPages 2 10).
Proof.
  destruct pagination_policy as (Hposts & Hcomments & _).
  split; [ | split; [ | split]].
  - destruct (Hcomments Examples.seed_db "post3" 2%Z 1%Z)
      as [totalPages [Hcall Hceiling]]; [discriminate | reflexivity | cbn; lia | ].
    assert (Hpages : totalPages = 2%Z)
      by (revert Hceiling; unfold Spec.ceiling; cbn; lia).
    rewrite Hpages in Hcall. exact Hcall.
  - destruct (Hcomments Examples.seed_db "post3" 1%Z 1%Z)
      as [totalPages [Hcall Hceiling]]; [discriminate | reflexivity | cbn; lia | ].
    assert (Hpages : totalPages = 2%Z)
      by (revert Hceiling; unfold Spec.ceiling; cbn; lia).
    rewrite Hpages in Hcall. exact Hcall.
  - destruct (Hposts Examples.seed_db "" "" "" "" 2%Z 2%Z None)
      as [totalPages [Hcall Hceiling]]; [reflexivity | cbn; lia | ].
    assert (Hpages : totalPages = 2%Z)
      by (revert Hceiling; unfold Spec.ceiling; cbn; lia).
    rewrite Hpages in Hcall. exact Hcall.
  - destruct (Hcomments Examples.seed_db "post3" 0%Z 0%Z)
      as [totalPages [Hcall Hceiling]]; [discriminate | reflexivity | cbn; lia | ].
    eexists. exists totalPages. split; [exact Hcall | exact Hceiling].
Defined.

(** C10.  In every [GetPosts] call that succeeds, the total count is the
    number of all live rows the selected filter branch matches and the
    total pages are computed from that count, both before the visibility
    check; the returned list is the fetched page with the posts that fail
    the check dropped.  So the list can be shorter than
    min(limit, total count) and the count can include posts the viewer may
    not see: user2 listing the posts of author user1 in the seed data gets
    one post and the count two, the second being user1's private post. *)
Theorem GetPosts_counts_before_visibility :
  (forall (db : DB) (userID authorID groupID visibility : string)
          (page limit : Z) (friendIDs : option (list string)),
      exists (matching fetched : list Post) (offset l : Z),
        matching =
        filter (fun row => PostRepository.live row
                           && Spec.selected userID authorID groupID visibility friendIDs row)
               (posts db)
        /\ fetched =
           map PostRepository.scan (paged offset l (orderDesc CreatedAt matching))
        /\ GetPosts db userID authorID groupID visibility page limit friendIDs =
           Ok (filter (fun post => isPostVisibleToUser post userID friendIDs) fetched,
               Z.of_nat (length matching),
               int32 (Z.quot (int64 (Z.of_nat (length matching) + int64 l - 1))
                             (int64 l)))
        /\ (length (filter (fun post => isPostVisibleToUser post userID friendIDs) fetched)
            <= length fetched)%nat)
  /\ (GetPosts Examples.seed_db "user2" "user1" "" "" 1 10 None =
      Ok ([PostRepository.scan Examples.post1], 2%Z, 1%Z)
      /\ (Z.of_nat (length [PostRepository.scan Examples.post1]) < Z.min 10 2)%Z
      /\ In Examples.post2
            (filter (fun row => PostRepository.live row
                                && Spec.selected "user2" "user1" "" "" None row)
                    (posts Examples.seed_db))
      /\ isPostVisibleToUser (PostRepository.scan Examples.post2) "user2" None = false).
Proof.
  split.
  - intros db userID authorID groupID visibility page limit friendIDs.
    pose proof (GetPosts_unfold db userID authorID groupID visibility
                                page limit friendIDs) as Hcall.
    cbv zeta in Hcall.
    do 4 eexists. split; [reflexivity | ]. split; [reflexivity | ].
    split; [exact Hcall | ]. apply filter_length_le.
  - split; [vm_compute; reflexivity | ].
    split; [vm_compute; reflexivity | ].
    split; [ | vm_compute; reflexivity].
    cbn. right. left. reflexivity.
Qed.

End PostsPagination.

(** * Facts about the query helpers *)

Module QueryFacts.

Lemma filter_map_preserved {A : Type} (P : A -> bool) (g : A -> A) (l : list A) :
  (forall x, P (g x) = P x) ->
  filter P (map g l) = map g (filter P l).
Proof.
  intros HP. induction l as [ | a l IH]; cbn; [reflexivity | ].
  rewrite HP. destruct (P a); cbn; now rewrite IH.
Qed.

Lemma first_map {A : Type} (g : A -> A) (l : list A) :
  first (map g l) = match first l with
                    | Ok r => Ok (g r)
                    | Err e => Err e
                    end.
Proof. now destruct l. Qed.

Lemma first_Err_nil {A : Type} (l : list A) (e : error) :
  first l = Err e -> l = [].
Proof. destruct l; [reflexivity | discriminate]. Qed.

Lemma first_Err_not_found {A : Type} (l : list A) (e : error) :
  first l = Err e -> e = ErrRecordNotFound.
Proof. destruct l; cbn; congruence. Qed.

Lemma first_Ok_In {A : Type} (l : list A) (r : A) :
  first l = Ok r -> In r l.
Proof. destruct l; cbn; [discriminate | ]. intros [= ->]. now left. Qed.

Lemma first_filter_Ok {A : Type} (P : A -> bool) (l : list A) (r : A) :
  first (filter P l) = Ok r -> In r l /\ P r = true.
Proof. intros H. apply first_Ok_In in H. now apply filter_In in H. Qed.

(** A map that only rewrites rows outside the filter leaves the filtered
    rows alone. *)
Lemma filter_map_untouched {A : Type} (P Q : A -> bool) (g : A -> A) (l : list A) :
  (forall x, In x l -> Q x = false) ->
  filter P (map (fun x => if Q x then g x else x) l) = filter P l.
Proof.
  intros HQ. induction l as [ | a l IH]; cbn; [reflexivity | ].
  rewrite (HQ a) by now left.
  rewrite IH; [reflexivity | ]. intros x Hx. apply HQ. now right.
Qed.

Lemma map_untouched {A : Type} (Q : A -> bool) (g : A -> A) (l : list A) :
  (forall x, In x l -> Q x = false) ->
  map (fun x => if Q x then g x else x) l = l.
Proof.
  intros HQ. induction l as [ | a l IH]; cbn; [reflexivity | ].
  rewrite (HQ a) by now left.
  rewrite IH; [reflexivity | ]. intros x Hx. apply HQ. now right.
Qed.

Lemma existsb_false_forall {A : Type} (Q : A -> bool) (l : list A) :
  existsb Q l = false -> forall x, In x l -> Q x = false.
Proof.
  intros H x Hx. destruct (Q x) eqn:HQ; [ | reflexivity].
  assert (existsb Q l = true) by (apply existsb_exists; eauto). congruence.
Qed.

Lemma filter_none {A : Type} (P : A -> bool) (l : list A) :
  (forall x, In x l -> P x = false) -> filter P l = [].
Proof.
  intros HP. induction l as [ | a l IH]; cbn; [reflexivity | ].
  rewrite (HP a) by now left. apply IH. intros x Hx. apply HP. now right.
Qed.

Lemma filter_nil_forall {A : Type} (P : A -> bool) (l : list A) :
  filter P l = [] -> forall x, In x l -> P x = false.
Proof.
  intros H x Hx. destruct (P x) eqn:HP; [ | reflexivity].
  assert (Hin : In x (filter P l)) by (apply filter_In; auto).
  rewrite H in Hin. destruct Hin.
Qed.

(** A map that rewrites rows outside the filter into rows outside the
    filter does not change what the filter selects. *)
Lemma filter_map_other {A : Type} (P Q : A -> bool) (g : A -> A) (l : list A) :
  (forall x, Q x = true -> P x = false /\ P (g x) = false) ->
  filter P (map (fun x => if Q x then g x else x) l) = filter P l.
Proof.
  intros HQ. induction l as [ | a l IH]; cbn; [reflexivity | ].
  destruct (Q a) eqn:Ha.
  - destruct (HQ a Ha) as [H1 H2]. now rewrite H1, H2.
  - now rewrite IH.
Qed.

(** A map that rewrites every row of the filter into a row outside it
    empties the filter. *)
Lemma filter_map_killed {A : Type} (Q : A -> bool) (g : A -> A) (l : list A) :
  (forall x, Q (g x) = false) ->
  filter Q (map (fun x => if Q x then g x else x) l) = [].
Proof.
  intros HQ. induction l as [ | a l IH]; cbn; [reflexivity | ].
  destruct (Q a) eqn:Ha.
  - now rewrite HQ.
  - now rewrite Ha.
Qed.

End QueryFacts.

(** * The post service: likes *)

Module PostsLikes.
Import Posts QueryFacts.

(** ** What the repositories touch *)

Lemma FindByID_posts (db db' : DB) (id : string) :
  posts db' = posts db ->
  PostRepository.FindByID db' id = PostRepository.FindByID db id.
Proof. intros H. unfold PostRepository.FindByID. now rewrite H. Qed.

Lemma FindByPostAndUser_likes (db db' : DB) (postID userID : string) :
  likes db' = likes db ->
  LikeRepository.FindByPostAndUser db' postID userID
  = LikeRepository.FindByPostAndUser db postID userID.
Proof. intros H. unfold LikeRepository.FindByPostAndUser. now rewrite H. Qed.

Lemma scan_recount (row : Post) (n now : Z) :
  PostRepository.scan (set_UpdatedAt (set_LikesCount row n) now)
  = set_UpdatedAt (set_LikesCount (PostRepository.scan row) n) now.
Proof. unfold PostRepository.scan. cbn. now destruct (Media row). Qed.

Lemma LikesCount_scan (row : Post) :
  LikesCount (PostRepository.scan row) = LikesCount row.
Proof. unfold PostRepository.scan. now destruct (Media row). Qed.

(** The post a counter update leaves behind: the counter moved by [f], the
    update time refreshed, everything else as it was. *)
Lemma FindByID_recount (f : Z -> Z) (now : Z) (db : DB) (id : string) (post : Post) :
  PostRepository.FindByID db id = Ok post ->
  PostRepository.FindByID
    (set_posts db
       (map (fun row =>
               if PostRepository.live row && (ID row =? id)
               then set_UpdatedAt (set_LikesCount row (f (LikesCount row))) now
               else row)
            (posts db))) id
  = Ok (set_UpdatedAt (set_LikesCount post (f (LikesCount post))) now).
Proof.
  unfold PostRepository.FindByID. cbn [posts set_posts].
  rewrite filter_map_preserved.
  2:{ intros x. cbv beta.
      destruct (PostRepository.live x && (ID x =? id)) eqn:E; exact E. }
  rewrite first_map.
  destruct (first (filter (fun row => PostRepository.live row && (ID row =? id)) (posts db)))
    as [row | e] eqn:Hfirst; [ | discriminate].
  intros [= <-].
  apply first_filter_Ok in Hfirst. destruct Hfirst as [_ Hrow].
  rewrite Hrow, scan_recount, LikesCount_scan. reflexivity.
Qed.

Lemma IncrementLikesCount_spec (now : Z) (db : DB) (id : string) (post : Post) :
  PostRepository.FindByID db id = Ok post ->
  exists db',
    PostRepository.IncrementLikesCount now db id = Ok db'
    /\ likes db' = likes db
    /\ comments db' = comments db
    /\ PostRepository.FindByID db' id
       = Ok (set_UpdatedAt (set_LikesCount post (LikesCount post + 1)) now).
Proof.
  intros Hfind. eexists. split; [reflexivity | ].
  split; [reflexivity | ]. split; [reflexivity | ].
  exact (FindByID_recount (fun n => (n + 1)%Z) now db id post Hfind).
Qed.

Lemma DecrementLikesCount_spec (now : Z) (db : DB) (id : string) (post : Post) :
  PostRepository.FindByID db id = Ok post ->
  exists db',
    PostRepository.DecrementLikesCount now db id = Ok db'
    /\ likes db' = likes db
    /\ comments db' = comments db
    /\ PostRepository.FindByID db' id
       = Ok (set_UpdatedAt (set_LikesCount post (LikesCount post - 1)) now).
Proof.
  intros Hfind. eexists. split; [reflexivity | ].
  split; [reflexivity | ]. split; [reflexivity | ].
  exact (FindByID_recount (fun n => (n - 1)%Z) now db id post Hfind).
Qed.

(** A successful insert appends the like under the generated id, which no
    earlier row, live or soft-deleted, carries. *)
Lemma Create_spec (now : Z) (uuid : string) (db db1 : DB) (postID userID : string) :
  LikeRepository.Create uuid db (mkLike "" postID userID now None) = Ok db1 ->
  likes db1 = (likes db ++ [mkLike uuid postID userID now None])%list
  /\ posts db1 = posts db
  /\ comments db1 = comments db
  /\ (forall row, In row (likes db) -> (lID row =? uuid) = false).
Proof.
  unfold LikeRepository.Create. cbn.
  destruct (existsb (fun row => lID row =? uuid) (likes db)) eqn:Hid; [discriminate | ].
  cbn [orb].
  destruct (existsb (fun row => (lPostID row =? postID) && (lUserID row =? userID))
                    (likes db)); [discriminate | ].
  intros [= <-]. repeat split.
  exact (existsb_false_forall _ _ Hid).
Qed.

(** The insert goes through when neither the id nor the (post, user) pair
    is in the table yet. *)
Lemma Create_fresh (now : Z) (uuid : string) (db : DB) (postID userID : string) :
  existsb (fun row => lID row =? uuid) (likes db) = false ->
  existsb (fun row => (lPostID row =? postID) && (lUserID row =? userID)) (likes db) = false ->
  exists db1, LikeRepository.Create uuid db (mkLike "" postID userID now None) = Ok db1.
Proof.
  intros Hid Hpair. unfold LikeRepository.Create. cbn.
  rewrite Hid, Hpair. cbn. eexists. reflexivity.
Qed.

Lemma no_like_nil (db : DB) (postID userID : string) (e : error) :
  LikeRepository.FindByPostAndUser db postID userID = Err e ->
  filter (fun row => LikeRepository.live row
                     && ((lPostID row =? postID) && (lUserID row =? userID)))
         (likes db) = [].
Proof. apply first_Err_nil. Qed.

(** ** The two operations, case by case *)

Section OnePost.
Variables (db : DB) (postID userID : string) (post : Post).
Hypothesis HpostID : postID <> "".
Hypothesis HuserID : userID <> "".
Hypothesis Hpost : PostRepository.FindByID db postID = Ok post.

Lemma LikePost_already (now : Z) (uuid : string) (like : Like) :
  LikeRepository.FindByPostAndUser db postID userID = Ok like ->
  LikePost now uuid db postID userID
  = (failed (int32 (LikesCount post)) AlreadyExists "you have already liked this post", db).
Proof.
  intros Hlike. unfold LikePost.
  destruct (String.eqb_spec postID ""); [contradiction | ].
  destruct (String.eqb_spec userID ""); [contradiction | ].
  now rewrite Hpost, Hlike.
Qed.

Lemma LikePost_refused (now : Z) (uuid : string) (e e' : error) :
  LikeRepository.FindByPostAndUser db postID userID = Err e ->
  LikeRepository.Create uuid db (mkLike "" postID userID now None) = Err e' ->
  LikePost now uuid db postID userID = (failed 0 Internal "failed to like post", db).
Proof.
  intros Hlike Hcreate. unfold LikePost.
  destruct (String.eqb_spec postID ""); [contradiction | ].
  destruct (String.eqb_spec userID ""); [contradiction | ].
  now rewrite Hpost, Hlike, Hcreate.
Qed.

Lemma LikePost_created (now : Z) (uuid : string) (e : error) (db1 : DB) :
  LikeRepository.FindByPostAndUser db postID userID = Err e ->
  LikeRepository.Create uuid db (mkLike "" postID userID now None) = Ok db1 ->
  exists db2,
    PostRepository.IncrementLikesCount now db1 postID = Ok db2
    /\ LikePost now uuid db postID userID
       = ((int32 (LikesCount post + 1), None), db2).
Proof.
  intros Hlike Hcreate.
  destruct (Create_spec now uuid db db1 postID userID Hcreate) as (_ & Hposts & _ & _).
  assert (Hpost1 : PostRepository.FindByID db1 postID = Ok post).
  { now rewrite (FindByID_posts db db1 postID Hposts). }
  destruct (IncrementLikesCount_spec now db1 postID post Hpost1)
    as (db2 & Hincr & _ & _ & Hpost2).
  exists db2. split; [exact Hincr | ].
  unfold LikePost.
  destruct (String.eqb_spec postID ""); [contradiction | ].
  destruct (String.eqb_spec userID ""); [contradiction | ].
  now rewrite Hpost, Hlike, Hcreate, Hincr, Hpost2.
Qed.

Lemma UnlikePost_missing (now : Z) (e : error) :
  LikeRepository.FindByPostAndUser db postID userID = Err e ->
  UnlikePost now db postID userID
  = (failed (int32 (LikesCount post)) NotFound "you have not liked this post", db).
Proof.
  intros Hlike. unfold UnlikePost.
  destruct (String.eqb_spec postID ""); [contradiction | ].
  destruct (String.eqb_spec userID ""); [contradiction | ].
  now rewrite Hpost, Hlike.
Qed.

Lemma UnlikePost_deleted (now : Z) (like : Like) :
  LikeRepository.FindByPostAndUser db postID userID = Ok like ->
  exists db1 db2,
    LikeRepository.Delete now db (lID like) = Ok db1
    /\ PostRepository.DecrementLikesCount now db1 postID = Ok db2
    /\ UnlikePost now db postID userID
       = ((int32 (LikesCount post - 1), None), db2).
Proof.
  intros Hlike.
  destruct (DecrementLikesCount_spec now
              (set_likes db
                 (map (fun row =>
                         if LikeRepository.live row && (lID row =? lID like)
                         then set_lDeletedAt row (Some now) else row)
                      (likes db)))
              postID post) as (db2 & Hdecr & _ & _ & Hpost2).
  { rewrite <- Hpost. now apply FindByID_posts. }
  eexists. exists db2. split; [reflexivity | ]. split; [exact Hdecr | ].
  unfold UnlikePost.
  destruct (String.eqb_spec postID ""); [contradiction | ].
  destruct (String.eqb_spec userID ""); [contradiction | ].
  rewrite Hpost, Hlike. unfold LikeRepository.Delete.
  now rewrite Hdecr, Hpost2.
Qed.

End OnePost.

(** ** The likes table across a like and an unlike *)

Lemma Delete_spec (now : Z) (db db1 : DB) (id : string) :
  LikeRepository.Delete now db id = Ok db1 ->
  likes db1 =
  map (fun row => if LikeRepository.live row && (lID row =? id)
                  then set_lDeletedAt row (Some now) else row)
      (likes db)
  /\ posts db1 = posts db.
Proof. unfold LikeRepository.Delete. intros [= <-]. now split. Qed.

Lemma lookup_after_create (db db1 : DB) (postID userID uuid : string) (now : Z) (e : error) :
  LikeRepository.FindByPostAndUser db postID userID = Err e ->
  likes db1 = (likes db ++ [mkLike uuid postID userID now None])%list ->
  LikeRepository.FindByPostAndUser db1 postID userID
  = Ok (mkLike uuid postID userID now None).
Proof.
  intros Hnone Hlikes. apply no_like_nil in Hnone.
  unfold LikeRepository.FindByPostAndUser.
  rewrite Hlikes, filter_app, Hnone. cbn.
  now rewrite !String.eqb_refl.
Qed.

Lemma lookup_after_delete (db db1 : DB) (postID userID uuid : string)
      (now now' : Z) (e : error) :
  LikeRepository.FindByPostAndUser db postID userID = Err e ->
  (forall row, In row (likes db) -> (lID row =? uuid) = false) ->
  likes db1 =
  map (fun row => if LikeRepository.live row && (lID row =? uuid)
                  then set_lDeletedAt row (Some now') else row)
      (likes db ++ [mkLike uuid postID userID now None]) ->
  LikeRepository.FindByPostAndUser db1 postID userID = Err ErrRecordNotFound.
Proof.
  intros Hnone Hfresh Hlikes. apply no_like_nil in Hnone.
  unfold LikeRepository.FindByPostAndUser.
  rewrite Hlikes, map_app, filter_app.
  rewrite (filter_map_untouched _
             (fun row => LikeRepository.live row && (lID row =? uuid))
             (fun row => set_lDeletedAt row (Some now'))).
  - rewrite Hnone. cbn. now rewrite String.eqb_refl.
  - intros row Hrow. rewrite (Hfresh row Hrow). apply andb_false_r.
Qed.

(** The round trip of a like, where it goes through.  Take an existing post
    p with likes count n and a user u without a live like on p.  After
    [LikePost] followed by [UnlikePost] there is again no live like of u on
    p and the likes count of p is n, and a further [UnlikePost] fails with
    NotFound.  When the likes table holds no row for (p, u) at all, live or
    soft-deleted, and the generated id is new, the two calls succeed and
    return the counts n + 1 and n, as int32; from n = 0 the count goes
    0, 1, 0. *)
Theorem like_then_unlike
        (now1 now2 now3 : Z) (uuid : string) (db : DB) (postID userID : string)
        (post : Post) (r1 r2 : counted) (db1 db2 : DB) :
  postID <> "" ->
  userID <> "" ->
  PostRepository.FindByID db postID = Ok post ->
  LikeRepository.FindByPostAndUser db postID userID = Err ErrRecordNotFound ->
  LikePost now1 uuid db postID userID = (r1, db1) ->
  UnlikePost now2 db1 postID userID = (r2, db2) ->
  LikeRepository.FindByPostAndUser db2 postID userID = Err ErrRecordNotFound
  /\ (exists post2,
        PostRepository.FindByID db2 postID = Ok post2
        /\ LikesCount post2 = LikesCount post)
  /\ UnlikePost now3 db2 postID userID
     = (failed (int32 (LikesCount post)) NotFound "you have not liked this post", db2)
  /\ (existsb (fun row => lID row =? uuid) (likes db) = false ->
      existsb (fun row => (lPostID row =? postID) && (lUserID row =? userID)) (likes db)
      = false ->
      r1 = (int32 (LikesCount post + 1), None)
      /\ r2 = (int32 (LikesCount post), None)
      /\ (LikesCount post = 0%Z -> r1 = (1%Z, None) /\ r2 = (0%Z, None))).
Proof.
  intros Hp Hu Hpost Hnone Hlike Hunlike.
  destruct (LikeRepository.Create uuid db (mkLike "" postID userID now1 None))
    as [dbC | e] eqn:Hcreate.
  - (* the like is stored *)
    destruct (Create_spec now1 uuid db dbC postID userID Hcreate)
      as (HlikesC & HpostsC & _ & Hfresh).
    destruct (LikePost_created db postID userID post Hp Hu Hpost now1 uuid _ dbC
                               Hnone Hcreate) as (dbL & Hincr & HL).
    rewrite HL in Hlike. injection Hlike as <- <-.
    assert (HpostC : PostRepository.FindByID dbC postID = Ok post).
    { rewrite <- Hpost. now apply FindByID_posts. }
    destruct (IncrementLikesCount_spec now1 dbC postID post HpostC)
      as (dbL' & Hincr' & HlikesL & _ & HpostL).
    rewrite Hincr in Hincr'. injection Hincr' as <-.
    rewrite HlikesC in HlikesL.
    pose proof (lookup_after_create db dbL postID userID uuid now1 _ Hnone HlikesL)
      as HfoundL.
    destruct (UnlikePost_deleted dbL postID userID _ Hp Hu HpostL now2 _ HfoundL)
      as (dbD & dbU & Hdel & Hdecr & HU).
    rewrite HU in Hunlike. injection Hunlike as <- <-.
    destruct (Delete_spec now2 dbL dbD _ Hdel) as (HlikesD & HpostsD).
    cbn [lID] in HlikesD. rewrite HlikesL in HlikesD.
    assert (HpostD : PostRepository.FindByID dbD postID
                     = Ok (set_UpdatedAt (set_LikesCount post (LikesCount post + 1)) now1)).
    { rewrite <- HpostL. now apply FindByID_posts. }
    destruct (DecrementLikesCount_spec now2 dbD postID _ HpostD)
      as (dbU' & Hdecr' & HlikesU & _ & HpostU).
    rewrite Hdecr in Hdecr'. injection Hdecr' as <-.
    rewrite HlikesD in HlikesU.
    pose proof (lookup_after_delete db dbU postID userID uuid now1 now2 _
                                    Hnone Hfresh HlikesU) as HnoneU.
    cbn [LikesCount set_UpdatedAt set_LikesCount] in HpostU, HU |- *.
    replace (LikesCount post + 1 - 1)%Z with (LikesCount post) in * by lia.
    split; [exact HnoneU | ].
    split; [eexists; split; [exact HpostU | reflexivity] | ].
    split.
    + rewrite (UnlikePost_missing dbU postID userID _ Hp Hu HpostU now3 _ HnoneU).
      reflexivity.
    + intros _ _. split; [reflexivity | ]. split; [reflexivity | ].
      intros ->. split; reflexivity.
  - (* the insert is refused *)
    rewrite (LikePost_refused db postID userID post Hp Hu Hpost now1 uuid _ _
                              Hnone Hcreate) in Hlike.
    injection Hlike as <- <-.
    rewrite (UnlikePost_missing db postID userID post Hp Hu Hpost now2 _ Hnone)
      in Hunlike.
    injection Hunlike as <- <-.
    split; [exact Hnone | ].
    split; [eexists; split; [exact Hpost | reflexivity] | ].
    split; [exact (UnlikePost_missing db postID userID post Hp Hu Hpost now3 _ Hnone) | ].
    intros Hid Hpair.
    destruct (Create_fresh now1 uuid db postID userID Hid Hpair) as [dbC HdbC].
    congruence.
Qed.

(** The end-to-end scenario: user A publishes "hello", B likes it, B unlikes
    it, B unlikes it once more. *)
Lemma like_then_unlike_witness :
  let created :=
    CreatePost 100 "post7" Examples.empty_db "userA" "hello" "public" "" None in
  let liked := LikePost 200 "like5" (snd created) "post7" "userB" in
  let unliked := UnlikePost 300 (snd liked) "post7" "userB" in
  fst liked = (1%Z, None)
  /\ fst unliked = (0%Z, None)
  /\ LikeRepository.FindByPostAndUser (snd unliked) "post7" "userB" = Err ErrRecordNotFound
  /\ UnlikePost 400 (snd unliked) "post7" "userB"
     = (failed 0 NotFound "you have not liked this post", snd unliked).
Proof.
  intros created liked unliked.
  destruct (like_then_unlike 200 300 400 "like5" (snd created) "post7" "userB"
                             (mkPost "post7" "userA" "User userA" "" "hello" "public"
                                     "" "" [] None 0 0 100 100 None)
                             (fst liked) (fst unliked)
                             (snd liked) (snd unliked))
    as (Hnone & _ & Hagain & Hcounts).
  - discriminate.
  - discriminate.
  - vm_compute. reflexivity.
  - vm_compute. reflexivity.
  - apply surjective_pairing.
  - apply surjective_pairing.
  - destruct Hcounts as (_ & _ & Hzero);
      [vm_compute; reflexivity | vm_compute; reflexivity | ].
    destruct Hzero as [H1 H2]; [reflexivity | ].
    split; [exact H1 | ]. split; [exact H2 | ]. split; [exact Hnone | exact Hagain].
Defined.

(** ** Errors of the two operations *)

(** [LikePost] answers AlreadyExists exactly when a live like is there, and
    then changes nothing; [UnlikePost] answers NotFound exactly when none
    is, and then changes nothing. *)
Lemma like_errors (now : Z) (uuid : string) (db : DB) (postID userID : string)
      (post : Post) :
  postID <> "" ->
  userID <> "" ->
  PostRepository.FindByID db postID = Ok post ->
  ((exists n msg,
       fst (LikePost now uuid db postID userID) = (n, Some (mkStatus AlreadyExists msg)))
   <-> exists like, LikeRepository.FindByPostAndUser db postID userID = Ok like)
  /\ ((exists like, LikeRepository.FindByPostAndUser db postID userID = Ok like) ->
      snd (LikePost now uuid db postID userID) = db)
  /\ ((exists n msg,
          fst (UnlikePost now db postID userID) = (n, Some (mkStatus NotFound msg)))
      <-> exists e, LikeRepository.FindByPostAndUser db postID userID = Err e)
  /\ ((exists e, LikeRepository.FindByPostAndUser db postID userID = Err e) ->
      snd (UnlikePost now db postID userID) = db).
Proof.
  intros Hp Hu Hpost.
  destruct (LikeRepository.FindByPostAndUser db postID userID) as [like | e] eqn:Hlike.
  - rewrite (LikePost_already db postID userID post Hp Hu Hpost now uuid like Hlike).
    destruct (UnlikePost_deleted db postID userID post Hp Hu Hpost now like Hlike)
      as (dbD & dbU & _ & _ & HU).
    rewrite HU. cbn [fst snd].
    split; [split; intros _; [now exists like | now do 2 eexists] | ].
    split; [reflexivity | ].
    split; [ | intros [e He]; discriminate].
    split; [intros (n & msg & H); discriminate | intros [e He]; discriminate].
  - rewrite (UnlikePost_missing db postID userID post Hp Hu Hpost now e Hlike).
    cbn [fst snd].
    split.
    { split; [ | intros [like H]; discriminate].
      intros (n & msg & H). exfalso.
      destruct (LikeRepository.Create uuid db (mkLike "" postID userID now None))
        as [dbC | e'] eqn:Hcreate.
      - destruct (LikePost_created db postID userID post Hp Hu Hpost now uuid e dbC
                                   Hlike Hcreate) as (dbL & _ & HL).
        rewrite HL in H. discriminate.
      - rewrite (LikePost_refused db postID userID post Hp Hu Hpost now uuid e e'
                                  Hlike Hcreate) in H.
        discriminate. }
    split; [intros [like H]; discriminate | ].
    split; [ | reflexivity].
    split; [intros _; now exists e | intros _; now do 2 eexists].
Qed.

(** C4, at the input where the code departs from it.  In the seed data
    user2 has a live like on post1.  After [UnlikePost] the like is
    soft-deleted, so no live like of user2 on post1 is left; a new
    [LikePost], under the unused id like5, still fails, with Internal, and
    creates no like: the soft-deleted row keeps the unique index
    (post_id, user_id) occupied. *)
Theorem like_again_after_unlike_fails :
  let unliked := UnlikePost 200 Examples.seed_db "post1" "user2" in
  fst unliked = (1%Z, None)
  /\ LikeRepository.FindByPostAndUser (snd unliked) "post1" "user2" = Err ErrRecordNotFound
  /\ existsb (fun row => lID row =? "like5") (likes (snd unliked)) = false
  /\ LikePost 300 "like5" (snd unliked) "post1" "user2"
     = (failed 0 Internal "failed to like post", snd unliked).
Proof. vm_compute. repeat split. Qed.

(** C5, at the input where the code departs from it.  User A creates a
    public post with the content "hello"; B likes it and the count is 1; B
    unlikes it and the count is 0.  The post now exists with likes count
    0 and B has no live like on it, which is where the claim starts from.
    B likes the post again, under an unused like id: [LikePost] fails with
    Internal, stores no like and leaves the count at 0 instead of 1, and the
    [UnlikePost] that follows fails with NotFound instead of returning 0.
    The soft-deleted like of the first round keeps the unique index
    (post_id, user_id) occupied. *)
Theorem like_round_trip_fails_after_unlike :
  let created :=
    CreatePost 100 "post7" Examples.empty_db "userA" "hello" "public" "" None in
  let liked := LikePost 200 "like5" (snd created) "post7" "userB" in
  let unliked := UnlikePost 300 (snd liked) "post7" "userB" in
  let db := snd unliked in
  fst liked = (1%Z, None)
  /\ fst unliked = (0%Z, None)
  /\ (exists post,
         PostRepository.FindByID db "post7" = Ok post /\ LikesCount post = 0%Z)
  /\ LikeRepository.FindByPostAndUser db "post7" "userB" = Err ErrRecordNotFound
  /\ existsb (fun row => lID row =? "like6") (likes db) = false
  /\ LikePost 400 "like6" db "post7" "userB"
     = (failed 0 Internal "failed to like post", db)
  /\ UnlikePost 500 db "post7" "userB"
     = (failed 0 NotFound "you have not liked this post", db)
  /\ likes db = [mkLike "like5" "post7" "userB" 200 (Some 300%Z)].
Proof.
  vm_compute.
  split; [reflexivity | ]. split; [reflexivity | ].
  split; [eexists; split; reflexivity | ].
  repeat split.
Qed.

End PostsLikes.

(** * The post service: updating a post *)

Module PostsUpdate.
Import Posts QueryFacts.

Lemma FindByID_inv (db : DB) (id : string) (post : Post) :
  PostRepository.FindByID db id = Ok post ->
  exists row,
    In row (posts db)
    /\ PostRepository.live row = true
    /\ ID row = id
    /\ post = PostRepository.scan row.
Proof.
  unfold PostRepository.FindByID.
  destruct (first (filter (fun row => PostRepository.live row && (ID row =? id)) (posts db)))
    as [row | e] eqn:Hfirst; [ | discriminate].
  intros [= <-]. apply first_filter_Ok in Hfirst. destruct Hfirst as [Hin Hrow].
  apply andb_true_iff in Hrow. destruct Hrow as [Hlive Hid].
  apply String.eqb_eq in Hid. now exists row.
Qed.

(** A post [CreatePost] stores exists afterwards under its generated,
    non-empty id, with both counters at 0. *)
Lemma CreatePost_exists (now : Z) (uuid : string) (db db' : DB)
      (userID content visibility groupID : string) (media : option (list string))
      (post : Post) :
  uuid <> "" ->
  CreatePost now uuid db userID content visibility groupID media = (Ok post, db') ->
  ID post = uuid
  /\ LikesCount post = 0%Z
  /\ CommentsCount post = 0%Z
  /\ exists saved,
      PostRepository.FindByID db' uuid = Ok saved
      /\ ID saved = uuid
      /\ AuthorID saved = userID
      /\ Content saved = content
      /\ Visibility saved = visibility
      /\ GroupID saved = groupID.
Proof.
  intros Huuid. unfold CreatePost.
  destruct (userID =? ""); [discriminate | ].
  destruct (content =? ""); [discriminate | ].
  destruct (negb (visibility =? "public") && negb (visibility =? "private"));
    [discriminate | ].
  unfold PostRepository.Create.
  set (fresh := mkPost "" userID ("User " ++ userID) "" content visibility groupID
                       (if negb (groupID =? "") then "Group " ++ groupID else "")
                       [] media 0 0 now now None).
  assert (HID : ID (PostRepository.marshalMedia fresh) = "").
  { unfold PostRepository.marshalMedia.
    destruct (0 <? len (MediaArray fresh))%nat; [ | reflexivity].
    now destruct (MediaArray fresh). }
  rewrite HID. cbn [String.eqb].
  set (post' := set_ID (PostRepository.marshalMedia fresh) uuid).
  change (ID post') with uuid.
  destruct (existsb (fun row => ID row =? uuid) (posts db)) eqn:Hfresh; [discriminate | ].
  intros [= <- <-].
  assert (Hfields : ID post' = uuid /\ LikesCount post' = 0%Z /\ CommentsCount post' = 0%Z
                    /\ AuthorID post' = userID /\ Content post' = content
                    /\ Visibility post' = visibility /\ GroupID post' = groupID
                    /\ DeletedAt post' = None).
  { unfold post', PostRepository.marshalMedia.
    destruct (0 <? len (MediaArray fresh))%nat; [ | cbn; tauto].
    destruct (MediaArray fresh); cbn; tauto. }
  destruct Hfields as (H1 & H2 & H3 & H4 & H5 & H6 & H7 & H8).
  split; [exact H1 | ]. split; [exact H2 | ]. split; [exact H3 | ].
  exists (PostRepository.scan (PostRepository.stored post')).
  split.
  - unfold PostRepository.FindByID. cbn [posts set_posts].
    rewrite filter_app.
    rewrite filter_none.
    + assert (Hkept : PostRepository.live (PostRepository.stored post')
                      && (ID (PostRepository.stored post') =? uuid) = true).
      { unfold PostRepository.live, PostRepository.stored.
        change (DeletedAt (set_MediaArray post' None)) with (DeletedAt post').
        change (ID (set_MediaArray post' None)) with (ID post').
        now rewrite H8, H1, String.eqb_refl. }
      cbn [app filter]. now rewrite Hkept.
    + intros row Hrow.
      rewrite (existsb_false_forall _ _ Hfresh row Hrow). apply andb_false_r.
  - unfold PostRepository.scan, PostRepository.stored.
    destruct (Media (set_MediaArray post' None)); cbn; tauto.
Qed.

(** C8, as stated, fails: validation comes first.  A call with an empty
    content on a post id that does not resolve is answered
    InvalidArgument, not NotFound. *)
Lemma update_errors_fails : ~ Spec.update_errors.
Proof.
  intros claim.
  destruct (claim 200%Z Examples.seed_db "post9" "user1" "" "" None) as [Hmissing _].
  destruct Hmissing as [msg Hmsg]; [exists ErrRecordNotFound; reflexivity | ].
  vm_compute in Hmsg. discriminate.
Qed.

(** The post as [UpdatePost] hands it to [Save], and as [Save] returns
    it. *)
Lemma UpdatePost_by_author (now : Z) (db : DB)
      (postID userID content visibility : string) (media : option (list string))
      (post : Post) :
  Spec.valid_update postID userID content visibility ->
  PostRepository.FindByID db postID = Ok post ->
  AuthorID post = userID ->
  exists post',
    UpdatePost now db postID userID content visibility media
    = (Ok post',
       set_posts db
         (map (fun row =>
                 if PostRepository.live row && (ID row =? postID)
                 then PostRepository.stored post' else row)
              (posts db)))
    /\ Spec.same_frame post post'
    /\ Spec.edited post post' now content visibility media.
Proof.
  intros (Hp & Hu & Hc & Hv) Hfind Hauthor.
  destruct (FindByID_inv db postID post Hfind) as (row & Hin & Hlive & Hid & Hscan).
  unfold UpdatePost.
  destruct (String.eqb_spec postID ""); [contradiction | ].
  destruct (String.eqb_spec userID ""); [contradiction | ].
  destruct (String.eqb_spec content ""); [contradiction | ].
  assert (Hvalid : negb (visibility =? "") && negb (visibility =? "public")
                   && negb (visibility =? "private") = false).
  { destruct Hv as [-> | [-> | ->]]; reflexivity. }
  rewrite Hvalid, Hfind.
  destruct (String.eqb_spec (AuthorID post) userID); [ | contradiction].
  cbn [negb].
  unfold PostRepository.Update.
  match goal with
  | |- context [existsb ?f (posts db)] =>
    assert (Hexists : existsb f (posts db) = true)
  end.
  { apply existsb_exists. exists row. split; [assumption | ].
    rewrite Hlive. cbn [andb]. apply String.eqb_eq.
    subst post. unfold PostRepository.marshalMedia, PostRepository.scan.
    destruct (visibility =? ""), media as [[ | m ms] | ], (Media row); reflexivity. }
  rewrite Hexists.
  eexists. split; [ | split].
  - f_equal. f_equal. apply map_ext. intros r.
    match goal with
    | |- context [ID r =? ID ?p] => replace (ID p) with postID
    end; [reflexivity | ].
    subst post. unfold PostRepository.marshalMedia, PostRepository.scan.
    destruct (visibility =? ""), media as [[ | m ms] | ], (Media row); subst; reflexivity.
  - subst post. unfold Spec.same_frame, PostRepository.marshalMedia, PostRepository.scan.
    destruct (visibility =? ""), media as [[ | m ms] | ], (Media row);
      cbn; repeat split; reflexivity.
  - subst post. unfold Spec.edited, PostRepository.marshalMedia, PostRepository.scan.
    destruct (String.eqb_spec visibility ""), media as [[ | m ms] | ],
             (Media row) eqn:HM;
      cbn; rewrite ?HM; repeat split; try reflexivity; try congruence.
Qed.

(** What a later read of the saved row returns. *)
Lemma saved_post (db : DB) (postID : string) (post post' : Post) :
  PostRepository.FindByID db postID = Ok post ->
  Spec.same_frame post post' ->
  PostRepository.FindByID
    (set_posts db
       (map (fun row =>
               if PostRepository.live row && (ID row =? postID)
               then PostRepository.stored post' else row)
            (posts db))) postID
  = Ok (PostRepository.scan (PostRepository.stored post')).
Proof.
  intros Hfind Hframe.
  destruct (FindByID_inv db postID post Hfind) as (row & Hin & Hlive & Hid & Hscan).
  destruct Hframe as (HID & _ & _ & _ & _ & _ & _ & _ & _ & Hdel).
  assert (Hkept : PostRepository.live (PostRepository.stored post')
                  && (ID (PostRepository.stored post') =? postID) = true).
  { unfold PostRepository.live, PostRepository.stored in *. cbn.
    rewrite Hdel, HID, Hscan. unfold PostRepository.scan.
    destruct (Media row); cbn; rewrite Hlive, Hid; now rewrite String.eqb_refl. }
  revert Hfind. unfold PostRepository.FindByID. cbn [posts set_posts].
  rewrite (filter_map_preserved
             (fun r => PostRepository.live r && (ID r =? postID))
             (fun r => if PostRepository.live r && (ID r =? postID)
                       then PostRepository.stored post' else r)).
  2:{ intros x. cbv beta.
      destruct (PostRepository.live x && (ID x =? postID)) eqn:E; [exact Hkept | exact E]. }
  rewrite first_map.
  destruct (first (filter (fun r => PostRepository.live r && (ID r =? postID)) (posts db)))
    as [row0 | e] eqn:Hfirst; [ | discriminate].
  intros _. apply first_filter_Ok in Hfirst. destruct Hfirst as [_ Hrow0].
  now rewrite Hrow0.
Qed.

Lemma other_posts (db : DB) (postID id : string) (post' : Post) :
  ID post' = postID ->
  id <> postID ->
  PostRepository.FindByID
    (set_posts db
       (map (fun row =>
               if PostRepository.live row && (ID row =? postID)
               then PostRepository.stored post' else row)
            (posts db))) id
  = PostRepository.FindByID db id.
Proof.
  intros HID Hother. unfold PostRepository.FindByID. cbn [posts set_posts].
  rewrite (filter_map_other
             (fun r => PostRepository.live r && (ID r =? id))
             (fun r => PostRepository.live r && (ID r =? postID))
             (fun _ => PostRepository.stored post')); [reflexivity | ].
  intros x Hx. apply andb_true_iff in Hx. destruct Hx as [_ Hx].
  apply String.eqb_eq in Hx.
  assert (Hne : (postID =? id) = false).
  { apply String.eqb_neq. congruence. }
  split.
  - rewrite Hx, Hne. apply andb_false_r.
  - cbn. rewrite HID, Hne. apply andb_false_r.
Qed.

(** C8, amended.  For every [UpdatePost] call whose arguments pass the
    validation (non-empty post id, user id and content; visibility empty,
    public or private): it fails with NotFound when the post id does not
    resolve and with PermissionDenied when the user is not the author, and
    leaves the database as it was; on success the content and the
    updated_at time are written, the visibility only for a non-empty
    argument, the media only for a non-nil argument, and the author id,
    name and avatar, the group id and name, the two counters and
    created_at stay as they were, in the returned post and in the saved
    row; no other post, comment or like changes. *)
Theorem UpdatePost_frame (now : Z) (db : DB)
        (postID userID content visibility : string) (media : option (list string)) :
  Spec.valid_update postID userID content visibility ->
  (forall e,
      PostRepository.FindByID db postID = Err e ->
      UpdatePost now db postID userID content visibility media
      = (status NotFound "post not found", db))
  /\ (forall post,
         PostRepository.FindByID db postID = Ok post ->
         AuthorID post <> userID ->
         UpdatePost now db postID userID content visibility media
         = (status PermissionDenied "you don't have permission to update this post", db))
  /\ (forall post,
         PostRepository.FindByID db postID = Ok post ->
         AuthorID post = userID ->
         exists post' db',
           UpdatePost now db postID userID content visibility media = (Ok post', db')
           /\ Spec.same_frame post post'
           /\ Spec.edited post post' now content visibility media
           /\ (exists saved,
                 PostRepository.FindByID db' postID = Ok saved
                 /\ Spec.same_frame post saved
                 /\ Content saved = Content post'
                 /\ UpdatedAt saved = UpdatedAt post'
                 /\ Visibility saved = Visibility post'
                 /\ Media saved = Media post')
           /\ (forall id, id <> postID ->
                          PostRepository.FindByID db' id = PostRepository.FindByID db id)
           /\ comments db' = comments db
           /\ likes db' = likes db).
Proof.
  intros Hvalid. pose proof Hvalid as (Hp & Hu & Hc & Hv).
  assert (Hchecks : negb (visibility =? "") && negb (visibility =? "public")
                    && negb (visibility =? "private") = false).
  { destruct Hv as [-> | [-> | ->]]; reflexivity. }
  split; [ | split].
  - intros e Hfind. unfold UpdatePost.
    destruct (String.eqb_spec postID ""); [contradiction | ].
    destruct (String.eqb_spec userID ""); [contradiction | ].
    destruct (String.eqb_spec content ""); [contradiction | ].
    now rewrite Hchecks, Hfind.
  - intros post Hfind Hauthor. unfold UpdatePost.
    destruct (String.eqb_spec postID ""); [contradiction | ].
    destruct (String.eqb_spec userID ""); [contradiction | ].
    destruct (String.eqb_spec content ""); [contradiction | ].
    rewrite Hchecks, Hfind.
    now destruct (String.eqb_spec (AuthorID post) userID).
  - intros post Hfind Hauthor.
    destruct (UpdatePost_by_author now db postID userID content visibility media post
                                   Hvalid Hfind Hauthor)
      as (post' & Hcall & Hframe & Hedited).
    exists post'. eexists. split; [exact Hcall | ].
    split; [exact Hframe | ]. split; [exact Hedited | ].
    split; [ | split; [ | split; reflexivity]].
    + exists (PostRepository.scan (PostRepository.stored post')).
      split; [exact (saved_post db postID post post' Hfind Hframe) | ].
      unfold Spec.same_frame, PostRepository.scan, PostRepository.stored in *.
      destruct Hframe as (? & ? & ? & ? & ? & ? & ? & ? & ? & ?).
      destruct (Media (set_MediaArray post' None)); cbn; repeat split; assumption.
    + intros id Hother. apply other_posts; [ | exact Hother].
      destruct (FindByID_inv db postID post Hfind) as (row & _ & _ & Hid & Hscan).
      destruct Hframe as (HID & _). rewrite HID, Hscan.
      unfold PostRepository.scan. now destruct (Media row).
Qed.

Lemma UpdatePost_frame_witness :
  exists post' db',
    UpdatePost 200 Examples.seed_db "post2" "user1" "edited" "public" None = (Ok post', db')
    /\ Spec.same_frame Examples.post2 post'
    /\ Content post' = "edited"
    /\ Visibility post' = "public"
    /\ UpdatedAt post' = 200%Z.
Proof.
  destruct (UpdatePost_frame 200 Examples.seed_db "post2" "user1" "edited" "public" None)
    as (_ & _ & Hok).
  - repeat split; try discriminate. right. left. reflexivity.
  - destruct (Hok Examples.post2 eq_refl eq_refl)
      as (post' & db' & Hcall & Hframe & Hedited & _).
    destruct Hedited as (Hcontent & Hupdated & _ & Hvis & _).
    exists post', db'. repeat split; try assumption; try apply Hframe.
    apply Hvis. discriminate.
Defined.

End PostsUpdate.

(** * The friend service: accepting and rejecting a request *)

Module FriendsLifecycle.
Import Friends QueryFacts.

Lemma GetFriendRequestByID_inv (db : DB) (id : string) (request : FriendRequest) :
  FriendRepository.GetFriendRequestByID db id = Ok request ->
  In request (friend_requests db)
  /\ FriendRepository.liveRequest request = true
  /\ frID request = id.
Proof.
  unfold FriendRepository.GetFriendRequestByID. intros H.
  apply first_filter_Ok in H. destruct H as [Hin H].
  apply andb_true_iff in H. destruct H as [Hlive Hid].
  apply String.eqb_eq in Hid. auto.
Qed.

(** The request as a later read finds it after its status was set. *)
Lemma GetFriendRequestByID_updated (now : Z) (db : DB) (id status : string)
      (request : FriendRequest) :
  FriendRepository.GetFriendRequestByID db id = Ok request ->
  exists db',
    FriendRepository.UpdateFriendRequestStatus now db id status = Ok db'
    /\ friendships db' = friendships db
    /\ blocked_users db' = blocked_users db
    /\ FriendRepository.GetFriendRequestByID db' id
       = Ok (set_frUpdatedAt (set_frStatus request status) now).
Proof.
  intros Hget. eexists. split; [reflexivity | ].
  split; [reflexivity | ]. split; [reflexivity | ].
  revert Hget. unfold FriendRepository.GetFriendRequestByID.
  cbn [friend_requests set_friend_requests].
  rewrite filter_map_preserved.
  2:{ intros x. cbv beta.
      destruct (FriendRepository.liveRequest x && (frID x =? id)) eqn:E; exact E. }
  rewrite first_map. intros Hget. rewrite Hget.
  apply first_filter_Ok in Hget. destruct Hget as [_ Hrow]. now rewrite Hrow.
Qed.

Lemma counted_positive {A : Type} (P : A -> bool) (l : list A) (x : A) :
  In x l -> P x = true -> (Z.of_nat (length (filter P l)) >? 0)%Z = true.
Proof.
  intros Hin HP.
  assert (Hx : In x (filter P l)) by (apply filter_In; auto).
  destruct (filter P l); [destruct Hx | ]. cbn [length].
  apply Z.gtb_lt. lia.
Qed.

(** Once a live friendship row (user, friend) exists, the service answers
    "friends" for that direction. *)
Lemma CheckFriendship_friends (db : DB) (userID friendID : string) (row : Friendship) :
  userID <> friendID ->
  In row (friendships db) ->
  fsDeletedAt row = None ->
  fsUserID row = userID ->
  fsFriendID row = friendID ->
  CheckFriendship db userID friendID = Ok ("friends", "").
Proof.
  intros Hne Hin Hlive Huser Hfriend. unfold CheckFriendship.
  destruct (String.eqb_spec userID friendID); [contradiction | ].
  unfold FriendRepository.CheckFriendship.
  rewrite (counted_positive _ _ row Hin); [reflexivity | ].
  unfold FriendRepository.liveFriendship.
  now rewrite Hlive, Huser, Hfriend, !String.eqb_refl.
Qed.

(** A request [SendFriendRequest] creates is pending and goes from one user
    to another one. *)
Lemma SendFriendRequest_pending (now : Z) (uuid : string) (db db' : DB)
      (senderID receiverID : string) (request : FriendRequest) :
  SendFriendRequest now uuid db senderID receiverID = (Ok request, db') ->
  frSenderID request = senderID
  /\ frReceiverID request = receiverID
  /\ senderID <> receiverID
  /\ frStatus request = "pending".
Proof.
  unfold SendFriendRequest.
  destruct (String.eqb_spec senderID receiverID) as [Heq | Hne]; [discriminate | ].
  assert (Hcreate : forall status : string,
             (if status =? "friends" then (Err (ErrorsNew "already friends"), db)
              else if status =? "pending"
              then (Err (ErrorsNew "friend request already sent"), db)
              else if status =? "blocked"
              then (Err (ErrorsNew "cannot send friend request to blocked user"), db)
              else
                match FriendRepository.CreateFriendRequest
                        now uuid db
                        (mkFriendRequest "" senderID receiverID "pending" 0 0 None) with
                | Err err => (Err err, db)
                | Ok (request, db) => (Ok request, db)
                end) = (Ok request, db') ->
             frSenderID request = senderID
             /\ frReceiverID request = receiverID
             /\ senderID <> receiverID
             /\ frStatus request = "pending").
  { intros status.
    destruct (status =? "friends"); [discriminate | ].
    destruct (status =? "pending"); [discriminate | ].
    destruct (status =? "blocked"); [discriminate | ].
    unfold FriendRepository.CreateFriendRequest. cbn.
    destruct (existsb (fun row => frID row =? uuid) (friend_requests db));
      [discriminate | ].
    intros [= <- <-]. cbn. auto. }
  destruct (FriendRepository.CheckFriendship db senderID receiverID)
    as [[status requestID] | [ | | msg]]; try discriminate; apply Hcreate.
Qed.

(** C6.  Take a pending friend request from sender a to receiver b.
    [AcceptFriendRequest] by b, with two new friendship ids, sets the status
    of the request to accepted and adds exactly two friendship rows, (a, b)
    and (b, a); afterwards [CheckFriendship] answers friends for (a, b) and
    for (b, a), a and b being two users.  [RejectFriendRequest] by b sets
    the status to rejected and leaves the friendship table as it was. *)
Theorem accept_or_reject_pending
        (now : Z) (uuid1 uuid2 : string) (db : DB) (requestID a b : string)
        (request : FriendRequest) :
  FriendRepository.GetFriendRequestByID db requestID = Ok request ->
  frSenderID request = a ->
  frReceiverID request = b ->
  frStatus request = "pending" ->
  (existsb (fun row => fsID row =? uuid1) (friendships db) = false ->
   existsb (fun row => fsID row =? uuid2) (friendships db) = false ->
   uuid1 <> uuid2 ->
   exists request' db',
     AcceptFriendRequest now uuid1 uuid2 db requestID b = (Ok request', db')
     /\ request' = set_frUpdatedAt (set_frStatus request "accepted") now
     /\ FriendRepository.GetFriendRequestByID db' requestID = Ok request'
     /\ friendships db'
        = (friendships db
           ++ [mkFriendship uuid1 a b now now None;
               mkFriendship uuid2 b a now now None])%list
     /\ (a <> b ->
         CheckFriendship db' a b = Ok ("friends", "")
         /\ CheckFriendship db' b a = Ok ("friends", "")))
  /\ (exists request' db',
        RejectFriendRequest now db requestID b = (Ok request', db')
        /\ request' = set_frUpdatedAt (set_frStatus request "rejected") now
        /\ FriendRepository.GetFriendRequestByID db' requestID = Ok request'
        /\ friendships db' = friendships db).
Proof.
  intros Hget Hsender Hreceiver Hstatus.
  split.
  - intros Hfresh1 Hfresh2 Hids.
    destruct (GetFriendRequestByID_updated now db requestID "accepted" request Hget)
      as (dbS & Hupdate & HfriendsS & _ & HgetS).
    assert (Hfresh2' :
              existsb (fun row => fsID row =? uuid2)
                      (friendships db ++ [mkFriendship uuid1 a b now now None]) = false).
    { rewrite existsb_app, Hfresh2. cbn.
      apply orb_false_iff. split; [ | reflexivity]. now apply String.eqb_neq. }
    do 2 eexists. split; [ | split; [reflexivity | split; [ | split]]].
    + unfold AcceptFriendRequest.
      rewrite Hget, Hreceiver, Hstatus, Hsender, !String.eqb_refl. cbn [negb].
      rewrite Hupdate.
      unfold FriendRepository.CreateFriendship.
      cbn [fsID fsUserID fsFriendID fsCreatedAt fsUpdatedAt fsDeletedAt].
      rewrite !String.eqb_refl. unfold autoTime. cbn [Z.eqb].
      rewrite HfriendsS, Hfresh1.
      cbn [friendships set_friendships].
      rewrite Hfresh2'.
      reflexivity.
    + cbn [friend_requests set_friendships]. exact HgetS.
    + cbn [friendships set_friendships]. now rewrite <- app_assoc.
    + intros Hne. split.
      * apply (CheckFriendship_friends _ a b (mkFriendship uuid1 a b now now None));
          try reflexivity; try assumption.
        cbn [friendships set_friendships].
        apply in_or_app. left. apply in_or_app. right. now left.
      * apply (CheckFriendship_friends _ b a (mkFriendship uuid2 b a now now None));
          try reflexivity; try congruence.
        cbn [friendships set_friendships]. apply in_or_app. right. now left.
  - destruct (GetFriendRequestByID_updated now db requestID "rejected" request Hget)
      as (dbS & Hupdate & HfriendsS & _ & HgetS).
    do 2 eexists. split; [ | split; [reflexivity | split; [exact HgetS | exact HfriendsS]]].
    unfold RejectFriendRequest.
    rewrite Hget, Hreceiver, Hstatus, !String.eqb_refl. cbn [negb].
    now rewrite Hupdate.
Qed.

Lemma accept_or_reject_pending_witness :
  (exists request' db',
      AcceptFriendRequest 200 "f-005" "f-006" Examples.friends_seed "fr-001" "user-002"
      = (Ok request', db')
      /\ frStatus request' = "accepted"
      /\ length (friendships db') = 6%nat
      /\ CheckFriendship db' "user-001" "user-002" = Ok ("friends", "")
      /\ CheckFriendship db' "user-002" "user-001" = Ok ("friends", ""))
  /\ (exists request' db',
        RejectFriendRequest 200 Examples.friends_seed "fr-001" "user-002"
        = (Ok request', db')
        /\ frStatus request' = "rejected"
        /\ friendships db' = friendships Examples.friends_seed).
Proof.
  destruct (accept_or_reject_pending
              200 "f-005" "f-006" Examples.friends_seed "fr-001" "user-001" "user-002"
              (mkFriendRequest "fr-001" "user-001" "user-002" "pending" 100 100 None))
    as [Haccept Hreject].
  - reflexivity.
  - reflexivity.
  - reflexivity.
  - reflexivity.
  - split.
    + destruct Haccept as (request' & db' & Hcall & Hreq & _ & Hrows & Hfriends).
      * reflexivity.
      * reflexivity.
      * discriminate.
      * exists request', db'. split; [exact Hcall | ].
        split; [now rewrite Hreq | ].
        split; [now rewrite Hrows | ].
        apply Hfriends. discriminate.
    + destruct Hreject as (request' & db' & Hcall & Hreq & _ & Hrows).
      exists request', db'. split; [exact Hcall | ].
      split; [now rewrite Hreq | exact Hrows].
Defined.

End FriendsLifecycle.

(** * The group service: leaving a group *)

Module GroupsLeave.
Import Groups QueryFacts.

(** C7, as stated, fails: the membership check runs before the creator
    check, so a creator without membership row is told that he is not a
    member. *)
Lemma creator_error_fails : ~ Spec.creator_error.
Proof.
  intros claim.
  specialize (claim 200%Z Examples.orphan_db "group2" "user3" Examples.group2
                    eq_refl eq_refl).
  vm_compute in claim. discriminate.
Qed.

Lemma IsMember_removed (now : Z) (db : DB) (groupID userID : string) :
  GroupRepository.IsMember
    (set_group_members db
       (map (fun row => if GroupRepository.membership groupID userID row
                        then softDelete row now else row)
            (group_members db))) groupID userID
  = Ok false.
Proof.
  unfold GroupRepository.IsMember. cbn [group_members set_group_members].
  rewrite filter_map_killed; [reflexivity | ].
  intros x. reflexivity.
Qed.

Lemma IsMember_others (now : Z) (db : DB) (groupID userID g u : string) :
  g <> groupID \/ u <> userID ->
  GroupRepository.IsMember
    (set_group_members db
       (map (fun row => if GroupRepository.membership groupID userID row
                        then softDelete row now else row)
            (group_members db))) g u
  = GroupRepository.IsMember db g u.
Proof.
  intros Hother. unfold GroupRepository.IsMember. cbn [group_members set_group_members].
  rewrite (filter_map_other (GroupRepository.membership g u)
                            (GroupRepository.membership groupID userID)
                            (fun row => softDelete row now));
    [reflexivity | ].
  intros x Hx. split; [ | reflexivity].
  unfold GroupRepository.membership in *.
  apply andb_true_iff in Hx. destruct Hx as [_ Hx].
  apply andb_true_iff in Hx. destruct Hx as [Hg Hu].
  apply String.eqb_eq in Hg, Hu. rewrite Hg, Hu.
  destruct Hother as [H | H].
  - assert (Hf : (groupID =? g) = false) by (apply String.eqb_neq; congruence).
    rewrite Hf. apply andb_false_r.
  - assert (Hf : (userID =? u) = false) by (apply String.eqb_neq; congruence).
    rewrite Hf. cbn. rewrite !andb_false_r. reflexivity.
Qed.

(** C7, amended.  For every group g and user u: [LeaveGroup] fails with
    "not a member of this group" when u is not a member of g; it fails
    with "creator cannot leave the group" when u is the creator of g and a
    member; whenever u is the creator it fails and leaves the database as
    it was, so the creator never leaves; a member who is not the creator
    leaves as soon as the soft delete goes through; and on success u is no
    longer a member, the returned count is the number of live members of g
    afterwards, as int32, and no other membership and no group changes. *)
Theorem LeaveGroup_rules (now : Z) (db : DB) (groupID userID : string) (group : Group) :
  GroupRepository.GetGroupByID db groupID = Ok group ->
  (GroupRepository.IsMember db groupID userID = Ok false ->
   LeaveGroup now db groupID userID
   = ((false, 0%Z, Some (ErrorsNew "not a member of this group")), db))
  /\ (gCreatorID group = userID ->
      GroupRepository.IsMember db groupID userID = Ok true ->
      LeaveGroup now db groupID userID
      = ((false, 0%Z, Some (ErrorsNew "creator cannot leave the group")), db))
  /\ (gCreatorID group = userID ->
      exists err, LeaveGroup now db groupID userID = ((false, 0%Z, Some err), db))
  /\ (gCreatorID group <> userID ->
      GroupRepository.IsMember db groupID userID = Ok true ->
      forall db1,
        GroupRepository.RemoveMember now db groupID userID = Ok db1 ->
        exists count, LeaveGroup now db groupID userID = ((true, count, None), db1))
  /\ (forall count db',
         LeaveGroup now db groupID userID = ((true, count, None), db') ->
         GroupRepository.IsMember db' groupID userID = Ok false
         /\ count
            = int32 (Z.of_nat
                       (length (filter (fun row => GroupRepository.liveMember row
                                                   && (gmGroupID row =? groupID))
                                       (group_members db'))))
         /\ (forall g u, g <> groupID \/ u <> userID ->
                         GroupRepository.IsMember db' g u = GroupRepository.IsMember db g u)
         /\ groups db' = groups db).
Proof.
  intros Hget.
  split; [ | split; [ | split; [ | split]]].
  - intros Hmember. unfold LeaveGroup. now rewrite Hget, Hmember.
  - intros Hcreator Hmember. unfold LeaveGroup. rewrite Hget, Hmember. cbn [negb].
    now rewrite Hcreator, String.eqb_refl.
  - intros Hcreator. unfold LeaveGroup. rewrite Hget.
    unfold GroupRepository.IsMember.
    match goal with |- context [(?c >? 0)%Z] => destruct (c >? 0)%Z end; cbn [negb].
    + rewrite Hcreator, String.eqb_refl. eexists. reflexivity.
    + eexists. reflexivity.
  - intros Hcreator Hmember db1 Hremove. unfold LeaveGroup.
    rewrite Hget, Hmember. cbn [negb].
    destruct (String.eqb_spec (gCreatorID group) userID); [contradiction | ].
    rewrite Hremove. unfold GroupRepository.GetGroupMembers. eexists. reflexivity.
  - intros count db'. unfold LeaveGroup. rewrite Hget.
    unfold GroupRepository.IsMember at 1.
    match goal with |- context [(?c >? 0)%Z] => destruct (c >? 0)%Z end; cbn [negb];
      [ | discriminate].
    destruct (gCreatorID group =? userID); [discriminate | ].
    unfold GroupRepository.RemoveMember.
    match goal with |- context [if ?c then Err ErrDuplicatedKey else _] => destruct c end;
      [discriminate | ].
    unfold GroupRepository.GetGroupMembers.
    intros [= <- <-].
    split; [apply IsMember_removed | ].
    split; [reflexivity | ].
    split; [ | reflexivity].
    intros g u Hother. now apply IsMember_others.
Qed.

Lemma LeaveGroup_rules_witness :
  LeaveGroup 200 Examples.group_db "group1" "user1"
  = ((false, 0%Z, Some (ErrorsNew "creator cannot leave the group")), Examples.group_db)
  /\ LeaveGroup 200 Examples.group_db "group1" "user3"
     = ((false, 0%Z, Some (ErrorsNew "not a member of this group")), Examples.group_db)
  /\ (exists db', LeaveGroup 200 Examples.group_db "group1" "user2"
                  = ((true, 1%Z, None), db')).
Proof.
  split; [ | split].
  - apply (LeaveGroup_rules 200 Examples.group_db "group1" "user1" Examples.group1);
      reflexivity.
  - apply (LeaveGroup_rules 200 Examples.group_db "group1" "user3" Examples.group1);
      reflexivity.
  - destruct (LeaveGroup_rules 200 Examples.group_db "group1" "user2" Examples.group1
                               eq_refl) as (_ & _ & _ & Hleave & Hafter).
    destruct (Hleave ltac:(discriminate) eq_refl _ eq_refl) as [count Hcall].
    destruct (Hafter count _ Hcall) as (_ & Hcount & _).
    eexists. rewrite Hcall, Hcount. reflexivity.
Defined.

End GroupsLeave.

(** * The post service: creating and deleting posts *)

Module PostsLifecycle.
Import Posts QueryFacts.

Lemma FindByID_appended (db : DB) (row : Post) (id : string) :
  existsb (fun r => ID r =? id) (posts db) = false ->
  PostRepository.live row = true ->
  ID row = id ->
  PostRepository.FindByID (set_posts db (posts db ++ [row])) id
  = Ok (PostRepository.scan row).
Proof.
  intros Hfresh Hlive Hid. unfold PostRepository.FindByID. cbn [posts set_posts].
  rewrite filter_app, (filter_none _ (posts db)).
  - cbn [app filter]. rewrite Hlive, Hid, String.eqb_refl. reflexivity.
  - intros x Hx. rewrite (existsb_false_forall _ _ Hfresh x Hx). apply andb_false_r.
Qed.

Lemma FindByID_before_append (db : DB) (row : Post) (id : string) :
  ID row <> id ->
  PostRepository.FindByID (set_posts db (posts db ++ [row])) id
  = PostRepository.FindByID db id.
Proof.
  intros Hid. unfold PostRepository.FindByID. cbn [posts set_posts].
  rewrite filter_app. cbn [filter].
  destruct (String.eqb_spec (ID row) id) as [E | _]; [contradiction | ].
  now rewrite andb_false_r, app_nil_r.
Qed.

(** What a successful [CreatePost] has checked, returned and stored. *)
Lemma CreatePost_Ok (now : Z) (uuid : string) (db db' : DB)
      (userID content visibility groupID : string) (media : option (list string))
      (post : Post) :
  CreatePost now uuid db userID content visibility groupID media = (Ok post, db') ->
  (userID <> "" /\ content <> "" /\ (visibility = "public" \/ visibility = "private"))
  /\ post = mkPost uuid userID ("User " ++ userID) "" content visibility groupID
                   (if negb (groupID =? "") then "Group " ++ groupID else "")
                   (match media with Some l => l | None => [] end) media
                   0 0 now now None
  /\ existsb (fun row => ID row =? uuid) (posts db) = false
  /\ db' = set_posts db (posts db ++ [PostRepository.stored post]).
Proof.
  unfold CreatePost.
  destruct (String.eqb_spec userID "") as [ | Huser]; [discriminate | ].
  destruct (String.eqb_spec content "") as [ | Hcontent]; [discriminate | ].
  assert (Hvis : negb (visibility =? "public") && negb (visibility =? "private") = false
                 -> visibility = "public" \/ visibility = "private").
  { destruct (String.eqb_spec visibility "public"); [now left | ].
    destruct (String.eqb_spec visibility "private"); [now right | discriminate]. }
  destruct (negb (visibility =? "public") && negb (visibility =? "private"));
    [discriminate | ].
  specialize (Hvis eq_refl).
  unfold PostRepository.Create, PostRepository.marshalMedia.
  destruct media as [[ | m l] | ]; cbn;
    (destruct (existsb (fun row => ID row =? uuid) (posts db)) eqn:Hfresh;
     [discriminate | ]);
    intros [= <- <-]; repeat split; auto.
Qed.

(** [scan] after [stored] is [scan]: the media list a finder returns is the
    one parsed from the column. *)
Lemma scan_stored (post : Post) :
  PostRepository.scan (PostRepository.stored post) = PostRepository.scan post.
Proof.
  unfold PostRepository.scan, PostRepository.stored. cbn. now destruct (Media post).
Qed.

(** X1.  The post [CreatePost] returns is the post [GetPost] returns to its
    author under the generated id, and to anyone when it is public; the
    only field that can differ is the media list, when the caller passed an
    empty, non-nil list.  Posts under other ids, comments and likes are as
    they were. *)
Theorem CreatePost_then_GetPost (now : Z) (uuid : string) (db db' : DB)
        (userID content visibility groupID : string) (media : option (list string))
        (post : Post) :
  uuid <> "" ->
  CreatePost now uuid db userID content visibility groupID media = (Ok post, db') ->
  ID post = uuid
  /\ (exists liked, GetPost db' uuid userID = Ok (PostRepository.scan post, liked))
  /\ (visibility = "public" ->
      forall viewerID,
      exists liked, GetPost db' uuid viewerID = Ok (PostRepository.scan post, liked))
  /\ (media <> Some [] -> PostRepository.scan post = post)
  /\ (forall id, id <> uuid ->
                 PostRepository.FindByID db' id = PostRepository.FindByID db id)
  /\ comments db' = comments db
  /\ likes db' = likes db.
Proof.
  intros Huuid Hcall.
  destruct (CreatePost_Ok _ _ _ _ _ _ _ _ _ _ Hcall) as (_ & Hpost & Hfresh & Hdb).
  assert (Hfind : PostRepository.FindByID db' uuid = Ok (PostRepository.scan post)).
  { rewrite Hdb, <- scan_stored. apply FindByID_appended; [exact Hfresh | | ].
    - now rewrite Hpost.
    - now rewrite Hpost. }
  assert (Hauthor : AuthorID (PostRepository.scan post) = userID).
  { rewrite Hpost. unfold PostRepository.scan. cbn. now destruct media as [[ | ] | ]. }
  assert (Hvisibility : Visibility (PostRepository.scan post) = visibility).
  { rewrite Hpost. unfold PostRepository.scan. cbn. now destruct media as [[ | ] | ]. }
  split; [now rewrite Hpost | ].
  split.
  { rewrite (PostsGetPost.GetPost_found db' uuid userID _ Huuid Hfind).
    unfold isPostVisibleToUser. rewrite Hauthor, String.eqb_refl.
    destruct (Visibility (PostRepository.scan post) =? "public"); eexists; reflexivity. }
  split.
  { intros Hpublic viewerID.
    rewrite (PostsGetPost.GetPost_found db' uuid viewerID _ Huuid Hfind).
    unfold isPostVisibleToUser. rewrite Hvisibility, Hpublic. cbn.
    eexists; reflexivity. }
  split.
  { intros Hmedia. rewrite Hpost. unfold PostRepository.scan. cbn.
    destruct media as [[ | m l] | ]; [congruence | reflexivity | reflexivity]. }
  split.
  { intros id Hid. rewrite Hdb. apply FindByID_before_append.
    rewrite Hpost. cbn. congruence. }
  rewrite Hdb. split; reflexivity.
Qed.

Lemma CreatePost_then_GetPost_witness :
  exists liked,
    GetPost (snd (CreatePost 100 "post7" Examples.seed_db "user3" "hello" "private" "" None))
            "post7" "user3"
    = Ok (mkPost "post7" "user3" "User user3" "" "hello" "private" "" "" [] None
                 0 0 100 100 None, liked).
Proof.
  destruct (CreatePost_then_GetPost
              100 "post7" Examples.seed_db
              (snd (CreatePost 100 "post7" Examples.seed_db "user3" "hello" "private" "" None))
              "user3" "hello" "private" "" None
              (mkPost "post7" "user3" "User user3" "" "hello" "private" "" "" [] None
                      0 0 100 100 None))
    as (_ & Hget & _).
  - discriminate.
  - vm_compute. reflexivity.
  - exact Hget.
Defined.

(** X2.  [CreatePost] answers InvalidArgument exactly for an empty user id,
    an empty content or a visibility other than the two known ones; a call
    that fails leaves the database as it was, and a call that succeeds adds
    one row to the posts table and nothing else. *)
Theorem CreatePost_effect (now : Z) (uuid : string) (db : DB)
        (userID content visibility groupID : string) (media : option (list string)) :
  let called := CreatePost now uuid db userID content visibility groupID media in
  ((userID = "" \/ content = "" \/ (visibility <> "public" /\ visibility <> "private"))
   <-> exists msg, fst called = Err (mkStatus InvalidArgument msg))
  /\ (forall st, fst called = Err st -> snd called = db)
  /\ (forall post,
         fst called = Ok post ->
         posts (snd called) = (posts db ++ [PostRepository.stored post])%list
         /\ comments (snd called) = comments db
         /\ likes (snd called) = likes db).
Proof.
  cbv zeta. split; [ | split].
  - unfold CreatePost.
    destruct (String.eqb_spec userID "") as [Huser | Huser].
    { split; [eexists; reflexivity | now left]. }
    destruct (String.eqb_spec content "") as [Hcontent | Hcontent].
    { split; [eexists; reflexivity | now right; left]. }
    destruct (String.eqb_spec visibility "public") as [Hpub | Hpub];
      destruct (String.eqb_spec visibility "private") as [Hpriv | Hpriv]; cbn [negb andb].
    4:{ split; [eexists; reflexivity | now right; right]. }
    all: split;
      [ intros [H | [H | [H1 H2]]]; contradiction
      | intros [msg H]; exfalso;
        destruct (PostRepository.Create _ _ _) as [[post db'] | e]; discriminate H ].
  - intros st. unfold CreatePost.
    destruct (userID =? ""); [reflexivity | ].
    destruct (content =? ""); [reflexivity | ].
    destruct (negb (visibility =? "public") && negb (visibility =? "private"));
      [reflexivity | ].
    destruct (PostRepository.Create _ _ _) as [[post db'] | e]; [discriminate | reflexivity].
  - intros post Hok.
    destruct (CreatePost now uuid db userID content visibility groupID media)
      as [r db'] eqn:Hcall.
    cbn [fst snd] in *. subst r.
    destruct (CreatePost_Ok _ _ _ _ _ _ _ _ _ _ Hcall) as (_ & _ & _ & ->).
    repeat split.
Qed.

(** Nothing is found under an id after the soft delete of its live rows. *)
Lemma FindByID_deleted (now : Z) (db : DB) (postID : string) :
  PostRepository.FindByID
    (set_posts db
       (map (fun row =>
               if PostRepository.live row && (ID row =? postID)
               then set_DeletedAt row (Some now) else row)
            (posts db))) postID
  = Err ErrRecordNotFound.
Proof.
  unfold PostRepository.FindByID. cbn [posts set_posts].
  now rewrite (filter_map_killed
                 (fun row => PostRepository.live row && (ID row =? postID))).
Qed.

(** A rewrite of the live rows of one id that keeps the id does not change
    what is found under another id. *)
Lemma FindByID_elsewhere (g : Post -> Post) (db : DB) (postID id : string) :
  id <> postID ->
  (forall row, ID (g row) = ID row) ->
  PostRepository.FindByID
    (set_posts db
       (map (fun row => if PostRepository.live row && (ID row =? postID) then g row else row)
            (posts db))) id
  = PostRepository.FindByID db id.
Proof.
  intros Hid HID. unfold PostRepository.FindByID. cbn [posts set_posts].
  rewrite (filter_map_other (fun row => PostRepository.live row && (ID row =? id))
                            (fun row => PostRepository.live row && (ID row =? postID))).
  - reflexivity.
  - intros x Hx. apply andb_true_iff in Hx. destruct Hx as [_ Hx].
    apply String.eqb_eq in Hx. rewrite HID, Hx.
    destruct (String.eqb_spec postID id) as [E | _]; [congruence | ].
    now rewrite !andb_false_r.
Qed.

(** What a successful [DeletePost] has checked and written. *)
Lemma DeletePost_None (now : Z) (db db' : DB) (postID userID : string) :
  DeletePost now db postID userID = (None, db') ->
  postID <> "" /\ userID <> ""
  /\ (exists post, PostRepository.FindByID db postID = Ok post /\ AuthorID post = userID)
  /\ db' = set_posts db
             (map (fun row =>
                     if PostRepository.live row && (ID row =? postID)
                     then set_DeletedAt row (Some now) else row)
                  (posts db)).
Proof.
  unfold DeletePost.
  destruct (String.eqb_spec postID "") as [ | Hpost]; [discriminate | ].
  destruct (String.eqb_spec userID "") as [ | Huser]; [discriminate | ].
  destruct (PostRepository.FindByID db postID) as [post | e]; [ | discriminate].
  destruct (String.eqb_spec (AuthorID post) userID) as [Hauthor | ]; [ | discriminate].
  cbn. intros [= <-]. repeat split; eauto.
Qed.

(** X3.  [DeletePost] needs a live post and its author: NotFound and
    PermissionDenied leave the database as it was.  After the author's
    call the post is gone for [GetPost] and for a second [DeletePost];
    the other posts, the comments and the likes are untouched. *)
Theorem DeletePost_rules (now : Z) (db : DB) (postID userID : string) :
  postID <> "" ->
  userID <> "" ->
  (forall e,
      PostRepository.FindByID db postID = Err e ->
      DeletePost now db postID userID = (refused NotFound "post not found", db))
  /\ (forall post,
         PostRepository.FindByID db postID = Ok post ->
         AuthorID post <> userID ->
         DeletePost now db postID userID
         = (refused PermissionDenied "you don't have permission to delete this post", db))
  /\ (forall post,
         PostRepository.FindByID db postID = Ok post ->
         AuthorID post = userID ->
         exists db',
           DeletePost now db postID userID = (None, db')
           /\ PostRepository.FindByID db' postID = Err ErrRecordNotFound
           /\ (forall viewerID,
                  GetPost db' postID viewerID = status NotFound "post not found")
           /\ (forall now',
                  DeletePost now' db' postID userID
                  = (refused NotFound "post not found", db'))
           /\ (forall id, id <> postID ->
                          PostRepository.FindByID db' id = PostRepository.FindByID db id)
           /\ comments db' = comments db
           /\ likes db' = likes db).
Proof.
  intros Hpost Huser.
  apply String.eqb_neq in Hpost. apply String.eqb_neq in Huser.
  split; [ | split].
  - intros e Hfind. unfold DeletePost. now rewrite Hpost, Huser, Hfind.
  - intros post Hfind Hauthor. apply String.eqb_neq in Hauthor.
    unfold DeletePost. now rewrite Hpost, Huser, Hfind, Hauthor.
  - intros post Hfind Hauthor. apply String.eqb_eq in Hauthor.
    eexists. split.
    { unfold DeletePost. rewrite Hpost, Huser, Hfind, Hauthor. cbn. reflexivity. }
    pose proof (FindByID_deleted now db postID) as Hgone.
    split; [exact Hgone | ].
    split. { intros viewerID. unfold GetPost. now rewrite Hpost, Hgone. }
    split. { intros now'. unfold DeletePost. now rewrite Hpost, Huser, Hgone. }
    split. { intros id Hid. now apply FindByID_elsewhere. }
    split; reflexivity.
Qed.

Lemma DeletePost_rules_witness :
  exists db',
    DeletePost 200 Examples.seed_db "post3" "user2" = (None, db')
    /\ GetPost db' "post3" "user2" = status NotFound "post not found"
    /\ DeletePost 300 Examples.seed_db "post3" "user1"
       = (refused PermissionDenied "you don't have permission to delete this post",
          Examples.seed_db).
Proof.
  destruct (DeletePost_rules 200 Examples.seed_db "post3" "user2") as (_ & _ & Hok);
    [discriminate | discriminate | ].
  destruct (Hok (PostRepository.scan Examples.post3) eq_refl eq_refl)
    as (db' & Hcall & _ & Hget & _).
  exists db'. split; [exact Hcall | ]. split; [apply Hget | ].
  apply (DeletePost_rules 300 Examples.seed_db "post3" "user1")
    with (post := PostRepository.scan Examples.post3);
    [discriminate | discriminate | reflexivity | discriminate].
Defined.

End PostsLifecycle.

(** * The post service: comments *)

Module PostsComments.
Import Posts QueryFacts.

Lemma scan_comments_recount (row : Post) (n now : Z) :
  PostRepository.scan (set_UpdatedAt (set_CommentsCount row n) now)
  = set_UpdatedAt (set_CommentsCount (PostRepository.scan row) n) now.
Proof. unfold PostRepository.scan. cbn. now destruct (Media row). Qed.

Lemma CommentsCount_scan (row : Post) :
  CommentsCount (PostRepository.scan row) = CommentsCount row.
Proof. unfold PostRepository.scan. now destruct (Media row). Qed.

(** The post a comment counter update leaves behind. *)
Lemma FindByID_comments_recount (f : Z -> Z) (now : Z) (db db' : DB) (id : string)
      (post : Post) :
  posts db'
  = map (fun row =>
           if PostRepository.live row && (ID row =? id)
           then set_UpdatedAt (set_CommentsCount row (f (CommentsCount row))) now
           else row)
        (posts db) ->
  PostRepository.FindByID db id = Ok post ->
  PostRepository.FindByID db' id
  = Ok (set_UpdatedAt (set_CommentsCount post (f (CommentsCount post))) now).
Proof.
  intros Hdb. unfold PostRepository.FindByID. rewrite Hdb.
  rewrite filter_map_preserved.
  2:{ intros x. cbv beta.
      destruct (PostRepository.live x && (ID x =? id)) eqn:E; exact E. }
  rewrite first_map.
  destruct (first (filter (fun row => PostRepository.live row && (ID row =? id)) (posts db)))
    as [row | e] eqn:Hfirst; [ | discriminate].
  intros [= <-].
  apply first_filter_Ok in Hfirst. destruct Hfirst as [_ Hrow].
  rewrite Hrow, scan_comments_recount, CommentsCount_scan. reflexivity.
Qed.

Lemma FindByID_comments (db db' : DB) (id : string) :
  comments db' = comments db ->
  CommentRepository.FindByID db' id = CommentRepository.FindByID db id.
Proof. intros H. unfold CommentRepository.FindByID. now rewrite H. Qed.

Lemma GetComments_comments (db db' : DB) (postID : string) (page limit : Z) :
  comments db' = comments db ->
  GetComments db' postID page limit = GetComments db postID page limit.
Proof.
  intros H. unfold GetComments, CommentRepository.FindByPost. now rewrite H.
Qed.

Lemma FindByID_posts_of (db db' : DB) (id : string) :
  posts db' = posts db ->
  PostRepository.FindByID db' id = PostRepository.FindByID db id.
Proof. intros H. unfold PostRepository.FindByID. now rewrite H. Qed.

(** The comment found under a fresh id after its insert. *)
Lemma comment_appended (db : DB) (comment : Comment) (id : string) :
  existsb (fun row => cID row =? id) (comments db) = false ->
  CommentRepository.live comment = true ->
  cID comment = id ->
  CommentRepository.FindByID (set_comments db (comments db ++ [comment])) id = Ok comment.
Proof.
  intros Hfresh Hlive Hid. unfold CommentRepository.FindByID. cbn [comments set_comments].
  rewrite filter_app, (filter_none _ (comments db)).
  - cbn [app filter]. rewrite Hlive, Hid, String.eqb_refl. reflexivity.
  - intros x Hx. rewrite (existsb_false_forall _ _ Hfresh x Hx). apply andb_false_r.
Qed.

(** The soft delete of the rows of one id: nothing is found under the id
    afterwards, and every other id finds what it found. *)
Lemma comment_deleted (now : Z) (db db' : DB) (commentID : string) :
  comments db'
  = map (fun row =>
           if CommentRepository.live row && (cID row =? commentID)
           then softDeleteComment row now else row)
        (comments db) ->
  CommentRepository.FindByID db' commentID = Err ErrRecordNotFound.
Proof.
  intros Hdb. unfold CommentRepository.FindByID. rewrite Hdb.
  now rewrite (filter_map_killed
                 (fun row => CommentRepository.live row && (cID row =? commentID))).
Qed.

Lemma comment_elsewhere (now : Z) (db db' : DB) (commentID id : string) :
  comments db'
  = map (fun row =>
           if CommentRepository.live row && (cID row =? commentID)
           then softDeleteComment row now else row)
        (comments db) ->
  id <> commentID ->
  CommentRepository.FindByID db' id = CommentRepository.FindByID db id.
Proof.
  intros Hdb Hid. unfold CommentRepository.FindByID. rewrite Hdb.
  rewrite (filter_map_other
             (fun row => CommentRepository.live row && (cID row =? id))
             (fun row => CommentRepository.live row && (cID row =? commentID))).
  - reflexivity.
  - intros x Hx. apply andb_true_iff in Hx. destruct Hx as [_ Hx].
    apply String.eqb_eq in Hx. split; [ | reflexivity].
    rewrite Hx. destruct (String.eqb_spec commentID id) as [E | _]; [congruence | ].
    apply andb_false_r.
Qed.

(** X4.  [DeletePost] does not cascade.  The comments of the deleted post
    are still listed by [GetComments], but no call of [DeleteComment] can
    remove one of them any more, and [AddComment] refuses the post. *)
Theorem deleted_post_keeps_comments (now : Z) (db db' : DB) (postID userID : string) :
  DeletePost now db postID userID = (None, db') ->
  (forall id page limit, GetComments db' id page limit = GetComments db id page limit)
  /\ (forall now' commentID callerID comment,
         commentID <> "" ->
         callerID <> "" ->
         CommentRepository.FindByID db' commentID = Ok comment ->
         cPostID comment = postID ->
         DeleteComment now' db' commentID postID callerID
         = (refused NotFound "post not found", db'))
  /\ (forall now' uuid callerID authorName authorAvatar content,
         callerID <> "" ->
         content <> "" ->
         AddComment now' uuid db' postID callerID authorName authorAvatar content
         = (status NotFound "post not found", db')).
Proof.
  intros Hcall.
  destruct (PostsLifecycle.DeletePost_None _ _ _ _ _ Hcall) as (Hpost & _ & _ & Hdb).
  assert (Hgone : PostRepository.FindByID db' postID = Err ErrRecordNotFound).
  { rewrite Hdb. apply PostsLifecycle.FindByID_deleted. }
  apply String.eqb_neq in Hpost.
  split; [ | split].
  - intros id page limit. apply GetComments_comments. now rewrite Hdb.
  - intros now' commentID callerID comment Hcomment Hcaller Hfind Hbelongs.
    apply String.eqb_neq in Hcomment. apply String.eqb_neq in Hcaller.
    apply String.eqb_eq in Hbelongs.
    unfold DeleteComment. now rewrite Hcomment, Hpost, Hcaller, Hfind, Hbelongs, Hgone.
  - intros now' uuid callerID authorName authorAvatar content Hcaller Hcontent.
    apply String.eqb_neq in Hcaller. apply String.eqb_neq in Hcontent.
    unfold AddComment. now rewrite Hpost, Hcaller, Hcontent, Hgone.
Qed.

Lemma deleted_post_keeps_comments_witness :
  let db' := snd (DeletePost 200 Examples.seed_db "post3" "user2") in
  GetComments db' "post3" 1 10 = Ok ([Examples.comment2; Examples.comment3], 2%Z, 1%Z)
  /\ DeleteComment 300 db' "comment2" "post3" "user1"
     = (refused NotFound "post not found", db').
Proof.
  intros db'.
  destruct (deleted_post_keeps_comments 200 Examples.seed_db db' "post3" "user2")
    as (Hlist & Hdelete & _).
  - vm_compute. reflexivity.
  - split.
    + rewrite Hlist. vm_compute. reflexivity.
    + apply (Hdelete 300 "comment2" "user1" Examples.comment2);
        [discriminate | discriminate | vm_compute; reflexivity | reflexivity].
Defined.

(** X5.  [AddComment] asks for a live post and nothing else: whoever the
    caller is and whatever the visibility of the post, a comment under a
    fresh id is stored as passed, is found under its id, and moves the
    comment counter of the post up by one. *)
Theorem AddComment_stores (now : Z) (uuid : string) (db : DB)
        (postID userID authorName authorAvatar content : string) (post : Post) :
  postID <> "" ->
  userID <> "" ->
  content <> "" ->
  PostRepository.FindByID db postID = Ok post ->
  existsb (fun row => cID row =? uuid) (comments db) = false ->
  let comment :=
    mkComment uuid postID userID authorName authorAvatar content now now None in
  exists db',
    AddComment now uuid db postID userID authorName authorAvatar content
    = (Ok comment, db')
    /\ comments db' = (comments db ++ [comment])%list
    /\ CommentRepository.FindByID db' uuid = Ok comment
    /\ PostRepository.FindByID db' postID
       = Ok (set_UpdatedAt (set_CommentsCount post (CommentsCount post + 1)) now)
    /\ (forall id, id <> postID ->
                   PostRepository.FindByID db' id = PostRepository.FindByID db id)
    /\ likes db' = likes db.
Proof.
  intros Hpost Huser Hcontent Hfind Hfresh comment.
  apply String.eqb_neq in Hpost. apply String.eqb_neq in Huser.
  apply String.eqb_neq in Hcontent.
  assert (Hinserted :
            insertedComment now uuid
              (mkComment "" postID userID authorName authorAvatar content now now None)
            = comment).
  { unfold insertedComment, autoTime, comment. cbn.
    now destruct (now =? 0)%Z. }
  eexists. split.
  { unfold AddComment. rewrite Hpost, Huser, Hcontent, Hfind.
    unfold CommentRepository.Create. rewrite Hinserted.
    change (cID comment) with uuid. rewrite Hfresh. cbn. reflexivity. }
  split; [reflexivity | ].
  split.
  { apply (comment_appended db comment uuid Hfresh); reflexivity. }
  split.
  { apply (FindByID_comments_recount (fun n => (n + 1)%Z) now db);
      [reflexivity | exact Hfind]. }
  split.
  { intros id Hid.
    apply (PostsLifecycle.FindByID_elsewhere
             (fun row => set_UpdatedAt (set_CommentsCount row (CommentsCount row + 1)) now)
             (set_comments db (comments db ++ [comment])) postID id Hid).
    reflexivity. }
  reflexivity.
Qed.

(** A stranger comments on the private post of user1 that [GetPost] does
    not show to them. *)
Lemma AddComment_stores_witness :
  (exists db',
      AddComment 200 "comment5" Examples.seed_db "post2" "user3" "Bob" "" "hi"
      = (Ok (mkComment "comment5" "post2" "user3" "Bob" "" "hi" 200 200 None), db'))
  /\ GetPost Examples.seed_db "post2" "user3"
     = status PermissionDenied "you don't have permission to view this post".
Proof.
  split; [ | reflexivity].
  destruct (AddComment_stores 200 "comment5" Examples.seed_db "post2" "user3" "Bob" "" "hi"
                              (PostRepository.scan Examples.post2))
    as (db' & Hcall & _);
    [discriminate | discriminate | discriminate | reflexivity | reflexivity | ].
  exists db'. exact Hcall.
Defined.

(** X6.  [DeleteComment] on a live comment of a live post: the post id must
    be the comment's; the caller must be the author of the comment or of
    the post.  A refused call changes nothing; an accepted one removes the
    comment, moves the counter of the post down by one and leaves the
    other comments and the likes alone. *)
Theorem DeleteComment_rules (now : Z) (db : DB) (commentID postID userID : string)
        (comment : Comment) :
  commentID <> "" ->
  postID <> "" ->
  userID <> "" ->
  CommentRepository.FindByID db commentID = Ok comment ->
  (cPostID comment <> postID ->
   DeleteComment now db commentID postID userID
   = (refused InvalidArgument "comment does not belong to the post", db))
  /\ (forall post,
         cPostID comment = postID ->
         PostRepository.FindByID db postID = Ok post ->
         (cAuthorID comment <> userID ->
          AuthorID post <> userID ->
          DeleteComment now db commentID postID userID
          = (refused PermissionDenied "you don't have permission to delete this comment",
             db))
         /\ (cAuthorID comment = userID \/ AuthorID post = userID ->
             exists db',
               DeleteComment now db commentID postID userID = (None, db')
               /\ CommentRepository.FindByID db' commentID = Err ErrRecordNotFound
               /\ (forall id, id <> commentID ->
                              CommentRepository.FindByID db' id
                              = CommentRepository.FindByID db id)
               /\ PostRepository.FindByID db' postID
                  = Ok (set_UpdatedAt (set_CommentsCount post (CommentsCount post - 1)) now)
               /\ likes db' = likes db)).
Proof.
  intros Hcomment Hpost Huser Hfind.
  apply String.eqb_neq in Hcomment. apply String.eqb_neq in Hpost.
  apply String.eqb_neq in Huser.
  split.
  { intros Hother. apply String.eqb_neq in Hother.
    unfold DeleteComment. now rewrite Hcomment, Hpost, Huser, Hfind, Hother. }
  intros post Hbelongs Hfound. apply String.eqb_eq in Hbelongs.
  split.
  { intros H1 H2. apply String.eqb_neq in H1. apply String.eqb_neq in H2.
    unfold DeleteComment.
    now rewrite Hcomment, Hpost, Huser, Hfind, Hbelongs, Hfound, H1, H2. }
  intros Hallowed.
  assert (Hcheck : negb (cAuthorID comment =? userID) && negb (AuthorID post =? userID)
                   = false).
  { destruct Hallowed as [H | H]; apply String.eqb_eq in H; rewrite H; cbn;
      [reflexivity | apply andb_false_r]. }
  eexists. split.
  { unfold DeleteComment.
    rewrite Hcomment, Hpost, Huser, Hfind, Hbelongs, Hfound, Hcheck. cbn. reflexivity. }
  split.
  { apply (comment_deleted now db). reflexivity. }
  split.
  { intros id Hid. apply (comment_elsewhere now db _ commentID); [reflexivity | exact Hid]. }
  split; [ | reflexivity].
  apply (FindByID_comments_recount (fun n => (n - 1)%Z) now db);
    [reflexivity | exact Hfound].
Qed.

Lemma DeleteComment_rules_witness :
  (exists db', DeleteComment 200 Examples.seed_db "comment2" "post3" "user2" = (None, db'))
  /\ DeleteComment 200 Examples.seed_db "comment2" "post3" "user3"
     = (refused PermissionDenied "you don't have permission to delete this comment",
        Examples.seed_db)
  /\ DeleteComment 200 Examples.seed_db "comment2" "post1" "user1"
     = (refused InvalidArgument "comment does not belong to the post", Examples.seed_db).
Proof.
  split; [ | split].
  - destruct (DeleteComment_rules 200 Examples.seed_db "comment2" "post3" "user2"
                                  Examples.comment2)
      as [_ Hpost]; [discriminate | discriminate | discriminate | reflexivity | ].
    destruct (Hpost (PostRepository.scan Examples.post3) eq_refl eq_refl) as [_ Hok].
    destruct Hok as (db' & Hcall & _); [right; reflexivity | ].
    exists db'. exact Hcall.
  - destruct (DeleteComment_rules 200 Examples.seed_db "comment2" "post3" "user3"
                                  Examples.comment2)
      as [_ Hpost]; [discriminate | discriminate | discriminate | reflexivity | ].
    destruct (Hpost (PostRepository.scan Examples.post3) eq_refl eq_refl) as [Hdenied _].
    apply Hdenied; discriminate.
  - destruct (DeleteComment_rules 200 Examples.seed_db "comment2" "post1" "user1"
                                  Examples.comment2)
      as [Hother _]; [discriminate | discriminate | discriminate | reflexivity | ].
    apply Hother. discriminate.
Defined.

(** The comments a listing selects, after an insert under a fresh id and
    the soft delete of that id. *)
Lemma listing_restored (now now' : Z) (db : DB) (comment : Comment) (postID : string) :
  existsb (fun row => cID row =? cID comment) (comments db) = false ->
  filter (fun row => CommentRepository.live row && (cPostID row =? postID))
         (map (fun row =>
                 if CommentRepository.live row && (cID row =? cID comment)
                 then softDeleteComment row now' else row)
              (comments db ++ [comment]))
  = filter (fun row => CommentRepository.live row && (cPostID row =? postID))
           (comments db).
Proof.
  intros Hfresh. rewrite map_app, filter_app.
  rewrite (map_untouched (fun row => CommentRepository.live row && (cID row =? cID comment))).
  2:{ intros x Hx. rewrite (existsb_false_forall _ _ Hfresh x Hx). apply andb_false_r. }
  cbn [map filter]. rewrite String.eqb_refl, andb_true_r.
  destruct (CommentRepository.live comment) eqn:Hlive.
  - cbn. apply app_nil_r.
  - rewrite Hlive. cbn. apply app_nil_r.
Qed.

(** X7.  A comment added and then deleted by its author leaves every
    listing of [GetComments] and the comment counter of the post as they
    were before; the comment is not found any more. *)
Theorem AddComment_then_DeleteComment
        (now1 now2 : Z) (uuid : string) (db : DB)
        (postID userID authorName authorAvatar content : string) (post : Post) :
  postID <> "" ->
  userID <> "" ->
  content <> "" ->
  uuid <> "" ->
  PostRepository.FindByID db postID = Ok post ->
  existsb (fun row => cID row =? uuid) (comments db) = false ->
  exists comment db1 db2 post2,
    AddComment now1 uuid db postID userID authorName authorAvatar content
    = (Ok comment, db1)
    /\ DeleteComment now2 db1 (cID comment) postID userID = (None, db2)
    /\ CommentRepository.FindByID db2 (cID comment) = Err ErrRecordNotFound
    /\ (forall id page limit, GetComments db2 id page limit = GetComments db id page limit)
    /\ PostRepository.FindByID db2 postID = Ok post2
    /\ CommentsCount post2 = CommentsCount post
    /\ LikesCount post2 = LikesCount post
    /\ likes db2 = likes db.
Proof.
  intros Hpost Huser Hcontent Huuid Hfind Hfresh.
  apply String.eqb_neq in Hpost. apply String.eqb_neq in Huser.
  apply String.eqb_neq in Hcontent. apply String.eqb_neq in Huuid.
  set (comment := mkComment uuid postID userID authorName authorAvatar content
                            now1 now1 None).
  assert (Hinserted :
            insertedComment now1 uuid
              (mkComment "" postID userID authorName authorAvatar content now1 now1 None)
            = comment).
  { unfold insertedComment, autoTime, comment. cbn. now destruct (now1 =? 0)%Z. }
  set (post1 := set_UpdatedAt (set_CommentsCount post (CommentsCount post + 1)) now1).
  set (db1 :=
         set_posts (set_comments db (comments db ++ [comment]))
           (map (fun row =>
                   if PostRepository.live row && (ID row =? postID)
                   then set_UpdatedAt (set_CommentsCount row (CommentsCount row + 1)) now1
                   else row)
                (posts db))).
  assert (Hfind1 : PostRepository.FindByID db1 postID = Ok post1).
  { apply (FindByID_comments_recount (fun n => (n + 1)%Z) now1 db);
      [reflexivity | exact Hfind]. }
  assert (Hcomment1 : CommentRepository.FindByID db1 uuid = Ok comment).
  { apply (comment_appended db comment uuid Hfresh); reflexivity. }
  set (db2 :=
         set_posts
           (set_comments db1
              (map (fun row =>
                      if CommentRepository.live row && (cID row =? uuid)
                      then softDeleteComment row now2 else row)
                   (comments db1)))
           (map (fun row =>
                   if PostRepository.live row && (ID row =? postID)
                   then set_UpdatedAt (set_CommentsCount row (CommentsCount row - 1)) now2
                   else row)
                (posts db1))).
  exists comment, db1, db2,
         (set_UpdatedAt (set_CommentsCount post1 (CommentsCount post1 - 1)) now2).
  split.
  { unfold AddComment. rewrite Hpost, Huser, Hcontent, Hfind.
    unfold CommentRepository.Create. rewrite Hinserted.
    change (cID comment) with uuid. rewrite Hfresh. reflexivity. }
  change (cID comment) with uuid.
  split.
  { unfold DeleteComment. rewrite Huuid, Hpost, Huser, Hcomment1.
    change (cPostID comment) with postID. rewrite String.eqb_refl.
    cbn [negb]. rewrite Hfind1.
    change (cAuthorID comment) with userID. rewrite String.eqb_refl.
    reflexivity. }
  split.
  { apply (comment_deleted now2 db1). reflexivity. }
  split.
  { intros id page limit.
    unfold GetComments, CommentRepository.FindByPost.
    change (comments db2)
      with (map (fun row =>
                   if CommentRepository.live row && (cID row =? cID comment)
                   then softDeleteComment row now2 else row)
                (comments db ++ [comment])).
    now rewrite (listing_restored now1 now2 db comment id Hfresh). }
  split.
  { apply (FindByID_comments_recount (fun n => (n - 1)%Z) now2 db1);
      [reflexivity | exact Hfind1]. }
  split; [cbn; lia | ]. split; reflexivity.
Qed.

Lemma AddComment_then_DeleteComment_witness :
  exists comment db1 db2,
    AddComment 200 "comment5" Examples.seed_db "post3" "user3" "Bob" "" "hi"
    = (Ok comment, db1)
    /\ DeleteComment 300 db1 (cID comment) "post3" "user3" = (None, db2)
    /\ GetComments db2 "post3" 1 10 = GetComments Examples.seed_db "post3" 1 10.
Proof.
  destruct (AddComment_then_DeleteComment
              200 300 "comment5" Examples.seed_db "post3" "user3" "Bob" "" "hi"
              (PostRepository.scan Examples.post3))
    as (comment & db1 & db2 & post2 & Hadd & Hdelete & _ & Hlist & _);
    [discriminate | discriminate | discriminate | discriminate
     | reflexivity | reflexivity | ].
  exists comment, db1, db2. split; [exact Hadd | ]. split; [exact Hdelete | ].
  apply Hlist.
Defined.

End PostsComments.

(** * The post service: the like counter *)

Module PostsCounters.
Import Posts QueryFacts.

(** What [LikePost] does to the database: nothing, with an error; or one
    like more and the counter of the post moved up. *)
Lemma LikePost_effect (now : Z) (uuid : string) (db : DB) (postID userID : string) :
  let called := LikePost now uuid db postID userID in
  (snd called = db /\ exists n st, fst called = (n, Some st))
  \/ ((forall row, In row (likes db) -> (lID row =? uuid) = false)
      /\ likes (snd called) = (likes db ++ [mkLike uuid postID userID now None])%list
      /\ posts (snd called)
         = map (fun row =>
                  if PostRepository.live row && (ID row =? postID)
                  then set_UpdatedAt (set_LikesCount row (LikesCount row + 1)) now
                  else row)
               (posts db)
      /\ exists updated,
          PostRepository.FindByID (snd called) postID = Ok updated
          /\ fst called = (int32 (LikesCount updated), None)).
Proof.
  cbv zeta. unfold LikePost.
  destruct (postID =? ""); [left; split; [reflexivity | eexists; eexists; reflexivity] | ].
  destruct (userID =? ""); [left; split; [reflexivity | eexists; eexists; reflexivity] | ].
  destruct (PostRepository.FindByID db postID) as [post | e] eqn:Hfind;
    [ | left; split; [reflexivity | eexists; eexists; reflexivity]].
  destruct (LikeRepository.FindByPostAndUser db postID userID);
    [left; split; [reflexivity | eexists; eexists; reflexivity] | ].
  destruct (LikeRepository.Create uuid db (mkLike "" postID userID now None))
    as [db1 | e'] eqn:Hcreate;
    [ | left; split; [reflexivity | eexists; eexists; reflexivity]].
  right.
  apply PostsLikes.Create_spec in Hcreate. destruct Hcreate as (Hlikes & Hposts & _ & Hfresh).
  unfold PostRepository.IncrementLikesCount.
  assert (Hfind1 : PostRepository.FindByID db1 postID = Ok post).
  { rewrite <- Hfind. now apply PostsLikes.FindByID_posts. }
  rewrite (PostsLikes.FindByID_recount (fun n => (n + 1)%Z) now db1 postID post Hfind1).
  cbn [fst snd likes posts set_posts].
  split; [exact Hfresh | ]. split; [exact Hlikes | ]. split; [now rewrite Hposts | ].
  eexists. split; [ | reflexivity].
  exact (PostsLikes.FindByID_recount (fun n => (n + 1)%Z) now db1 postID post Hfind1).
Qed.

(** What [UnlikePost] does to the database: nothing, with an error; or the
    soft delete of the rows with the id of a live like of the post, and the
    counter of the post moved down. *)
Lemma UnlikePost_effect (now : Z) (db : DB) (postID userID : string) :
  let called := UnlikePost now db postID userID in
  (snd called = db /\ exists n st, fst called = (n, Some st))
  \/ (exists like,
         In like (likes db)
         /\ LikeRepository.live like = true
         /\ lPostID like = postID
         /\ likes (snd called)
            = map (fun row =>
                     if LikeRepository.live row && (lID row =? lID like)
                     then set_lDeletedAt row (Some now) else row)
                  (likes db)
         /\ posts (snd called)
            = map (fun row =>
                     if PostRepository.live row && (ID row =? postID)
                     then set_UpdatedAt (set_LikesCount row (LikesCount row - 1)) now
                     else row)
                  (posts db)
         /\ exists updated,
             PostRepository.FindByID (snd called) postID = Ok updated
             /\ fst called = (int32 (LikesCount updated), None)).
Proof.
  cbv zeta. unfold UnlikePost.
  destruct (postID =? ""); [left; split; [reflexivity | eexists; eexists; reflexivity] | ].
  destruct (userID =? ""); [left; split; [reflexivity | eexists; eexists; reflexivity] | ].
  destruct (PostRepository.FindByID db postID) as [post | e] eqn:Hfind;
    [ | left; split; [reflexivity | eexists; eexists; reflexivity]].
  destruct (LikeRepository.FindByPostAndUser db postID userID) as [like | e] eqn:Hlike;
    [ | left; split; [reflexivity | eexists; eexists; reflexivity]].
  right. exists like.
  apply first_filter_Ok in Hlike. destruct Hlike as [Hin Hlike].
  apply andb_true_iff in Hlike. destruct Hlike as [Hlive Hlike].
  apply andb_true_iff in Hlike. destruct Hlike as [Hlike _].
  apply String.eqb_eq in Hlike.
  unfold LikeRepository.Delete, PostRepository.DecrementLikesCount.
  set (db1 := set_likes db _).
  assert (Hfind1 : PostRepository.FindByID db1 postID = Ok post).
  { rewrite <- Hfind. now apply PostsLikes.FindByID_posts. }
  rewrite (PostsLikes.FindByID_recount (fun n => (n - 1)%Z) now db1 postID post Hfind1).
  cbn [fst snd likes posts set_posts].
  split; [exact Hin | ]. split; [exact Hlive | ]. split; [exact Hlike | ].
  split; [reflexivity | ]. split; [reflexivity | ].
  eexists. split; [ | reflexivity].
  exact (PostsLikes.FindByID_recount (fun n => (n - 1)%Z) now db1 postID post Hfind1).
Qed.

(** The live likes of a post after the soft delete of one like, found by
    its key. *)
Lemma liveLikes_deleted (now : Z) (postID : string) (like : Like) (rows : list Like) :
  NoDup (map lID rows) ->
  In like rows ->
  LikeRepository.live like = true ->
  Z.of_nat (length (filter (fun row => LikeRepository.live row && (lPostID row =? postID))
                           (map (fun row =>
                                   if LikeRepository.live row && (lID row =? lID like)
                                   then set_lDeletedAt row (Some now) else row)
                                rows)))
  = Z.sub (Z.of_nat (length (filter (fun row => LikeRepository.live row
                                                && (lPostID row =? postID)) rows)))
          (if lPostID like =? postID then 1%Z else 0%Z).
Proof.
  intros Hkeys Hin Hlive. induction rows as [ | a rows IH]; [destruct Hin | ].
  cbn [map] in Hkeys. apply NoDup_cons_iff in Hkeys. destruct Hkeys as [Hnew Hkeys].
  destruct Hin as [-> | Hin].
  - cbn [map filter]. rewrite Hlive, String.eqb_refl. cbn [andb].
    rewrite (map_untouched (fun row => LikeRepository.live row && (lID row =? lID like))).
    2:{ intros x Hx. destruct (String.eqb_spec (lID x) (lID like)) as [E | _];
        [ | apply andb_false_r].
        exfalso. apply Hnew. rewrite <- E. now apply in_map. }
    change (LikeRepository.live (set_lDeletedAt like (Some now))) with false.
    cbn [andb]. destruct (lPostID like =? postID); cbn [length]; lia.
  - assert (Hother : (lID a =? lID like) = false).
    { apply String.eqb_neq. intros E. apply Hnew. rewrite E. now apply in_map. }
    cbn [map filter]. rewrite Hother, andb_false_r.
    specialize (IH Hkeys Hin).
    destruct (LikeRepository.live a && (lPostID a =? postID)); cbn [length]; lia.
Qed.

(** X8.  The like counter is kept in step with the likes table.  Where
    like ids are distinct and every live post carries the number of its
    live likes, both hold again after any call of [LikePost] or
    [UnlikePost], and the count a successful call returns is the number of
    live likes the post then has. *)
Theorem likes_counted_preserved (now : Z) (uuid : string) (db : DB)
        (postID userID : string) :
  Props.like_ids_distinct db ->
  Props.likes_counted db ->
  (let called := LikePost now uuid db postID userID in
   Props.like_ids_distinct (snd called)
   /\ Props.likes_counted (snd called)
   /\ (forall n, fst called = (n, None) ->
                 n = int32 (Props.liveLikes (snd called) postID)))
  /\ (let called := UnlikePost now db postID userID in
      Props.like_ids_distinct (snd called)
      /\ Props.likes_counted (snd called)
      /\ (forall n, fst called = (n, None) ->
                    n = int32 (Props.liveLikes (snd called) postID))).
Proof.
  intros Hkeys Hcounted.
  assert (Hreturned :
            forall db' updated,
              Props.likes_counted db' ->
              PostRepository.FindByID db' postID = Ok updated ->
              LikesCount updated = Props.liveLikes db' postID).
  { intros db' updated Hinv Hfind.
    apply PostsUpdate.FindByID_inv in Hfind.
    destruct Hfind as (row & Hin & Hlive & Hid & ->).
    rewrite PostsLikes.LikesCount_scan, (Hinv row Hin Hlive). now rewrite Hid. }
  split; cbv zeta.
  - destruct (LikePost_effect now uuid db postID userID)
      as [[Hsame Herr] | (Hfresh & Hlikes & Hposts & updated & Hfind & Hfst)].
    { rewrite Hsame. split; [exact Hkeys | ]. split; [exact Hcounted | ].
      intros n Hn. destruct Herr as (m & st & Herr). congruence. }
    assert (Hinv : Props.likes_counted (snd (LikePost now uuid db postID userID))).
    { intros row' Hin' Hlive'. rewrite Hposts in Hin'.
      apply in_map_iff in Hin'. destruct Hin' as (row & <- & Hin).
      cbv beta in Hlive' |- *. unfold Props.liveLikes. rewrite Hlikes, filter_app, length_app.
      cbn [filter LikeRepository.live lDeletedAt isNone lPostID andb].
      destruct (PostRepository.live row && (ID row =? postID)) eqn:Hrow.
      - apply andb_true_iff in Hrow. destruct Hrow as [Hlive Hid].
        apply String.eqb_eq in Hid.
        cbn [LikesCount set_UpdatedAt set_LikesCount ID].
        rewrite (Hcounted row Hin Hlive), Hid, String.eqb_refl.
        unfold Props.liveLikes. cbn [length]. lia.
      - rewrite Hlive' in Hrow. cbn [andb] in Hrow.
        rewrite (Hcounted row Hin Hlive').
        rewrite String.eqb_sym, Hrow. unfold Props.liveLikes. cbn [length]. lia. }
    split.
    { unfold Props.like_ids_distinct. rewrite Hlikes, map_app.
      apply NoDup_app; [exact Hkeys | repeat constructor; intros [] | ].
      intros a Ha [<- | []]. apply in_map_iff in Ha. destruct Ha as (row & Ha & Hin).
      specialize (Hfresh row Hin). rewrite Ha, String.eqb_refl in Hfresh. discriminate. }
    split; [exact Hinv | ].
    intros n Hn. rewrite Hfst in Hn. injection Hn as <-.
    now rewrite (Hreturned _ _ Hinv Hfind).
  - destruct (UnlikePost_effect now db postID userID)
      as [[Hsame Herr]
         | (like & Hin & Hlive & Hpost & Hlikes & Hposts & updated & Hfind & Hfst)].
    { rewrite Hsame. split; [exact Hkeys | ]. split; [exact Hcounted | ].
      intros n Hn. destruct Herr as (m & st & Herr). congruence. }
    assert (Hinv : Props.likes_counted (snd (UnlikePost now db postID userID))).
    { intros row' Hin' Hlive'. rewrite Hposts in Hin'.
      apply in_map_iff in Hin'. destruct Hin' as (row & <- & Hrow).
      cbv beta in Hlive' |- *. unfold Props.liveLikes. rewrite Hlikes.
      rewrite (liveLikes_deleted now _ like (likes db) Hkeys Hin Hlive), Hpost.
      destruct (PostRepository.live row && (ID row =? postID)) eqn:Hsel.
      - apply andb_true_iff in Hsel. destruct Hsel as [Hl Hid].
        apply String.eqb_eq in Hid.
        cbn [LikesCount set_UpdatedAt set_LikesCount ID].
        rewrite (Hcounted row Hrow Hl), Hid, String.eqb_refl.
        unfold Props.liveLikes. lia.
      - rewrite Hlive' in Hsel. cbn [andb] in Hsel.
        rewrite (Hcounted row Hrow Hlive').
        rewrite String.eqb_sym, Hsel. unfold Props.liveLikes. lia. }
    split.
    { unfold Props.like_ids_distinct. rewrite Hlikes, map_map.
      erewrite map_ext; [exact Hkeys | ].
      intros row. cbv beta.
      now destruct (LikeRepository.live row && (lID row =? lID like)). }
    split; [exact Hinv | ].
    intros n Hn. rewrite Hfst in Hn. injection Hn as <-.
    now rewrite (Hreturned _ _ Hinv Hfind).
Qed.

Lemma likes_counted_preserved_witness :
  let called := UnlikePost 200 Examples.seed_db "post1" "user2" in
  Props.likes_counted (snd called)
  /\ fst called = (1%Z, None)
  /\ Props.liveLikes (snd called) "post1" = 1%Z.
Proof.
  intros called.
  destruct (likes_counted_preserved 200 "like5" Examples.seed_db "post1" "user2")
    as [_ (_ & Hinv & Hcount)].
  - unfold Props.like_ids_distinct. cbn.
    repeat constructor; cbn; intuition discriminate.
  - intros row Hin _. cbn in Hin.
    repeat (destruct Hin as [<- | Hin]; [reflexivity | ]). destruct Hin.
  - split; [exact Hinv | ]. split; [reflexivity | ]. reflexivity.
Defined.

End PostsCounters.

(** * The post service: what a listing returns *)

Module PostsListings.
Import Posts QueryFacts.

Lemma In_firstn {A : Type} (n : nat) (l : list A) (z : A) : In z (firstn n l) -> In z l.
Proof.
  revert l. induction n as [ | n IH]; intros [ | y l]; cbn; try tauto.
  intros [-> | Hz]; [now left | right; now apply IH].
Qed.

Lemma In_skipn {A : Type} (n : nat) (l : list A) (z : A) : In z (skipn n l) -> In z l.
Proof.
  revert l. induction n as [ | n IH]; intros [ | y l]; cbn; try tauto.
  intros Hz. right. now apply IH.
Qed.

Lemma In_paged {A : Type} (offset limit : Z) (l : list A) (z : A) :
  In z (paged offset limit l) -> In z l.
Proof. unfold paged. intros Hz. apply In_firstn in Hz. now apply In_skipn in Hz. Qed.

Lemma paged_length {A : Type} (offset limit : Z) (l : list A) :
  (length (paged offset limit l) <= Z.to_nat limit)%nat
  /\ (length (paged offset limit l) <= length l)%nat.
Proof.
  unfold paged. rewrite length_firstn, length_skipn. lia.
Qed.

Section Ordering.
Context {A : Type} (key : A -> Z).

Lemma In_insertDesc (x z : A) (l : list A) :
  In z (insertDesc key x l) <-> z = x \/ In z l.
Proof.
  induction l as [ | y l IH]; cbn.
  - intuition.
  - destruct (key y <=? key x)%Z; cbn; [intuition | ].
    rewrite IH. intuition.
Qed.

Lemma In_orderDesc (z : A) (l : list A) : In z (orderDesc key l) <-> In z l.
Proof.
  induction l as [ | y l IH]; cbn; [reflexivity | ].
  rewrite In_insertDesc, IH. intuition.
Qed.

Lemma insertDesc_newestFirst (x : A) (l : list A) :
  Props.newestFirst key l -> Props.newestFirst key (insertDesc key x l).
Proof.
  unfold Props.newestFirst. intros Hl. induction Hl as [ | y l Hl IH Hy]; cbn.
  - constructor; constructor.
  - destruct (Z.leb_spec (key y) (key x)) as [Hle | Hlt].
    + constructor; [now constructor | ].
      constructor; [exact Hle | ].
      rewrite Forall_forall in *. intros z Hz. specialize (Hy z Hz). cbv beta in *. lia.
    + constructor; [exact IH | ].
      rewrite Forall_forall in *. intros z Hz. apply In_insertDesc in Hz.
      destruct Hz as [-> | Hz]; [lia | now apply Hy].
Qed.

Lemma orderDesc_newestFirst (l : list A) : Props.newestFirst key (orderDesc key l).
Proof.
  induction l as [ | y l IH]; cbn; [constructor | ].
  now apply insertDesc_newestFirst.
Qed.

Lemma insertDesc_length (x : A) (l : list A) :
  length (insertDesc key x l) = S (length l).
Proof.
  induction l as [ | y l IH]; cbn; [reflexivity | ].
  destruct (key y <=? key x)%Z; cbn; [reflexivity | now rewrite IH].
Qed.

Lemma orderDesc_length (l : list A) : length (orderDesc key l) = length l.
Proof.
  induction l as [ | y l IH]; [reflexivity | ].
  change (orderDesc key (y :: l)) with (insertDesc key y (orderDesc key l)).
  now rewrite insertDesc_length, IH.
Qed.

Lemma firstn_newestFirst (n : nat) (l : list A) :
  Props.newestFirst key l -> Props.newestFirst key (firstn n l).
Proof.
  unfold Props.newestFirst. intros Hl. revert n.
  induction Hl as [ | y l Hl IH Hy]; intros [ | n]; cbn; try constructor.
  - apply IH.
  - rewrite Forall_forall in *. intros z Hz. apply Hy. now apply In_firstn in Hz.
Qed.

Lemma skipn_newestFirst (n : nat) (l : list A) :
  Props.newestFirst key l -> Props.newestFirst key (skipn n l).
Proof.
  unfold Props.newestFirst. intros Hl. revert n.
  induction Hl as [ | y l Hl IH Hy]; intros [ | n]; cbn; try constructor; auto.
Qed.

Lemma filter_newestFirst (f : A -> bool) (l : list A) :
  Props.newestFirst key l -> Props.newestFirst key (filter f l).
Proof.
  unfold Props.newestFirst. intros Hl.
  induction Hl as [ | y l Hl IH Hy]; cbn; [constructor | ].
  destruct (f y); [ | exact IH].
  constructor; [exact IH | ].
  rewrite Forall_forall in *. intros z Hz. apply Hy. now apply filter_In in Hz.
Qed.

Lemma paged_newestFirst (offset limit : Z) (l : list A) :
  Props.newestFirst key l -> Props.newestFirst key (paged offset limit l).
Proof. intros Hl. unfold paged. now apply firstn_newestFirst, skipn_newestFirst. Qed.

End Ordering.

Lemma map_newestFirst {A : Type} (key : A -> Z) (g : A -> A) (l : list A) :
  (forall x, key (g x) = key x) ->
  Props.newestFirst key l -> Props.newestFirst key (map g l).
Proof.
  unfold Props.newestFirst. intros Hg Hl.
  induction Hl as [ | y l Hl IH Hy]; cbn; constructor; [exact IH | ].
  rewrite Forall_forall in *. intros z Hz. apply in_map_iff in Hz.
  destruct Hz as (x & <- & Hx). rewrite !Hg. now apply Hy.
Qed.

Lemma CreatedAt_scan (row : Post) : CreatedAt (PostRepository.scan row) = CreatedAt row.
Proof. unfold PostRepository.scan. now destruct (Media row). Qed.

(** X9.  Every call of [GetPosts] returns a page: at most the effective
    limit of posts, never more than 100 nor more than the count it
    reports, newest first; each of them is a live row of the table that
    the branch selects, and is visible to the caller. *)
Theorem GetPosts_sound (db : DB) (userID authorID groupID visibility : string)
        (page limit : Z) (friendIDs : option (list string)) :
  exists (found : list Post) (count totalPages : Z),
    GetPosts db userID authorID groupID visibility page limit friendIDs
    = Ok (found, count, totalPages)
    /\ (Z.of_nat (length found) <= Spec.effectiveLimit limit <= 100)%Z
    /\ (Z.of_nat (length found) <= count)%Z
    /\ Props.newestFirst CreatedAt found
    /\ (forall post,
           In post found ->
           isPostVisibleToUser post userID friendIDs = true
           /\ exists row,
               In row (posts db)
               /\ DeletedAt row = None
               /\ Spec.selected userID authorID groupID visibility friendIDs row = true
               /\ post = PostRepository.scan row).
Proof.
  pose proof (PostsPagination.GetPosts_unfold db userID authorID groupID visibility
                                              page limit friendIDs) as Hcall.
  cbv zeta in Hcall. rewrite PostsPagination.page_clamp in Hcall.
  rewrite !PostsPagination.limit_clamp in Hcall.
  pose proof (PostsPagination.effectiveLimit_range limit) as Hlimit.
  set (l := Spec.effectiveLimit limit) in *.
  set (matching :=
         filter (fun row => PostRepository.live row
                            && Spec.selected userID authorID groupID visibility friendIDs row)
                (posts db)) in *.
  set (rows := paged (int64 ((Spec.effectivePage page - 1) * l)) l
                     (orderDesc CreatedAt matching)) in *.
  eexists _, _, _. split; [exact Hcall | ].
  pose proof (filter_length_le (fun post => isPostVisibleToUser post userID friendIDs)
                               (map PostRepository.scan rows)) as Hvisible.
  rewrite length_map in Hvisible.
  destruct (paged_length (int64 ((Spec.effectivePage page - 1) * l)) l
                         (orderDesc CreatedAt matching)) as [Hpage Htotal].
  fold rows in Hpage, Htotal.
  pose proof (orderDesc_length CreatedAt matching) as Hsame.
  split; [lia | ]. split; [lia | ].
  split.
  { apply filter_newestFirst, map_newestFirst; [exact CreatedAt_scan | ].
    apply paged_newestFirst, orderDesc_newestFirst. }
  intros post Hpost. apply filter_In in Hpost. destruct Hpost as [Hpost Hvis].
  split; [exact Hvis | ].
  apply in_map_iff in Hpost. destruct Hpost as (row & <- & Hrow).
  exists row. unfold rows in Hrow.
  apply In_paged in Hrow. apply (proj1 (In_orderDesc CreatedAt row matching)) in Hrow.
  apply filter_In in Hrow. destruct Hrow as [Hin Hrow].
  apply andb_true_iff in Hrow. destruct Hrow as [Hlive Hselected].
  repeat split; try assumption.
  unfold PostRepository.live in Hlive. now destruct (DeletedAt row).
Qed.

(** X10.  [GetComments] with a post id returns a page of the live comments
    of that post: at most the effective limit of them, never more than
    100 nor more than the count it reports, newest first. *)
Theorem GetComments_sound (db : DB) (postID : string) (page limit : Z) :
  postID <> "" ->
  exists (found : list Comment) (count totalPages : Z),
    GetComments db postID page limit = Ok (found, count, totalPages)
    /\ (Z.of_nat (length found) <= Spec.effectiveLimit limit <= 100)%Z
    /\ (Z.of_nat (length found) <= count)%Z
    /\ Props.newestFirst cCreatedAt found
    /\ (forall comment,
           In comment found ->
           In comment (comments db)
           /\ cDeletedAt comment = None
           /\ cPostID comment = postID).
Proof.
  intros Hpost.
  pose proof (PostsPagination.GetComments_unfold db postID page limit Hpost) as Hcall.
  cbv zeta in Hcall. rewrite PostsPagination.page_clamp in Hcall.
  rewrite !PostsPagination.limit_clamp in Hcall.
  pose proof (PostsPagination.effectiveLimit_range limit) as Hlimit.
  set (l := Spec.effectiveLimit limit) in *.
  set (matching :=
         filter (fun row => CommentRepository.live row && (cPostID row =? postID))
                (comments db)) in *.
  eexists _, _, _. split; [exact Hcall | ].
  destruct (paged_length (int64 ((Spec.effectivePage page - 1) * l)) l
                         (orderDesc cCreatedAt matching)) as [Hpage Htotal].
  pose proof (orderDesc_length cCreatedAt matching) as Hsame.
  split; [lia | ]. split; [lia | ].
  split; [apply paged_newestFirst, orderDesc_newestFirst | ].
  intros comment Hin.
  apply In_paged in Hin. apply (proj1 (In_orderDesc cCreatedAt comment matching)) in Hin.
  apply filter_In in Hin. destruct Hin as [Hin Hrow].
  apply andb_true_iff in Hrow. destruct Hrow as [Hlive Hid].
  apply String.eqb_eq in Hid. repeat split; try assumption.
  unfold CommentRepository.live in Hlive. now destruct (cDeletedAt comment).
Qed.

Lemma GetComments_sound_witness :
  exists (found : list Comment) (count totalPages : Z),
    GetComments Examples.seed_db "post3" 1 500 = Ok (found, count, totalPages)
    /\ (Z.of_nat (length found) <= 10)%Z
    /\ Props.newestFirst cCreatedAt found.
Proof.
  destruct (GetComments_sound Examples.seed_db "post3" 1 500)
    as (found & count & totalPages & Hcall & [Hlength _] & _ & Hsorted & _);
    [discriminate | ].
  exists found, count, totalPages. repeat split; assumption.
Defined.

End PostsListings.

(** * The friend service: requests and removal *)

Module FriendsRelations.
Import Friends QueryFacts.

Lemma forall_existsb_false {A : Type} (Q : A -> bool) (l : list A) :
  (forall x, In x l -> Q x = false) -> existsb Q l = false.
Proof.
  intros HQ. induction l as [ | a l IH]; cbn; [reflexivity | ].
  rewrite (HQ a) by now left. apply IH. intros x Hx. apply HQ. now right.
Qed.

Lemma counted_zero {A : Type} (l : list A) :
  (Z.of_nat (length l) >? 0)%Z = false -> l = [].
Proof. destruct l; [reflexivity | discriminate]. Qed.

Lemma counted_some {A : Type} (l : list A) :
  (Z.of_nat (length l) >? 0)%Z = true -> l <> [].
Proof. destruct l; [discriminate | discriminate]. Qed.

(** The pending requests between two users, as [CheckFriendship] selects
    them. *)
Lemma pending_symmetric (db : DB) (a b : string) :
  filter (fun row =>
            FriendRepository.liveRequest row
            && ((((frSenderID row =? b) && (frReceiverID row =? a))
                 || ((frSenderID row =? a) && (frReceiverID row =? b)))
                && (frStatus row =? "pending")))
         (friend_requests db)
  = filter (fun row =>
              FriendRepository.liveRequest row
              && ((((frSenderID row =? a) && (frReceiverID row =? b))
                   || ((frSenderID row =? b) && (frReceiverID row =? a)))
                  && (frStatus row =? "pending")))
           (friend_requests db).
Proof. apply filter_ext. intros row. now rewrite orb_comm. Qed.

(** The repository's [CheckFriendship] answers "friends" exactly when a
    live friendship row leads from the first user to the second; its other
    answers are "pending", "blocked" and "none". *)
Lemma CheckFriendship_status (db : DB) (a b : string) :
  exists status id,
    FriendRepository.CheckFriendship db a b = Ok (status, id)
    /\ ((status = "friends"
         /\ filter (FriendRepository.friendship a b) (friendships db) <> [])
        \/ (filter (FriendRepository.friendship a b) (friendships db) = []
            /\ (status = "pending" \/ status = "blocked" \/ status = "none"))).
Proof.
  unfold FriendRepository.CheckFriendship.
  change (fun row => FriendRepository.liveFriendship row
                     && ((fsUserID row =? a) && (fsFriendID row =? b)))
    with (FriendRepository.friendship a b).
  destruct (Z.of_nat (length (filter (FriendRepository.friendship a b) (friendships db)))
            >? 0)%Z eqn:Hcount.
  { eexists _, _. split; [reflexivity | ]. left. split; [reflexivity | ].
    now apply counted_some. }
  apply counted_zero in Hcount.
  destruct (first _) as [request | e] eqn:Hfirst.
  { eexists _, _. split; [reflexivity | ]. right. split; [exact Hcount | now left]. }
  rewrite (first_Err_not_found _ _ Hfirst).
  destruct (_ >? 0)%Z;
    eexists _, _; (split; [reflexivity | ]); right; split; auto.
Qed.

(** What a successful [SendFriendRequest] has checked and stored. *)
Lemma SendFriendRequest_Ok (now : Z) (uuid : string) (db db' : DB) (a b : string)
      (request : FriendRequest) :
  SendFriendRequest now uuid db a b = (Ok request, db') ->
  a <> b
  /\ request = mkFriendRequest uuid a b "pending" now now None
  /\ db' = set_friend_requests db (friend_requests db ++ [request])
  /\ FriendRepository.CheckFriendship db a b = Ok ("none", "")
  /\ existsb (fun row => frID row =? uuid) (friend_requests db) = false.
Proof.
  unfold SendFriendRequest.
  destruct (String.eqb_spec a b) as [ | Hab]; [discriminate | ].
  destruct (CheckFriendship_status db a b) as (status & id & Hcheck & Hstatus).
  rewrite Hcheck.
  assert (Hcases : status = "friends" \/ status = "pending" \/ status = "blocked"
                   \/ status = "none") by tauto.
  assert (Hid : status = "none" -> id = "").
  { intros ->. revert Hcheck. unfold FriendRepository.CheckFriendship.
    destruct (_ >? 0)%Z; [discriminate | ].
    destruct (first _) as [r | [ | | msg]]; try discriminate.
    destruct (_ >? 0)%Z; [discriminate | ]. now intros [= <-]. }
  destruct Hcases as [-> | [-> | [-> | ->]]]; cbn; try discriminate.
  rewrite (Hid eq_refl) in Hcheck.
  unfold FriendRepository.CreateFriendRequest, autoTime. cbn.
  destruct (existsb (fun row => frID row =? uuid) (friend_requests db)) eqn:Hfresh;
    [discriminate | ].
  intros [= <- <-]. repeat split; auto. now rewrite (Hid eq_refl).
Qed.

(** [SendFriendRequest] refuses a pair of users whose status is "pending". *)
Lemma SendFriendRequest_refused (now : Z) (uuid : string) (db : DB) (a b : string)
      (status id : string) :
  a <> b ->
  FriendRepository.CheckFriendship db a b = Ok (status, id) ->
  status = "friends" \/ status = "pending" \/ status = "blocked" ->
  exists msg, SendFriendRequest now uuid db a b = (Err (ErrorsNew msg), db).
Proof.
  intros Hab Hcheck Hstatus. unfold SendFriendRequest.
  apply String.eqb_neq in Hab. rewrite Hab, Hcheck.
  destruct Hstatus as [-> | [-> | ->]]; cbn; eexists; reflexivity.
Qed.

(** X11.  A friend request that was sent is pending: [CheckFriendship]
    reports it under its id from either side, as long as the two are not
    friends, and a second request between the two users, in either
    direction, is refused and stores nothing. *)
Theorem SendFriendRequest_then_pending (now : Z) (uuid : string) (db db' : DB)
        (a b : string) (request : FriendRequest) :
  SendFriendRequest now uuid db a b = (Ok request, db') ->
  request = mkFriendRequest uuid a b "pending" now now None
  /\ FriendRepository.GetFriendRequestByID db' uuid = Ok request
  /\ CheckFriendship db' a b = Ok ("pending", uuid)
  /\ (filter (FriendRepository.friendship b a) (friendships db) = [] ->
      CheckFriendship db' b a = Ok ("pending", uuid))
  /\ (forall now' uuid',
         SendFriendRequest now' uuid' db' a b
         = (Err (ErrorsNew "friend request already sent"), db'))
  /\ (forall now' uuid',
         exists msg, SendFriendRequest now' uuid' db' b a = (Err (ErrorsNew msg), db'))
  /\ friendships db' = friendships db
  /\ blocked_users db' = blocked_users db.
Proof.
  intros Hcall.
  destruct (SendFriendRequest_Ok _ _ _ _ _ _ _ Hcall) as (Hab & Hrequest & Hdb & Hnone & Hfresh).
  assert (Hba : b <> a) by congruence.
  assert (Hfriends : filter (FriendRepository.friendship a b) (friendships db) = []).
  { destruct (CheckFriendship_status db a b) as (status & id & Hcheck & Hstatus).
    rewrite Hnone in Hcheck. injection Hcheck as <- <-.
    destruct Hstatus as [[H _] | [H _]]; [discriminate | exact H]. }
  assert (Hpending :
            filter (fun row =>
                      FriendRepository.liveRequest row
                      && ((((frSenderID row =? a) && (frReceiverID row =? b))
                           || ((frSenderID row =? b) && (frReceiverID row =? a)))
                          && (frStatus row =? "pending")))
                   (friend_requests db) = []).
  { revert Hnone. unfold FriendRepository.CheckFriendship.
    destruct (_ >? 0)%Z; [discriminate | ].
    destruct (first _) as [r | e] eqn:Hfirst; [discriminate | ].
    intros _. exact (first_Err_nil _ _ Hfirst). }
  assert (Hrepo : FriendRepository.CheckFriendship db' a b = Ok ("pending", uuid)).
  { unfold FriendRepository.CheckFriendship. rewrite Hdb.
    cbn [friendships friend_requests set_friend_requests].
    change (fun row => FriendRepository.liveFriendship row
                       && ((fsUserID row =? a) && (fsFriendID row =? b)))
      with (FriendRepository.friendship a b).
    rewrite Hfriends, filter_app, Hpending. cbn [length Z.of_nat Z.gtb Z.compare app].
    rewrite Hrequest. cbn. rewrite !String.eqb_refl. reflexivity. }
  assert (Hrepo' : filter (FriendRepository.friendship b a) (friendships db) = [] ->
                   FriendRepository.CheckFriendship db' b a = Ok ("pending", uuid)).
  { intros Hnot. unfold FriendRepository.CheckFriendship. rewrite Hdb.
    cbn [friendships friend_requests set_friend_requests].
    change (fun row => FriendRepository.liveFriendship row
                       && ((fsUserID row =? b) && (fsFriendID row =? a)))
      with (FriendRepository.friendship b a).
    rewrite Hnot, filter_app.
    pose proof (pending_symmetric db a b) as Hsym. rewrite Hpending in Hsym.
    rewrite Hsym. cbn [length Z.of_nat Z.gtb Z.compare app].
    rewrite Hrequest. cbn. rewrite !String.eqb_refl.
    rewrite orb_true_r. reflexivity. }
  split; [exact Hrequest | ].
  split.
  { rewrite Hdb. unfold FriendRepository.GetFriendRequestByID.
    cbn [friend_requests set_friend_requests].
    rewrite filter_app, (filter_none _ (friend_requests db)).
    - rewrite Hrequest. cbn. now rewrite String.eqb_refl.
    - intros x Hx. rewrite (existsb_false_forall _ _ Hfresh x Hx). apply andb_false_r. }
  split.
  { unfold CheckFriendship. apply String.eqb_neq in Hab. now rewrite Hab, Hrepo. }
  split.
  { intros Hnot. unfold CheckFriendship. apply String.eqb_neq in Hba.
    now rewrite Hba, (Hrepo' Hnot). }
  split.
  { intros now' uuid'. unfold SendFriendRequest. apply String.eqb_neq in Hab.
    now rewrite Hab, Hrepo. }
  split.
  { intros now' uuid'.
    destruct (CheckFriendship_status db' b a) as (status & id & Hcheck & Hstatus).
    destruct Hstatus as [[-> _] | [Hnot _]].
    - apply (SendFriendRequest_refused now' uuid' db' b a "friends" id Hba Hcheck).
      now left.
    - rewrite Hdb in Hnot. cbn [friendships set_friend_requests] in Hnot.
      apply (SendFriendRequest_refused now' uuid' db' b a "pending" uuid Hba (Hrepo' Hnot)).
      right. now left. }
  rewrite Hdb. split; reflexivity.
Qed.

Lemma SendFriendRequest_then_pending_witness :
  let sent := SendFriendRequest 200 "fr-007" Examples.friends_seed "user-002" "user-003" in
  CheckFriendship (snd sent) "user-003" "user-002" = Ok ("pending", "fr-007")
  /\ SendFriendRequest 300 "fr-008" (snd sent) "user-002" "user-003"
     = (Err (ErrorsNew "friend request already sent"), snd sent).
Proof.
  intros sent.
  destruct (SendFriendRequest_then_pending
              200 "fr-007" Examples.friends_seed (snd sent) "user-002" "user-003"
              (mkFriendRequest "fr-007" "user-002" "user-003" "pending" 200 200 None))
    as (_ & _ & _ & Hback & Hagain & _).
  - vm_compute. reflexivity.
  - split; [apply Hback; reflexivity | apply Hagain].
Defined.

End FriendsRelations.

(** * The friend service: removing a friend *)

Module FriendsRemoval.
Import Friends QueryFacts.

(** One statement of [DeleteFriendship] that went through. *)
Lemma deleteDirection_Ok (now : Z) (db db' : DB) (u f : string) :
  FriendRepository.deleteDirection now db u f = Ok db' ->
  friendships db'
  = map (fun row =>
           if FriendRepository.friendship u f row
           then softDeleteFriendship row now else row)
        (friendships db)
  /\ friend_requests db' = friend_requests db
  /\ blocked_users db' = blocked_users db.
Proof.
  unfold FriendRepository.deleteDirection.
  destruct (_ || _); [discriminate | ]. intros [= <-]. repeat split.
Qed.

(** After the statement no live row leads from [u] to [f]. *)
Lemma deleted_direction (now : Z) (rows : list Friendship) (u f : string) :
  filter (FriendRepository.friendship u f)
         (map (fun row =>
                 if FriendRepository.friendship u f row
                 then softDeleteFriendship row now else row)
              rows)
  = [].
Proof. now apply filter_map_killed. Qed.

(** The rows of another pair are as they were. *)
Lemma other_direction (now : Z) (rows : list Friendship) (u f x y : string) :
  (x, y) <> (u, f) ->
  filter (FriendRepository.friendship x y)
         (map (fun row =>
                 if FriendRepository.friendship u f row
                 then softDeleteFriendship row now else row)
              rows)
  = filter (FriendRepository.friendship x y) rows.
Proof.
  intros Hpair. apply filter_map_other. intros row Hrow.
  unfold FriendRepository.friendship in *.
  apply andb_true_iff in Hrow. destruct Hrow as [_ Hrow].
  apply andb_true_iff in Hrow. destruct Hrow as [Hu Hf].
  apply String.eqb_eq in Hu. apply String.eqb_eq in Hf.
  split; [ | reflexivity].
  rewrite Hu, Hf.
  destruct (String.eqb_spec u x), (String.eqb_spec f y);
    try (now rewrite ?andb_false_r); congruence.
Qed.

(** What a successful [DeleteFriendship] leaves. *)
Lemma DeleteFriendship_None (now : Z) (db db' : DB) (u f : string) :
  FriendRepository.DeleteFriendship now db u f = (None, db') ->
  filter (FriendRepository.friendship u f) (friendships db') = []
  /\ filter (FriendRepository.friendship f u) (friendships db') = []
  /\ (forall x y, (x, y) <> (u, f) -> (x, y) <> (f, u) ->
                  filter (FriendRepository.friendship x y) (friendships db')
                  = filter (FriendRepository.friendship x y) (friendships db))
  /\ friend_requests db' = friend_requests db
  /\ blocked_users db' = blocked_users db.
Proof.
  unfold FriendRepository.DeleteFriendship.
  destruct (FriendRepository.deleteDirection now db u f) as [db1 | e] eqn:H1;
    [ | discriminate].
  destruct (FriendRepository.deleteDirection now db1 f u) as [db2 | e] eqn:H2;
    [ | discriminate].
  intros [= <-].
  apply deleteDirection_Ok in H1. destruct H1 as (F1 & R1 & B1).
  apply deleteDirection_Ok in H2. destruct H2 as (F2 & R2 & B2).
  split; [ | split; [ | split; [ | split; congruence]]].
  - rewrite F2.
    destruct (String.eqb_spec u f) as [-> | Huf]; [apply deleted_direction | ].
    rewrite other_direction by congruence.
    rewrite F1. apply deleted_direction.
  - rewrite F2. apply deleted_direction.
  - intros x y Hxy Hyx. rewrite F2, other_direction by exact Hyx.
    rewrite F1. now apply other_direction.
Qed.

(** [RemoveFriend] goes through when one live row leads from the caller to
    the friend, at most one leads back, and no row between the two carries
    the deletion stamp of the call. *)
Lemma RemoveFriend_goes_through (now : Z) (db : DB) (u f : string) :
  u <> f ->
  length (filter (FriendRepository.friendship u f) (friendships db)) = 1%nat ->
  (length (filter (FriendRepository.friendship f u) (friendships db)) <= 1)%nat ->
  (forall row, In row (friendships db) ->
               Props.between u f (fsUserID row) (fsFriendID row) = true ->
               fsDeletedAt row <> Some now) ->
  exists db', RemoveFriend now db u f = (None, db').
Proof.
  intros Huf Hone Hback Hstamps.
  assert (Hunstamped :
            forall x y rows,
              (forall row, In row rows ->
                           (fsUserID row =? x) && (fsFriendID row =? y) = true ->
                           fsDeletedAt row <> Some now) ->
              existsb (fun row =>
                         (fsUserID row =? x) && (fsFriendID row =? y)
                         && match fsDeletedAt row with
                            | Some t => (t =? now)%Z
                            | None => false
                            end) rows = false).
  { intros x y rows Hrows. apply FriendsRelations.forall_existsb_false.
    intros row Hin. specialize (Hrows row Hin).
    destruct ((fsUserID row =? x) && (fsFriendID row =? y)); [ | reflexivity].
    specialize (Hrows eq_refl). cbn [andb].
    destruct (fsDeletedAt row) as [t | ]; [ | reflexivity].
    apply Z.eqb_neq. congruence. }
  unfold RemoveFriend.
  destruct (FriendsRelations.CheckFriendship_status db u f)
    as (status & id & Hcheck & Hstatus).
  rewrite Hcheck.
  destruct Hstatus as [[-> _] | [Hnone _]]; [ | rewrite Hnone in Hone; discriminate].
  cbn [String.eqb Ascii.eqb Bool.eqb negb].
  unfold FriendRepository.DeleteFriendship, FriendRepository.deleteDirection.
  rewrite Hone.
  rewrite (Hunstamped u f (friendships db)).
  2:{ intros row Hin Hpair. apply (Hstamps row Hin).
      unfold Props.between. now rewrite Hpair. }
  cbn [Nat.ltb Nat.leb orb andb friendships set_friendships].
  rewrite other_direction by congruence.
  rewrite (Hunstamped f u).
  2:{ intros row' Hin' Hpair. apply in_map_iff in Hin'.
      destruct Hin' as (row & <- & Hin).
      apply andb_true_iff in Hpair. destruct Hpair as [Hx Hy].
      destruct (FriendRepository.friendship u f row) eqn:Hrow.
      - exfalso. unfold FriendRepository.friendship in Hrow.
        apply andb_true_iff in Hrow. destruct Hrow as [_ Hrow].
        apply andb_true_iff in Hrow. destruct Hrow as [Hrow _].
        cbn in Hx. apply String.eqb_eq in Hx. apply String.eqb_eq in Hrow. congruence.
      - apply (Hstamps row Hin). unfold Props.between. rewrite Hx, Hy. apply orb_true_r. }
  rewrite andb_false_r, orb_false_r.
  destruct (filter (FriendRepository.friendship f u) (friendships db)) as [ | r [ | r' rs]];
    cbn in Hback |- *; try lia; eexists; reflexivity.
Qed.

(** X12.  [RemoveFriend] answers "not friends" and changes nothing unless
    a live friendship row leads from the caller to the friend.  When it
    succeeds, no live row is left between the two in either direction,
    the friendships of every other pair, the requests and the blocks are
    as they were, and a second call answers "not friends".  It succeeds
    when one live row leads to the friend, at most one leads back, and the
    clock has passed every deletion stamp of the table. *)
Theorem RemoveFriend_rules (now : Z) (db : DB) (u f : string) :
  (filter (FriendRepository.friendship u f) (friendships db) = [] ->
   RemoveFriend now db u f = (Some (ErrorsNew "not friends"), db))
  /\ (forall db',
         RemoveFriend now db u f = (None, db') ->
         filter (FriendRepository.friendship u f) (friendships db) <> []
         /\ filter (FriendRepository.friendship u f) (friendships db') = []
         /\ filter (FriendRepository.friendship f u) (friendships db') = []
         /\ (forall x y, (x, y) <> (u, f) -> (x, y) <> (f, u) ->
                         filter (FriendRepository.friendship x y) (friendships db')
                         = filter (FriendRepository.friendship x y) (friendships db))
         /\ friend_requests db' = friend_requests db
         /\ blocked_users db' = blocked_users db
         /\ (forall now',
                RemoveFriend now' db' u f = (Some (ErrorsNew "not friends"), db')))
  /\ (u <> f ->
      length (filter (FriendRepository.friendship u f) (friendships db)) = 1%nat ->
      (length (filter (FriendRepository.friendship f u) (friendships db)) <= 1)%nat ->
      Props.later fsDeletedAt now (friendships db) ->
      exists db', RemoveFriend now db u f = (None, db')).
Proof.
  assert (Hnot : forall now0 db0,
             filter (FriendRepository.friendship u f) (friendships db0) = [] ->
             RemoveFriend now0 db0 u f = (Some (ErrorsNew "not friends"), db0)).
  { intros now0 db0 Hnone. unfold RemoveFriend.
    destruct (FriendsRelations.CheckFriendship_status db0 u f)
      as (status & id & Hcheck & Hstatus).
    rewrite Hcheck.
    destruct Hstatus as [[_ H] | [_ [-> | [-> | ->]]]]; [contradiction | | | ]; reflexivity. }
  split; [apply Hnot | ].
  split.
  2:{ intros Huf Hone Hback Hlater.
      apply (RemoveFriend_goes_through now db u f Huf Hone Hback).
      intros row Hin _ Hstamp. specialize (Hlater row now Hin Hstamp). lia. }
  intros db' Hcall.
  assert (Hwas : filter (FriendRepository.friendship u f) (friendships db) <> []).
  { intros Hnone. rewrite (Hnot now db Hnone) in Hcall. discriminate. }
  assert (Hdelete : FriendRepository.DeleteFriendship now db u f = (None, db')).
  { revert Hcall. unfold RemoveFriend.
    destruct (FriendsRelations.CheckFriendship_status db u f)
      as (status & id & Hcheck & Hstatus).
    rewrite Hcheck.
    destruct Hstatus as [[-> _] | [H _]]; [ | contradiction].
    cbn. tauto. }
  destruct (DeleteFriendship_None _ _ _ _ _ Hdelete) as (H1 & H2 & H3 & H4 & H5).
  repeat split; try assumption.
  intros now'. now apply Hnot.
Qed.

Lemma RemoveFriend_rules_witness :
  let removed := RemoveFriend 200 Examples.friends_seed "user-001" "user-004" in
  fst removed = None
  /\ CheckFriendship (snd removed) "user-004" "user-001" = Ok ("none", "")
  /\ RemoveFriend 300 (snd removed) "user-001" "user-004"
     = (Some (ErrorsNew "not friends"), snd removed)
  /\ RemoveFriend 300 Examples.friends_seed "user-001" "user-002"
     = (Some (ErrorsNew "not friends"), Examples.friends_seed).
Proof.
  intros removed.
  destruct (RemoveFriend_rules 200 Examples.friends_seed "user-001" "user-004")
    as (_ & Hok & Hgoes).
  destruct Hgoes as [db' Hcall];
    [discriminate | reflexivity | cbn; lia
     | intros row t Hin; cbn in Hin;
       repeat (destruct Hin as [<- | Hin]; [discriminate | ]); destruct Hin | ].
  destruct (Hok (snd removed)) as (_ & _ & _ & _ & _ & _ & Hagain);
    [vm_compute; reflexivity | ].
  split; [unfold removed; now rewrite Hcall | ].
  split; [reflexivity | ]. split; [apply Hagain | ].
  apply (proj1 (RemoveFriend_rules 300 Examples.friends_seed "user-001" "user-002")).
  reflexivity.
Defined.

End FriendsRemoval.

(** * The friend service: from strangers to friends and back *)

Module FriendsCycle.
Import Friends QueryFacts.

Lemma between_false (a b x y : string) :
  Props.between a b x y = false ->
  (x =? a) && (y =? b) = false /\ (x =? b) && (y =? a) = false.
Proof. unfold Props.between. apply orb_false_iff. Qed.

Lemma strangers_sym (db : DB) (a b : string) :
  Props.strangers db a b -> Props.strangers db b a.
Proof.
  unfold Props.strangers, Props.between. intros (HR & HF & HB).
  repeat split; intros row Hin; rewrite orb_comm; auto.
Qed.

(** The answer of the repository's [CheckFriendship] when no live
    friendship leads from [a] to [b], no live request between them is
    pending and no live block relates them. *)
Lemma CheckFriendship_none (db : DB) (a b : string) :
  filter (FriendRepository.friendship a b) (friendships db) = [] ->
  (forall row, In row (friend_requests db) ->
               FriendRepository.liveRequest row = true ->
               frStatus row = "pending" ->
               Props.between a b (frSenderID row) (frReceiverID row) = false) ->
  (forall row, In row (blocked_users db) ->
               FriendRepository.liveBlocked row = true ->
               Props.between a b (buUserID row) (buBlockedUserID row) = false) ->
  FriendRepository.CheckFriendship db a b = Ok ("none", "").
Proof.
  intros HF HR HB. unfold FriendRepository.CheckFriendship.
  change (fun row => FriendRepository.liveFriendship row
                     && ((fsUserID row =? a) && (fsFriendID row =? b)))
    with (FriendRepository.friendship a b).
  rewrite HF. cbn [length Z.of_nat Z.gtb Z.compare].
  rewrite filter_none.
  2:{ intros row Hin. specialize (HR row Hin).
      destruct (FriendRepository.liveRequest row); [ | reflexivity].
      destruct (String.eqb_spec (frStatus row) "pending") as [Hp | _];
        [ | now rewrite andb_false_r].
      specialize (HR eq_refl Hp). unfold Props.between in HR. now rewrite HR. }
  cbn [first]. rewrite filter_none; [reflexivity | ].
  intros row Hin. specialize (HB row Hin).
  destruct (FriendRepository.liveBlocked row); [ | reflexivity].
  specialize (HB eq_refl). unfold Props.between in HB. now rewrite HB.
Qed.

(** [SendFriendRequest] between two distinct users whose status is "none",
    under a fresh request id. *)
Lemma SendFriendRequest_none (now : Z) (uuid : string) (db : DB) (a b : string) :
  a <> b ->
  FriendRepository.CheckFriendship db a b = Ok ("none", "") ->
  existsb (fun row => frID row =? uuid) (friend_requests db) = false ->
  SendFriendRequest now uuid db a b
  = (Ok (mkFriendRequest uuid a b "pending" now now None),
     set_friend_requests db
       (friend_requests db ++ [mkFriendRequest uuid a b "pending" now now None])).
Proof.
  intros Hab Hcheck Hfresh. apply String.eqb_neq in Hab.
  unfold SendFriendRequest. rewrite Hab, Hcheck. cbn.
  unfold FriendRepository.CreateFriendRequest, autoTime. cbn.
  now rewrite Hfresh.
Qed.

(** [AcceptFriendRequest] by the receiver of a pending request, under two
    fresh friendship ids. *)
Lemma AcceptFriendRequest_Ok (now : Z) (uuid1 uuid2 : string) (db : DB)
      (requestID : string) (request : FriendRequest) :
  FriendRepository.GetFriendRequestByID db requestID = Ok request ->
  frStatus request = "pending" ->
  existsb (fun row => fsID row =? uuid1) (friendships db) = false ->
  existsb (fun row => fsID row =? uuid2) (friendships db) = false ->
  uuid1 <> uuid2 ->
  AcceptFriendRequest now uuid1 uuid2 db requestID (frReceiverID request)
  = (Ok (set_frUpdatedAt (set_frStatus request "accepted") now),
     mkDB (map (fun row =>
                  if FriendRepository.liveRequest row && (frID row =? requestID)
                  then set_frUpdatedAt (set_frStatus row "accepted") now
                  else row)
               (friend_requests db))
          (friendships db
           ++ [mkFriendship uuid1 (frSenderID request) (frReceiverID request) now now None;
               mkFriendship uuid2 (frReceiverID request) (frSenderID request) now now None])
          (blocked_users db)).
Proof.
  intros Hget Hstatus Hfresh1 Hfresh2 Hids.
  unfold AcceptFriendRequest.
  rewrite Hget, Hstatus, !String.eqb_refl. cbn [negb].
  unfold FriendRepository.UpdateFriendRequestStatus, FriendRepository.CreateFriendship.
  cbn [fsID fsUserID fsFriendID fsCreatedAt fsUpdatedAt fsDeletedAt].
  rewrite !String.eqb_refl. unfold autoTime. cbn [Z.eqb].
  cbn [friendships set_friend_requests set_friendships].
  rewrite Hfresh1. cbn [friendships set_friend_requests set_friendships].
  rewrite existsb_app, Hfresh2. cbn [existsb fsID orb].
  apply String.eqb_neq in Hids. rewrite Hids.
  unfold set_friendships, set_friend_requests.
  cbn [friend_requests friendships blocked_users]. now rewrite <- app_assoc.
Qed.

(** X13.  Two strangers can go through the whole cycle.  A request from
    [a] to [b] is stored; [b] accepts it and both are friends of each
    other; [b] removes the friend and the status of the pair is "none"
    again in both directions; and a new request, now from [b] to [a], is
    stored by the service. *)
Theorem friendship_cycle (t1 t2 t3 t4 : Z) (r1 r2 f1 f2 : string) (db : DB)
        (a b : string) :
  a <> b ->
  Props.strangers db a b ->
  existsb (fun row => frID row =? r1) (friend_requests db) = false ->
  existsb (fun row => frID row =? r2) (friend_requests db) = false ->
  r1 <> r2 ->
  existsb (fun row => fsID row =? f1) (friendships db) = false ->
  existsb (fun row => fsID row =? f2) (friendships db) = false ->
  f1 <> f2 ->
  exists request db1 accepted db2 db3 request' db4,
    SendFriendRequest t1 r1 db a b = (Ok request, db1)
    /\ AcceptFriendRequest t2 f1 f2 db1 (frID request) b = (Ok accepted, db2)
    /\ CheckFriendship db2 a b = Ok ("friends", "")
    /\ CheckFriendship db2 b a = Ok ("friends", "")
    /\ RemoveFriend t3 db2 b a = (None, db3)
    /\ CheckFriendship db3 a b = Ok ("none", "")
    /\ CheckFriendship db3 b a = Ok ("none", "")
    /\ SendFriendRequest t4 r2 db3 b a = (Ok request', db4).
Proof.
  intros Hab Hstrangers Hr1 Hr2 Hrs Hf1 Hf2 Hfs.
  assert (Hba : b <> a) by congruence.
  pose proof (strangers_sym db a b Hstrangers) as Hstrangers'.
  destruct Hstrangers as (HR & HF & HB).
  destruct Hstrangers' as (HR' & HF' & HB').
  assert (Hnone : forall x y,
             (forall row, In row (friendships db) ->
                          Props.between x y (fsUserID row) (fsFriendID row) = false) ->
             filter (FriendRepository.friendship x y) (friendships db) = []).
  { intros x y Hxy. apply filter_none. intros row Hin.
    destruct (between_false _ _ _ _ (Hxy row Hin)) as [H _].
    unfold FriendRepository.friendship. rewrite H. apply andb_false_r. }
  (* the request *)
  set (request := mkFriendRequest r1 a b "pending" t1 t1 None).
  set (db1 := set_friend_requests db (friend_requests db ++ [request])).
  assert (Hsend : SendFriendRequest t1 r1 db a b = (Ok request, db1)).
  { apply SendFriendRequest_none; [exact Hab | | exact Hr1].
    apply CheckFriendship_none; [now apply Hnone | auto | auto]. }
  (* the acceptance *)
  assert (Hget : FriendRepository.GetFriendRequestByID db1 r1 = Ok request).
  { unfold FriendRepository.GetFriendRequestByID, db1.
    cbn [friend_requests set_friend_requests].
    rewrite filter_app, (filter_none _ (friend_requests db)).
    - cbn. now rewrite String.eqb_refl.
    - intros x Hx. rewrite (existsb_false_forall _ _ Hr1 x Hx). apply andb_false_r. }
  set (accepted := set_frUpdatedAt (set_frStatus request "accepted") t2).
  set (fa := mkFriendship f1 a b t2 t2 None).
  set (fb := mkFriendship f2 b a t2 t2 None).
  assert (Hrequests :
            map (fun row =>
                   if FriendRepository.liveRequest row && (frID row =? r1)
                   then set_frUpdatedAt (set_frStatus row "accepted") t2
                   else row)
                (friend_requests db1)
            = (friend_requests db ++ [accepted])%list).
  { unfold db1. cbn [friend_requests set_friend_requests].
    rewrite map_app, (map_untouched (fun row => FriendRepository.liveRequest row
                                                && (frID row =? r1))).
    - cbn. now rewrite String.eqb_refl.
    - intros x Hx. rewrite (existsb_false_forall _ _ Hr1 x Hx). apply andb_false_r. }
  set (db2 := mkDB (friend_requests db ++ [accepted]) (friendships db ++ [fa; fb])
                   (blocked_users db)).
  assert (Haccept : AcceptFriendRequest t2 f1 f2 db1 r1 b = (Ok accepted, db2)).
  { pose proof (AcceptFriendRequest_Ok t2 f1 f2 db1 r1 request Hget eq_refl Hf1 Hf2 Hfs)
      as Hcall.
    rewrite Hrequests in Hcall. exact Hcall. }
  (* friends *)
  assert (Hfriends : CheckFriendship db2 a b = Ok ("friends", "")
                     /\ CheckFriendship db2 b a = Ok ("friends", "")).
  { split.
    - apply (FriendsLifecycle.CheckFriendship_friends db2 a b fa Hab); try reflexivity.
      cbn. apply in_or_app. right. now left.
    - apply (FriendsLifecycle.CheckFriendship_friends db2 b a fb Hba); try reflexivity.
      cbn. apply in_or_app. right. right. now left. }
  (* the removal *)
  assert (Hlive : filter (FriendRepository.friendship b a) (friendships db2) = [fb]
                  /\ filter (FriendRepository.friendship a b) (friendships db2) = [fa]).
  { unfold db2. cbn [friendships]. rewrite !filter_app, !Hnone by assumption.
    apply String.eqb_neq in Hab. apply String.eqb_neq in Hba.
    cbn. rewrite !String.eqb_refl, Hab, Hba. cbn. now rewrite ?andb_false_r. }
  destruct Hlive as [Hlive_ba Hlive_ab].
  destruct (FriendsRemoval.RemoveFriend_goes_through t3 db2 b a Hba) as [db3 Hremove].
  { now rewrite Hlive_ba. }
  { now rewrite Hlive_ab. }
  { intros row Hin Hpair. unfold db2 in Hin. cbn [friendships] in Hin.
    apply in_app_or in Hin. destruct Hin as [Hin | [<- | [<- | []]]]; try discriminate.
    rewrite (HF' row Hin) in Hpair. discriminate. }
  (* strangers again *)
  assert (Hdelete : FriendRepository.DeleteFriendship t3 db2 b a = (None, db3)).
  { revert Hremove. unfold RemoveFriend.
    destruct (FriendsRelations.CheckFriendship_status db2 b a)
      as (status & id & Hcheck & Hstatus).
    rewrite Hcheck.
    destruct Hstatus as [[-> _] | [H _]]; [cbn; tauto | ].
    rewrite H in Hlive_ba. discriminate. }
  destruct (FriendsRemoval.DeleteFriendship_None _ _ _ _ _ Hdelete)
    as (Hgone_ba & Hgone_ab & _ & Hsame_requests & Hsame_blocks).
  assert (Hpending : forall row,
             In row (friend_requests db3) ->
             FriendRepository.liveRequest row = true ->
             frStatus row = "pending" ->
             Props.between a b (frSenderID row) (frReceiverID row) = false).
  { intros row Hin _ Hp. rewrite Hsame_requests in Hin. unfold db2 in Hin.
    cbn [friend_requests] in Hin. apply in_app_or in Hin.
    destruct Hin as [Hin | [<- | []]]; [now apply HR | discriminate]. }
  assert (Hpending' : forall row,
             In row (friend_requests db3) ->
             FriendRepository.liveRequest row = true ->
             frStatus row = "pending" ->
             Props.between b a (frSenderID row) (frReceiverID row) = false).
  { intros row Hin Hl Hp. specialize (Hpending row Hin Hl Hp).
    revert Hpending. unfold Props.between. now rewrite orb_comm. }
  assert (Hstatus_ab : FriendRepository.CheckFriendship db3 a b = Ok ("none", "")).
  { apply CheckFriendship_none; [exact Hgone_ab | exact Hpending | ].
    intros row Hin _. rewrite Hsame_blocks in Hin. now apply HB. }
  assert (Hstatus_ba : FriendRepository.CheckFriendship db3 b a = Ok ("none", "")).
  { apply CheckFriendship_none; [exact Hgone_ba | exact Hpending' | ].
    intros row Hin _. rewrite Hsame_blocks in Hin. now apply HB'. }
  exists request, db1, accepted, db2, db3.
  eexists _, _.
  split; [exact Hsend | ]. split; [exact Haccept | ].
  split; [apply Hfriends | ]. split; [apply Hfriends | ].
  split; [exact Hremove | ].
  split.
  { unfold CheckFriendship. apply String.eqb_neq in Hab. now rewrite Hab, Hstatus_ab. }
  split.
  { unfold CheckFriendship. apply String.eqb_neq in Hba. now rewrite Hba, Hstatus_ba. }
  apply SendFriendRequest_none; [exact Hba | exact Hstatus_ba | ].
  rewrite Hsame_requests. unfold db2. cbn [friend_requests].
  rewrite existsb_app, Hr2. cbn. apply String.eqb_neq in Hrs. now rewrite Hrs.
Qed.

Lemma friendship_cycle_witness :
  exists request db1 accepted db2 db3 request' db4,
    SendFriendRequest 200 "fr-007" Examples.friends_seed "user-002" "user-003"
    = (Ok request, db1)
    /\ AcceptFriendRequest 300 "f-005" "f-006" db1 (frID request) "user-003"
       = (Ok accepted, db2)
    /\ RemoveFriend 400 db2 "user-003" "user-002" = (None, db3)
    /\ CheckFriendship db3 "user-002" "user-003" = Ok ("none", "")
    /\ SendFriendRequest 500 "fr-008" db3 "user-003" "user-002" = (Ok request', db4).
Proof.
  destruct (friendship_cycle 200 300 400 500 "fr-007" "fr-008" "f-005" "f-006"
                             Examples.friends_seed "user-002" "user-003")
    as (request & db1 & accepted & db2 & db3 & request' & db4
        & H1 & H2 & _ & _ & H3 & H4 & _ & H5);
    try discriminate; try reflexivity.
  - repeat split; intros row Hin; cbn in Hin;
      repeat (destruct Hin as [<- | Hin]; [reflexivity | ]); destruct Hin.
  - exists request, db1, accepted, db2, db3, request', db4. repeat split; assumption.
Defined.

End FriendsCycle.

(** * The friend service: blocking *)

Module FriendsBlocks.
Import Friends QueryFacts.

Lemma IsUserBlocked_none (db : DB) (u b : string) :
  filter (FriendRepository.blocking u b) (blocked_users db) = [] ->
  FriendRepository.IsUserBlocked db u b = Ok false.
Proof. intros H. unfold FriendRepository.IsUserBlocked. now rewrite H. Qed.

Lemma IsUserBlocked_some (db : DB) (u b : string) :
  filter (FriendRepository.blocking u b) (blocked_users db) <> [] ->
  FriendRepository.IsUserBlocked db u b = Ok true.
Proof.
  intros H. unfold FriendRepository.IsUserBlocked.
  now destruct (filter (FriendRepository.blocking u b) (blocked_users db)).
Qed.

Lemma IsUserBlocked_cases (db : DB) (u b : string) :
  (FriendRepository.IsUserBlocked db u b = Ok false
   /\ filter (FriendRepository.blocking u b) (blocked_users db) = [])
  \/ (FriendRepository.IsUserBlocked db u b = Ok true
      /\ filter (FriendRepository.blocking u b) (blocked_users db) <> []).
Proof.
  destruct (filter (FriendRepository.blocking u b) (blocked_users db)) eqn:H.
  - left. split; [now apply IsUserBlocked_none | reflexivity].
  - right. split; [apply IsUserBlocked_some; now rewrite H | discriminate].
Qed.

(** With a live block between two users, in either direction, the
    repository's [CheckFriendship] never answers "none". *)
Lemma CheckFriendship_blocked_pair (db : DB) (x y : string) (row : BlockedUser) :
  In row (blocked_users db) ->
  FriendRepository.liveBlocked row = true ->
  Props.between x y (buUserID row) (buBlockedUserID row) = true ->
  exists status id,
    FriendRepository.CheckFriendship db x y = Ok (status, id)
    /\ (status = "friends" \/ status = "pending" \/ status = "blocked").
Proof.
  intros Hin Hlive Hpair. unfold FriendRepository.CheckFriendship.
  destruct (_ >? 0)%Z; [eexists _, _; split; [reflexivity | now left] | ].
  destruct (first _) as [request | e] eqn:Hfirst;
    [eexists _, _; split; [reflexivity | right; now left] | ].
  rewrite (first_Err_not_found _ _ Hfirst).
  rewrite (FriendsLifecycle.counted_positive _ _ row Hin).
  - eexists _, _; split; [reflexivity | right; now right].
  - rewrite Hlive. exact Hpair.
Qed.

(** What a successful [BlockUser] has checked and written: the block row
    is appended after the friendships were removed, if the two were
    friends. *)
Lemma BlockUser_None (now : Z) (uuid : string) (db db' : DB) (u b : string) :
  BlockUser now uuid db u b = (None, db') ->
  u <> b
  /\ filter (FriendRepository.blocking u b) (blocked_users db) = []
  /\ existsb (fun row => buID row =? uuid) (blocked_users db) = false
  /\ blocked_users db' = (blocked_users db ++ [mkBlockedUser uuid u b now now None])%list
  /\ friend_requests db' = friend_requests db
  /\ filter (FriendRepository.friendship u b) (friendships db') = []
  /\ ((filter (FriendRepository.friendship u b) (friendships db) = []
       /\ friendships db' = friendships db)
      \/ (filter (FriendRepository.friendship u b) (friendships db) <> []
          /\ exists db1, FriendRepository.DeleteFriendship now db u b = (None, db1)
                         /\ friendships db' = friendships db1)).
Proof.
  unfold BlockUser.
  destruct (String.eqb_spec u b) as [ | Hub]; [discriminate | ].
  destruct (IsUserBlocked_cases db u b) as [[-> Hnot] | [-> _]]; [ | discriminate].
  assert (Hblock : forall db0 db0',
             (let blockedUser := mkBlockedUser "" u b 0 0 None in
              match FriendRepository.BlockUser now uuid db0 blockedUser with
              | Ok db1 => (None, db1)
              | Err err => (Some err, db0)
              end) = (None, db0') ->
             existsb (fun row => buID row =? uuid) (blocked_users db0) = false
             /\ db0' = set_blocked_users db0
                         (blocked_users db0 ++ [mkBlockedUser uuid u b now now None])).
  { intros db0 db0'. cbv zeta. unfold FriendRepository.BlockUser, autoTime. cbn.
    destruct (existsb (fun row => buID row =? uuid) (blocked_users db0));
      [discriminate | ].
    intros [= <-]. now split. }
  destruct (FriendsRelations.CheckFriendship_status db u b)
    as (status & id & Hcheck & Hstatus).
  rewrite Hcheck.
  destruct Hstatus as [[-> Hfriends] | [Hfriends Hstatus]].
  - cbn [String.eqb Ascii.eqb Bool.eqb].
    destruct (FriendRepository.DeleteFriendship now db u b) as [[err | ] db1] eqn:Hdelete;
      [discriminate | ].
    intros Hcall. apply Hblock in Hcall. destruct Hcall as [Hfresh ->].
    destruct (FriendsRemoval.DeleteFriendship_None _ _ _ _ _ Hdelete)
      as (Hgone & _ & _ & Hrequests & Hblocks).
    cbn [blocked_users friend_requests friendships set_blocked_users].
    rewrite Hblocks in *. repeat split; auto.
    right. split; [exact Hfriends | ]. now exists db1.
  - assert (Hother : (status =? "friends") = false).
    { destruct Hstatus as [-> | [-> | ->]]; reflexivity. }
    rewrite Hother.
    intros Hcall. apply Hblock in Hcall. destruct Hcall as [Hfresh ->].
    cbn [blocked_users friend_requests friendships set_blocked_users].
    repeat split; auto.
Qed.

(** X14.  [BlockUser] refuses the caller themselves and a user who is
    already blocked, and then changes nothing.  After a successful call
    the user is blocked, no live friendship leads from the caller to the
    blocked user, the friend requests are untouched, a second block is
    refused, and [SendFriendRequest] refuses the pair in both directions.
    The call succeeds under a fresh id whenever the two are distinct, not
    blocked yet and no live friendship leads from the caller to the other. *)
Theorem BlockUser_rules (now : Z) (uuid : string) (db : DB) (u b : string) :
  (u = b -> BlockUser now uuid db u b = (Some (ErrorsNew "cannot block yourself"), db))
  /\ (u <> b ->
      filter (FriendRepository.blocking u b) (blocked_users db) <> [] ->
      BlockUser now uuid db u b = (Some (ErrorsNew "user is already blocked"), db))
  /\ (forall db',
         BlockUser now uuid db u b = (None, db') ->
         FriendRepository.IsUserBlocked db' u b = Ok true
         /\ filter (FriendRepository.friendship u b) (friendships db') = []
         /\ friend_requests db' = friend_requests db
         /\ (forall now' uuid',
                BlockUser now' uuid' db' u b
                = (Some (ErrorsNew "user is already blocked"), db'))
         /\ (forall now' uuid',
                exists msg,
                  SendFriendRequest now' uuid' db' u b = (Err (ErrorsNew msg), db'))
         /\ (forall now' uuid',
                exists msg,
                  SendFriendRequest now' uuid' db' b u = (Err (ErrorsNew msg), db')))
  /\ (u <> b ->
      filter (FriendRepository.blocking u b) (blocked_users db) = [] ->
      filter (FriendRepository.friendship u b) (friendships db) = [] ->
      existsb (fun row => buID row =? uuid) (blocked_users db) = false ->
      exists db', BlockUser now uuid db u b = (None, db')).
Proof.
  assert (Halready : forall now0 uuid0 db0,
             u <> b ->
             filter (FriendRepository.blocking u b) (blocked_users db0) <> [] ->
             BlockUser now0 uuid0 db0 u b
             = (Some (ErrorsNew "user is already blocked"), db0)).
  { intros now0 uuid0 db0 Hub Hblocked. apply String.eqb_neq in Hub.
    unfold BlockUser. now rewrite Hub, (IsUserBlocked_some db0 u b Hblocked). }
  split; [ | split; [apply Halready | split]].
  - intros ->. unfold BlockUser. now rewrite String.eqb_refl.
  - intros db' Hcall.
    destruct (BlockUser_None _ _ _ _ _ _ Hcall)
      as (Hub & _ & _ & Hblocks & Hrequests & Hgone & _).
    assert (Hin : In (mkBlockedUser uuid u b now now None) (blocked_users db')).
    { rewrite Hblocks. apply in_or_app. right. now left. }
    assert (Hblocked : filter (FriendRepository.blocking u b) (blocked_users db') <> []).
    { intros Hnone.
      pose proof (filter_nil_forall _ _ Hnone _ Hin) as Hrow.
      cbn in Hrow. rewrite !String.eqb_refl in Hrow. discriminate. }
    assert (Hrefused : forall x y now' uuid',
               x <> y ->
               Props.between x y u b = true ->
               exists msg,
                 SendFriendRequest now' uuid' db' x y = (Err (ErrorsNew msg), db')).
    { intros x y now' uuid' Hxy Hpair.
      destruct (CheckFriendship_blocked_pair db' x y _ Hin eq_refl Hpair)
        as (status & id & Hcheck & Hstatus).
      exact (FriendsRelations.SendFriendRequest_refused now' uuid' db' x y status id
                                                        Hxy Hcheck Hstatus). }
    split; [now apply IsUserBlocked_some | ].
    split; [exact Hgone | ]. split; [exact Hrequests | ].
    split; [intros now' uuid'; now apply Halready | ].
    split; intros now' uuid'.
    + apply Hrefused; [exact Hub | ]. unfold Props.between. now rewrite !String.eqb_refl.
    + apply Hrefused; [congruence | ]. unfold Props.between.
      rewrite !String.eqb_refl. apply orb_true_r.
  - intros Hub Hnot Hfriends Hfresh. apply String.eqb_neq in Hub.
    unfold BlockUser. rewrite Hub, (IsUserBlocked_none db u b Hnot).
    destruct (FriendsRelations.CheckFriendship_status db u b)
      as (status & id & Hcheck & Hstatus).
    rewrite Hcheck.
    destruct Hstatus as [[_ H] | [_ Hstatus]]; [contradiction | ].
    assert (Hother : (status =? "friends") = false).
    { destruct Hstatus as [-> | [-> | ->]]; reflexivity. }
    rewrite Hother. unfold FriendRepository.BlockUser. cbn.
    rewrite Hfresh. eexists. reflexivity.
Qed.

Lemma BlockUser_rules_witness :
  let blocked := BlockUser 200 "bu-003" Examples.friends_seed "user-002" "user-003" in
  fst blocked = None
  /\ FriendRepository.IsUserBlocked (snd blocked) "user-002" "user-003" = Ok true
  /\ (exists msg,
         SendFriendRequest 300 "fr-007" (snd blocked) "user-003" "user-002"
         = (Err (ErrorsNew msg), snd blocked))
  /\ BlockUser 300 "bu-004" Examples.friends_seed "user-001" "user-008"
     = (Some (ErrorsNew "user is already blocked"), Examples.friends_seed)
  /\ BlockUser 300 "bu-004" Examples.friends_seed "user-001" "user-001"
     = (Some (ErrorsNew "cannot block yourself"), Examples.friends_seed).
Proof.
  intros blocked.
  destruct (BlockUser_rules 200 "bu-003" Examples.friends_seed "user-002" "user-003")
    as (_ & _ & Hok & Hgoes).
  destruct Hgoes as [db' Hcall]; [discriminate | reflexivity | reflexivity | reflexivity | ].
  destruct (Hok (snd blocked)) as (Hblocked & _ & _ & _ & _ & Hback);
    [unfold blocked; now rewrite Hcall | ].
  split; [unfold blocked; now rewrite Hcall | ].
  split; [exact Hblocked | ]. split; [apply Hback | ].
  split.
  - apply (proj1 (proj2 (BlockUser_rules 300 "bu-004" Examples.friends_seed
                                         "user-001" "user-008")));
      [discriminate | cbn; discriminate].
  - apply (proj1 (BlockUser_rules 300 "bu-004" Examples.friends_seed
                                  "user-001" "user-001")).
    reflexivity.
Defined.

(** One live block row, soft-deleted. *)
Lemma unblocked (now : Z) (rows : list BlockedUser) (u b : string) :
  filter (FriendRepository.blocking u b)
         (map (fun row =>
                 if FriendRepository.blocking u b row
                 then softDeleteBlocked row now else row)
              rows)
  = [].
Proof. now apply filter_map_killed. Qed.

Lemma other_blocks (now : Z) (rows : list BlockedUser) (u b x y : string) :
  (x, y) <> (u, b) ->
  filter (FriendRepository.blocking x y)
         (map (fun row =>
                 if FriendRepository.blocking u b row
                 then softDeleteBlocked row now else row)
              rows)
  = filter (FriendRepository.blocking x y) rows.
Proof.
  intros Hpair. apply filter_map_other. intros row Hrow.
  unfold FriendRepository.blocking in *.
  apply andb_true_iff in Hrow. destruct Hrow as [_ Hrow].
  apply andb_true_iff in Hrow. destruct Hrow as [Hu Hb].
  apply String.eqb_eq in Hu. apply String.eqb_eq in Hb.
  split; [ | reflexivity].
  rewrite Hu, Hb.
  destruct (String.eqb_spec u x), (String.eqb_spec b y);
    try (now rewrite ?andb_false_r); congruence.
Qed.

(** What a successful [UnblockUser] has written. *)
Lemma UnblockUser_None (now : Z) (db db' : DB) (u b : string) :
  UnblockUser now db u b = (None, db') ->
  db' = set_blocked_users db
          (map (fun row =>
                  if FriendRepository.blocking u b row
                  then softDeleteBlocked row now else row)
               (blocked_users db)).
Proof.
  unfold UnblockUser.
  destruct (IsUserBlocked_cases db u b) as [[-> _] | [-> _]]; [discriminate | ].
  cbn [negb]. unfold FriendRepository.UnblockUser.
  destruct (_ || _); [discriminate | ]. now intros [= <-].
Qed.

(** [UnblockUser] goes through on one live block row when no row of the
    pair carries the deletion stamp of the call. *)
Lemma UnblockUser_goes_through (now : Z) (db : DB) (u b : string) :
  length (filter (FriendRepository.blocking u b) (blocked_users db)) = 1%nat ->
  (forall row, In row (blocked_users db) ->
               buUserID row = u -> buBlockedUserID row = b ->
               buDeletedAt row <> Some now) ->
  exists db', UnblockUser now db u b = (None, db').
Proof.
  intros Hone Hstamps. unfold UnblockUser.
  rewrite IsUserBlocked_some.
  2:{ intros Hnone. rewrite Hnone in Hone. discriminate. }
  cbn [negb]. unfold FriendRepository.UnblockUser. rewrite Hone.
  rewrite FriendsRelations.forall_existsb_false.
  - cbn. eexists. reflexivity.
  - intros row Hin. specialize (Hstamps row Hin).
    destruct (String.eqb_spec (buUserID row) u) as [Hu | _]; [ | reflexivity].
    destruct (String.eqb_spec (buBlockedUserID row) b) as [Hb | _]; [ | reflexivity].
    specialize (Hstamps Hu Hb). cbn [andb].
    destruct (buDeletedAt row) as [t | ]; [ | reflexivity].
    apply Z.eqb_neq. congruence.
Qed.

(** X15.  [UnblockUser] answers "user is not blocked" and changes nothing
    without a live block of the caller against the user.  After a
    successful call that block is gone, the blocks of every other pair,
    the friendships and the requests are as they were, and a second call
    answers "user is not blocked".  The call succeeds on one live block
    when the clock has passed every deletion stamp of the table. *)
Theorem UnblockUser_rules (now : Z) (db : DB) (u b : string) :
  (filter (FriendRepository.blocking u b) (blocked_users db) = [] ->
   UnblockUser now db u b = (Some (ErrorsNew "user is not blocked"), db))
  /\ (forall db',
         UnblockUser now db u b = (None, db') ->
         FriendRepository.IsUserBlocked db' u b = Ok false
         /\ (forall x y, (x, y) <> (u, b) ->
                         FriendRepository.IsUserBlocked db' x y
                         = FriendRepository.IsUserBlocked db x y)
         /\ friendships db' = friendships db
         /\ friend_requests db' = friend_requests db
         /\ (forall now',
                UnblockUser now' db' u b = (Some (ErrorsNew "user is not blocked"), db')))
  /\ (length (filter (FriendRepository.blocking u b) (blocked_users db)) = 1%nat ->
      Props.later buDeletedAt now (blocked_users db) ->
      exists db', UnblockUser now db u b = (None, db')).
Proof.
  assert (Hnot : forall now0 db0,
             filter (FriendRepository.blocking u b) (blocked_users db0) = [] ->
             UnblockUser now0 db0 u b = (Some (ErrorsNew "user is not blocked"), db0)).
  { intros now0 db0 Hnone. unfold UnblockUser.
    now rewrite (IsUserBlocked_none db0 u b Hnone). }
  split; [apply Hnot | split].
  - intros db' Hcall. apply UnblockUser_None in Hcall. subst db'.
    cbn [blocked_users friendships friend_requests set_blocked_users].
    split; [apply IsUserBlocked_none; apply unblocked | ].
    split.
    { intros x y Hxy. unfold FriendRepository.IsUserBlocked.
      cbn [blocked_users set_blocked_users]. now rewrite other_blocks. }
    split; [reflexivity | ]. split; [reflexivity | ].
    intros now'. apply Hnot. apply unblocked.
  - intros Hone Hlater. apply UnblockUser_goes_through; [exact Hone | ].
    intros row Hin _ _ Hstamp. specialize (Hlater row now Hin Hstamp). lia.
Qed.

Lemma UnblockUser_rules_witness :
  let unblocked := UnblockUser 200 Examples.friends_seed "user-001" "user-008" in
  fst unblocked = None
  /\ FriendRepository.IsUserBlocked (snd unblocked) "user-001" "user-008" = Ok false
  /\ UnblockUser 300 Examples.friends_seed "user-001" "user-009"
     = (Some (ErrorsNew "user is not blocked"), Examples.friends_seed).
Proof.
  intros unblocked.
  destruct (UnblockUser_rules 200 Examples.friends_seed "user-001" "user-008")
    as (_ & Hok & Hgoes).
  destruct Hgoes as [db' Hcall];
    [reflexivity
     | intros row t Hin; cbn in Hin;
       repeat (destruct Hin as [<- | Hin]; [discriminate | ]); destruct Hin | ].
  destruct (Hok (snd unblocked)) as (Hfree & _);
    [unfold unblocked; now rewrite Hcall | ].
  split; [unfold unblocked; now rewrite Hcall | ]. split; [exact Hfree | ].
  apply (proj1 (UnblockUser_rules 300 Examples.friends_seed "user-001" "user-009")).
  reflexivity.
Defined.

(** X16.  A block followed by its removal restores who blocks whom, for
    every pair of users; a friendship the block ended is not restored. *)
Theorem BlockUser_then_UnblockUser (now1 now2 : Z) (uuid : string) (db db1 : DB)
        (u b : string) :
  BlockUser now1 uuid db u b = (None, db1) ->
  Props.later buDeletedAt now2 (blocked_users db) ->
  exists db2,
    UnblockUser now2 db1 u b = (None, db2)
    /\ (forall x y,
           FriendRepository.IsUserBlocked db2 x y = FriendRepository.IsUserBlocked db x y)
    /\ friendships db2 = friendships db1
    /\ filter (FriendRepository.friendship u b) (friendships db2) = []
    /\ friend_requests db2 = friend_requests db.
Proof.
  intros Hblock Hlater.
  destruct (BlockUser_None _ _ _ _ _ _ Hblock)
    as (Hub & Hnot & Hfresh & Hblocks & Hrequests & Hgone & _).
  destruct (UnblockUser_goes_through now2 db1 u b) as [db2 Hcall].
  { rewrite Hblocks, filter_app, Hnot. cbn. now rewrite !String.eqb_refl. }
  { intros row Hin _ _. rewrite Hblocks in Hin. apply in_app_or in Hin.
    destruct Hin as [Hin | [<- | []]]; [ | discriminate].
    intros Hstamp. specialize (Hlater row now2 Hin Hstamp). lia. }
  exists db2. split; [exact Hcall | ].
  apply UnblockUser_None in Hcall. subst db2.
  cbn [blocked_users friendships friend_requests set_blocked_users].
  split; [ | split; [reflexivity | split; [exact Hgone | exact Hrequests]]].
  intros x y. unfold FriendRepository.IsUserBlocked.
  cbn [blocked_users set_blocked_users].
  destruct (String.eqb_spec x u) as [-> | Hx].
  - destruct (String.eqb_spec y b) as [-> | Hy].
    + now rewrite unblocked, Hnot.
    + rewrite other_blocks by congruence.
      rewrite Hblocks, filter_app. cbn. apply String.eqb_neq in Hy.
      rewrite (String.eqb_sym b y), Hy, andb_false_r. now rewrite app_nil_r.
  - rewrite other_blocks by congruence.
    rewrite Hblocks, filter_app. cbn. apply String.eqb_neq in Hx.
    rewrite (String.eqb_sym u x), Hx. now rewrite app_nil_r.
Qed.

Lemma BlockUser_then_UnblockUser_witness :
  let blocked := BlockUser 200 "bu-003" Examples.friends_seed "user-001" "user-004" in
  exists db2,
    UnblockUser 300 (snd blocked) "user-001" "user-004" = (None, db2)
    /\ FriendRepository.IsUserBlocked db2 "user-001" "user-004" = Ok false
    /\ CheckFriendship Examples.friends_seed "user-001" "user-004" = Ok ("friends", "")
    /\ CheckFriendship db2 "user-001" "user-004" = Ok ("none", "").
Proof.
  intros blocked.
  destruct (BlockUser_then_UnblockUser 200 300 "bu-003" Examples.friends_seed
                                       (snd blocked) "user-001" "user-004")
    as (db2 & Hcall & Hblocks & _).
  - vm_compute. reflexivity.
  - intros row t Hin. cbn in Hin.
    repeat (destruct Hin as [<- | Hin]; [discriminate | ]). destruct Hin.
  - exists db2. split; [exact Hcall | ]. split; [now rewrite Hblocks | ].
    split; [reflexivity | ].
    revert Hcall. vm_compute. intros [= <-]. reflexivity.
Defined.

End FriendsBlocks.

(** * The friend service: paginated listings *)

Module FriendsPages.
Import Friends QueryFacts.

Lemma totalPages_zero (count : Z) :
  totalPages count 0 = Panics "runtime error: integer divide by zero".
Proof. reflexivity. Qed.

Lemma window_zero {A : Type} (offset : Z) (rows : list A) : window offset 0 rows = Ok [].
Proof. reflexivity. Qed.

(** The page count for a positive limit is the ceiling of count / limit. *)
Lemma totalPages_positive (count limit : Z) :
  (0 <= count < 2 ^ 31)%Z ->
  (1 <= limit < 2 ^ 62)%Z ->
  exists pages, totalPages count limit = Returns pages /\ Spec.ceiling pages count limit.
Proof.
  intros Hcount Hlimit. unfold totalPages.
  assert (H62 : (2 ^ 62 < 2 ^ 63)%Z) by reflexivity.
  assert (H31 : (2 ^ 31 < 2 ^ 62)%Z) by reflexivity.
  assert (H3163 : (- 2 ^ 63 < - 2 ^ 31)%Z) by reflexivity.
  rewrite (GoIntFacts.int64_small limit) by (unfold in_int64; lia).
  rewrite (GoIntFacts.int64_small (count + limit - 1)) by (unfold in_int64; lia).
  destruct (Z.eqb_spec limit 0) as [ | _]; [lia | ].
  rewrite Z.quot_div_nonneg by lia.
  pose proof (Z.div_mod (count + limit - 1) limit ltac:(lia)) as Hdiv.
  pose proof (Z.mod_pos_bound (count + limit - 1) limit ltac:(lia)) as Hmod.
  assert (Hq : (0 <= (count + limit - 1) / limit <= count)%Z).
  { split; [apply Z.div_pos; lia | nia]. }
  rewrite GoIntFacts.int32_small by (unfold in_int32; lia).
  eexists. split; [reflexivity | ].
  unfold Spec.ceiling. nia.
Qed.

(** A page of a positive limit. *)
Lemma window_positive {A : Type} (offset limit : Z) (rows : list A) :
  (1 <= limit)%Z ->
  window offset limit rows = Ok (paged offset limit rows).
Proof.
  intros Hlimit. unfold window, paged.
  destruct (Z.leb_spec 0 limit); [ | lia].
  destruct (Z.ltb_spec 0 offset) as [ | Hoffset]; [reflexivity | ].
  replace (Z.to_nat offset) with 0%nat by lia. reflexivity.
Qed.

(** X17.  The three listings of the friend service do not guard their
    limit: with a limit of 0 the query returns no row and the page count
    divides by zero, so the call panics, for every database, user and
    page. *)
Theorem friend_listings_limit_zero (db : DB) (userID status : string) (page : Z) :
  GetFriends db userID page 0 = Panics "runtime error: integer divide by zero"
  /\ GetFriendRequests db userID status page 0
     = Panics "runtime error: integer divide by zero"
  /\ GetBlockedUsers db userID page 0 = Panics "runtime error: integer divide by zero".
Proof.
  unfold GetFriends, GetFriendRequests, GetBlockedUsers,
    FriendRepository.GetFriendshipsByUserID,
    FriendRepository.GetFriendRequestsByReceiverID,
    FriendRepository.GetBlockedUsers.
  rewrite !window_zero, !totalPages_zero. repeat split.
Qed.

(** X18.  With a limit of at least 1 [GetFriends] returns the page of the
    live friendship rows of the user, in table order, with their number
    and the ceiling of that number over the limit.  The limit is taken as
    it comes, also above 100, and a page below 1 is answered like page 1. *)
Theorem GetFriends_page (db : DB) (userID : string) (page limit : Z) :
  (1 <= limit < 2 ^ 31)%Z ->
  (- 2 ^ 31 <= page < 2 ^ 31)%Z ->
  (Z.of_nat (length (friendships db)) < 2 ^ 31)%Z ->
  let matching :=
    filter (fun row => FriendRepository.liveFriendship row && (fsUserID row =? userID))
           (friendships db) in
  (exists pages,
      GetFriends db userID page limit
      = Returns (Ok (firstn (Z.to_nat limit)
                            (skipn (Z.to_nat ((page - 1) * limit)) matching),
                     Z.of_nat (length matching), pages))
      /\ Spec.ceiling pages (Z.of_nat (length matching)) limit)
  /\ ((page < 1)%Z -> GetFriends db userID page limit = GetFriends db userID 1 limit).
Proof.
  intros Hlimit Hpage Hrows matching.
  assert (H31 : (2 ^ 31 * 2 ^ 31 < 2 ^ 63)%Z) by reflexivity.
  assert (H62 : (2 ^ 31 < 2 ^ 62)%Z) by reflexivity.
  assert (Hoffset : int64 ((page - 1) * limit) = ((page - 1) * limit)%Z).
  { apply GoIntFacts.int64_small. unfold in_int64. nia. }
  pose proof (PostsPagination.count_bound
                (fun row => FriendRepository.liveFriendship row && (fsUserID row =? userID))
                (friendships db) Hrows) as Hcount.
  fold matching in Hcount.
  destruct (totalPages_positive (Z.of_nat (length matching)) limit Hcount ltac:(lia))
    as (pages & Hpages & Hceiling).
  assert (Hcall : forall p,
             (- 2 ^ 31 <= p < 2 ^ 31)%Z ->
             GetFriends db userID p limit
             = Returns (Ok (firstn (Z.to_nat limit)
                                   (skipn (Z.to_nat ((p - 1) * limit)) matching),
                            Z.of_nat (length matching), pages))).
  { intros p Hp. unfold GetFriends, FriendRepository.GetFriendshipsByUserID.
    fold matching. rewrite window_positive by lia. rewrite Hpages.
    unfold paged. rewrite GoIntFacts.int64_small by (unfold in_int64; nia).
    reflexivity. }
  split.
  - exists pages. split; [now apply Hcall | exact Hceiling].
  - intros Hlow. rewrite !Hcall by lia.
    replace (Z.to_nat ((page - 1) * limit)) with 0%nat by nia.
    reflexivity.
Qed.

Lemma GetFriends_page_witness :
  exists pages,
    GetFriends Examples.friends_seed "user-001" 2 1
    = Returns (Ok ([mkFriendship "f-003" "user-001" "user-005" 100 100 None], 2%Z, pages))
    /\ Spec.ceiling pages 2 1.
Proof.
  destruct (GetFriends_page Examples.friends_seed "user-001" 2 1) as [Hpage _];
    [lia | lia | cbn; lia | ].
  exact Hpage.
Defined.

End FriendsPages.

(** * The group service: creating, joining and leaving *)

Module GroupsMembership.
Import Groups QueryFacts.

(** The live members of a group, as [GetGroupMembers] counts them. *)
Lemma GetGroupMembers_count (db : DB) (groupID : string) :
  exists members,
    GroupRepository.GetGroupMembers db groupID 1 1
    = Ok (members,
          Z.of_nat (length (filter (fun row => GroupRepository.liveMember row
                                               && (gmGroupID row =? groupID))
                                   (group_members db)))).
Proof. eexists. reflexivity. Qed.

Lemma GetGroupByID_groups (db db' : DB) (id : string) :
  groups db' = groups db ->
  GroupRepository.GetGroupByID db' id = GroupRepository.GetGroupByID db id.
Proof. intros H. unfold GroupRepository.GetGroupByID. now rewrite H. Qed.

Lemma IsMember_members (db db' : DB) (g u : string) :
  group_members db' = group_members db ->
  GroupRepository.IsMember db' g u = GroupRepository.IsMember db g u.
Proof. intros H. unfold GroupRepository.IsMember. now rewrite H. Qed.

Lemma IsMember_false (db : DB) (g u : string) :
  GroupRepository.IsMember db g u = Ok false ->
  filter (GroupRepository.membership g u) (group_members db) = [].
Proof.
  unfold GroupRepository.IsMember. intros [= H].
  now apply FriendsRelations.counted_zero.
Qed.

Lemma IsMember_true (db : DB) (g u : string) (row : GroupMember) :
  In row (group_members db) ->
  GroupRepository.membership g u row = true ->
  GroupRepository.IsMember db g u = Ok true.
Proof.
  intros Hin Hrow. unfold GroupRepository.IsMember.
  now rewrite (FriendsLifecycle.counted_positive _ _ row Hin Hrow).
Qed.

(** The memberships after the insert of one live row. *)
Lemma IsMember_appended (db db' : DB) (member : GroupMember) (g u : string) :
  group_members db' = (group_members db ++ [member])%list ->
  (g, u) <> (gmGroupID member, gmUserID member) ->
  GroupRepository.IsMember db' g u = GroupRepository.IsMember db g u.
Proof.
  intros Hdb Hpair. unfold GroupRepository.IsMember. rewrite Hdb, filter_app.
  cbn [filter]. unfold GroupRepository.membership at 2.
  destruct (String.eqb_spec (gmGroupID member) g) as [Hg | _];
    destruct (String.eqb_spec (gmUserID member) u) as [Hu | _];
    rewrite ?andb_false_r, ?app_nil_r; try reflexivity.
  congruence.
Qed.

(** What a successful [CreateGroup] has stored. *)
Lemma CreateGroup_Ok (now : Z) (uuid1 uuid2 : string) (db db' : DB)
      (userID name description avatar : string) (group : Group) :
  CreateGroup now uuid1 uuid2 db userID name description avatar = (Ok group, db') ->
  userID <> "" /\ name <> ""
  /\ group = mkGroup uuid1 name description avatar userID now now None
  /\ existsb (fun row => gID row =? uuid1) (groups db) = false
  /\ groups db' = (groups db ++ [group])%list
  /\ group_members db'
     = if existsb (fun row => gmID row =? uuid2) (group_members db)
       then group_members db
       else (group_members db
             ++ [mkGroupMember uuid2 uuid1 userID "creator" now now now None])%list.
Proof.
  unfold CreateGroup.
  destruct (String.eqb_spec userID "") as [ | Huser]; [discriminate | ].
  destruct (String.eqb_spec name "") as [ | Hname]; [discriminate | ].
  unfold GroupRepository.CreateGroup, GroupRepository.AddMember, autoTime. cbn.
  destruct (existsb (fun row => gID row =? uuid1) (groups db)) eqn:Hfresh;
    [discriminate | ].
  unfold set_groups, set_group_members. cbn [group_members groups].
  destruct (existsb (fun row => gmID row =? uuid2) (group_members db));
    intros [= <- <-]; repeat split; auto.
Qed.

Lemma GetGroupByID_appended (db db' : DB) (group : Group) :
  existsb (fun row => gID row =? gID group) (groups db) = false ->
  GroupRepository.liveGroup group = true ->
  groups db' = (groups db ++ [group])%list ->
  GroupRepository.GetGroupByID db' (gID group) = Ok group
  /\ (forall id, id <> gID group ->
                 GroupRepository.GetGroupByID db' id = GroupRepository.GetGroupByID db id).
Proof.
  intros Hfresh Hlive Hdb. unfold GroupRepository.GetGroupByID. rewrite Hdb. split.
  - rewrite filter_app, (filter_none _ (groups db)).
    + cbn [app filter]. now rewrite Hlive, String.eqb_refl.
    + intros x Hx. rewrite (existsb_false_forall _ _ Hfresh x Hx). apply andb_false_r.
  - intros id Hid. rewrite filter_app. cbn [filter].
    destruct (String.eqb_spec (gID group) id) as [E | _]; [congruence | ].
    now rewrite andb_false_r, app_nil_r.
Qed.

(** X19.  A group that [CreateGroup] returns is stored under the generated
    id with the caller as creator.  Under a fresh membership id the
    creator is enrolled with the role "creator", cannot leave, and nobody
    else may delete the group.  Under a membership id that is taken the
    call succeeds all the same and enrolls nobody. *)
Theorem CreateGroup_enrolls_creator (now : Z) (uuid1 uuid2 : string) (db db' : DB)
        (userID name description avatar : string) (group : Group) :
  CreateGroup now uuid1 uuid2 db userID name description avatar = (Ok group, db') ->
  group = mkGroup uuid1 name description avatar userID now now None
  /\ GroupRepository.GetGroupByID db' uuid1 = Ok group
  /\ (forall id, id <> uuid1 ->
                 GroupRepository.GetGroupByID db' id = GroupRepository.GetGroupByID db id)
  /\ (forall now' callerID,
         callerID <> userID ->
         DeleteGroup now' db' uuid1 callerID
         = (Some (ErrorsNew "not authorized to delete this group"), db'))
  /\ (existsb (fun row => gmID row =? uuid2) (group_members db) = false ->
      group_members db'
      = (group_members db
         ++ [mkGroupMember uuid2 uuid1 userID "creator" now now now None])%list
      /\ GroupRepository.IsMember db' uuid1 userID = Ok true
      /\ (forall now',
             LeaveGroup now' db' uuid1 userID
             = ((false, 0%Z, Some (ErrorsNew "creator cannot leave the group")), db')))
  /\ (existsb (fun row => gmID row =? uuid2) (group_members db) = true ->
      group_members db' = group_members db).
Proof.
  intros Hcall.
  destruct (CreateGroup_Ok _ _ _ _ _ _ _ _ _ _ Hcall)
    as (_ & _ & Hgroup & Hfresh & Hgroups & Hmembers).
  assert (Hid : gID group = uuid1) by now rewrite Hgroup.
  rewrite <- Hid in Hfresh.
  destruct (GetGroupByID_appended db db' group Hfresh) as [Hget Hothers];
    [now rewrite Hgroup | exact Hgroups | ].
  rewrite Hid in Hget, Hothers.
  split; [exact Hgroup | ]. split; [exact Hget | ]. split; [exact Hothers | ].
  split.
  { intros now' callerID Hcaller. unfold DeleteGroup. rewrite Hget.
    replace (gCreatorID group) with userID by now rewrite Hgroup.
    apply not_eq_sym in Hcaller. apply String.eqb_neq in Hcaller. now rewrite Hcaller. }
  split.
  - intros Hfree. rewrite Hfree in Hmembers. split; [exact Hmembers | ].
    assert (Hmember : GroupRepository.IsMember db' uuid1 userID = Ok true).
    { apply (IsMember_true db' uuid1 userID
                           (mkGroupMember uuid2 uuid1 userID "creator" now now now None)).
      - rewrite Hmembers. apply in_or_app. right. now left.
      - unfold GroupRepository.membership. cbn. now rewrite !String.eqb_refl. }
    split; [exact Hmember | ].
    intros now'. unfold LeaveGroup. rewrite Hget, Hmember. cbn [negb].
    replace (gCreatorID group) with userID by now rewrite Hgroup.
    now rewrite String.eqb_refl.
  - intros Htaken. now rewrite Htaken in Hmembers.
Qed.

Lemma CreateGroup_enrolls_creator_witness :
  let created :=
    CreateGroup 200 "group3" "gm3" Examples.group_db "user2" "Group C" "third" "" in
  GroupRepository.IsMember (snd created) "group3" "user2" = Ok true
  /\ LeaveGroup 300 (snd created) "group3" "user2"
     = ((false, 0%Z, Some (ErrorsNew "creator cannot leave the group")), snd created)
  /\ GroupRepository.IsMember Examples.orphan_db "group2" "user3" = Ok false.
Proof.
  intros created.
  destruct (CreateGroup_enrolls_creator
              200 "group3" "gm3" Examples.group_db (snd created)
              "user2" "Group C" "third" ""
              (mkGroup "group3" "Group C" "third" "" "user2" 200 200 None))
    as (_ & _ & _ & _ & Hfresh & _); [vm_compute; reflexivity | ].
  destruct Hfresh as (_ & Hmember & Hleave); [reflexivity | ].
  split; [exact Hmember | ]. split; [apply Hleave | ].
  destruct (CreateGroup_enrolls_creator
              150 "group2" "gm2" Examples.group_db Examples.orphan_db
              "user3" "Group B" "second group" "" Examples.group2)
    as (_ & _ & _ & _ & _ & Htaken); [vm_compute; reflexivity | ].
  rewrite (IsMember_members Examples.group_db Examples.orphan_db "group2" "user3");
    [reflexivity | apply Htaken; reflexivity].
Defined.

(** X20.  [JoinGroup] needs a live group and a user who is not a live
    member of it; a refused call changes nothing.  Under a fresh
    membership id the user is enrolled with the role "member", the count
    returned is the number of live members the group had plus one, and
    the groups and the memberships of every other pair are untouched. *)
Theorem JoinGroup_rules (now : Z) (uuid : string) (db : DB) (groupID userID : string) :
  (forall e,
      GroupRepository.GetGroupByID db groupID = Err e ->
      JoinGroup now uuid db groupID userID = ((false, 0%Z, Some e), db))
  /\ (forall group,
         GroupRepository.GetGroupByID db groupID = Ok group ->
         GroupRepository.IsMember db groupID userID = Ok true ->
         JoinGroup now uuid db groupID userID
         = ((false, 0%Z, Some (ErrorsNew "already a member of this group")), db))
  /\ (forall group,
         GroupRepository.GetGroupByID db groupID = Ok group ->
         GroupRepository.IsMember db groupID userID = Ok false ->
         existsb (fun row => gmID row =? uuid) (group_members db) = false ->
         let members :=
           Z.of_nat (length (filter (fun row => GroupRepository.liveMember row
                                                && (gmGroupID row =? groupID))
                                    (group_members db))) in
         exists db',
           JoinGroup now uuid db groupID userID = ((true, int32 (members + 1), None), db')
           /\ group_members db'
              = (group_members db
                 ++ [mkGroupMember uuid groupID userID "member" now now now None])%list
           /\ groups db' = groups db
           /\ GroupRepository.IsMember db' groupID userID = Ok true
           /\ (forall g u, (g, u) <> (groupID, userID) ->
                           GroupRepository.IsMember db' g u
                           = GroupRepository.IsMember db g u)).
Proof.
  split; [ | split].
  - intros e Hget. unfold JoinGroup. now rewrite Hget.
  - intros group Hget Hmember. unfold JoinGroup. now rewrite Hget, Hmember.
  - intros group Hget Hmember Hfresh members.
    set (member := mkGroupMember uuid groupID userID "member" now now now None).
    exists (set_group_members db (group_members db ++ [member])).
    split.
    { unfold JoinGroup. rewrite Hget, Hmember.
      unfold GroupRepository.AddMember, autoTime. cbn.
      rewrite Hfresh. unfold GroupRepository.GetGroupMembers.
      cbn [group_members set_group_members].
      rewrite filter_app. cbn [filter gmGroupID gmDeletedAt GroupRepository.liveMember isNone].
      rewrite String.eqb_refl. cbn [andb].
      rewrite length_app. cbn [length].
      replace (Z.of_nat (length (filter (fun row => GroupRepository.liveMember row
                                                    && (gmGroupID row =? groupID))
                                        (group_members db)) + 1))
        with (members + 1)%Z by (unfold members; lia).
      reflexivity. }
    split; [reflexivity | ]. split; [reflexivity | ].
    split.
    { apply (IsMember_true _ groupID userID member).
      - cbn. apply in_or_app. right. now left.
      - unfold GroupRepository.membership. cbn. now rewrite !String.eqb_refl. }
    intros g u Hpair. now apply (IsMember_appended db _ member).
Qed.

Lemma JoinGroup_rules_witness :
  (exists db', JoinGroup 200 "gm3" Examples.group_db "group1" "user3"
               = ((true, 3%Z, None), db'))
  /\ JoinGroup 200 "gm3" Examples.group_db "group1" "user2"
     = ((false, 0%Z, Some (ErrorsNew "already a member of this group")), Examples.group_db)
  /\ JoinGroup 200 "gm3" Examples.group_db "group9" "user2"
     = ((false, 0%Z, Some ErrRecordNotFound), Examples.group_db).
Proof.
  destruct (JoinGroup_rules 200 "gm3" Examples.group_db "group1" "user3")
    as (_ & _ & Hok).
  destruct (Hok Examples.group1 eq_refl eq_refl eq_refl) as (db' & Hcall & _).
  split; [exists db'; exact Hcall | ].
  split.
  - apply (proj1 (proj2 (JoinGroup_rules 200 "gm3" Examples.group_db "group1" "user2"))
                 Examples.group1); reflexivity.
  - apply (proj1 (JoinGroup_rules 200 "gm3" Examples.group_db "group9" "user2")).
    reflexivity.
Defined.

(** The live members of a group after the insert and the removal of one
    membership of it. *)
Lemma members_restored (now : Z) (rows : list GroupMember) (member : GroupMember)
      (P : GroupMember -> bool) :
  filter (GroupRepository.membership (gmGroupID member) (gmUserID member)) rows = [] ->
  filter (fun row => GroupRepository.liveMember row && P row)
         (map (fun row =>
                 if GroupRepository.membership (gmGroupID member) (gmUserID member) row
                 then softDelete row now else row)
              (rows ++ [member]))
  = filter (fun row => GroupRepository.liveMember row && P row) rows.
Proof.
  intros Hnone. rewrite map_app, filter_app.
  rewrite (map_untouched (GroupRepository.membership (gmGroupID member) (gmUserID member)))
    by exact (filter_nil_forall _ _ Hnone).
  cbn [map filter].
  destruct (GroupRepository.membership (gmGroupID member) (gmUserID member) member)
    eqn:Hrow.
  - cbn. apply app_nil_r.
  - unfold GroupRepository.membership in Hrow. rewrite !String.eqb_refl in Hrow.
    rewrite andb_true_r in Hrow. rewrite Hrow. cbn. apply app_nil_r.
Qed.

(** X21.  A user who joins a group and then leaves it is no member again,
    [LeaveGroup] returns the member count the group had before, and the
    live members of every group are the ones from before.  The leave goes
    through when the user is not the creator and the clock has passed
    every deletion stamp of the memberships. *)
Theorem JoinGroup_then_LeaveGroup (now1 now2 : Z) (uuid : string) (db : DB)
        (groupID userID : string) (group : Group) :
  GroupRepository.GetGroupByID db groupID = Ok group ->
  gCreatorID group <> userID ->
  GroupRepository.IsMember db groupID userID = Ok false ->
  existsb (fun row => gmID row =? uuid) (group_members db) = false ->
  Props.later gmDeletedAt now2 (group_members db) ->
  let members :=
    Z.of_nat (length (filter (fun row => GroupRepository.liveMember row
                                         && (gmGroupID row =? groupID))
                             (group_members db))) in
  exists db1 db2,
    JoinGroup now1 uuid db groupID userID = ((true, int32 (members + 1), None), db1)
    /\ LeaveGroup now2 db1 groupID userID = ((true, int32 members, None), db2)
    /\ GroupRepository.IsMember db2 groupID userID = Ok false
    /\ (forall g,
           filter (fun row => GroupRepository.liveMember row && (gmGroupID row =? g))
                  (group_members db2)
           = filter (fun row => GroupRepository.liveMember row && (gmGroupID row =? g))
                    (group_members db))
    /\ groups db2 = groups db.
Proof.
  intros Hget Hcreator Hmember Hfresh Hlater members.
  set (member := mkGroupMember uuid groupID userID "member" now1 now1 now1 None).
  set (db1 := set_group_members db (group_members db ++ [member])).
  pose proof (IsMember_false db groupID userID Hmember) as Hnone.
  assert (Hrestored : forall P,
             filter (fun row => GroupRepository.liveMember row && P row)
                    (map (fun row =>
                            if GroupRepository.membership groupID userID row
                            then softDelete row now2 else row)
                         (group_members db1))
             = filter (fun row => GroupRepository.liveMember row && P row)
                      (group_members db)).
  { intros P. exact (members_restored now2 (group_members db) member P Hnone). }
  set (db2 := set_group_members db1
                (map (fun row =>
                        if GroupRepository.membership groupID userID row
                        then softDelete row now2 else row)
                     (group_members db1))).
  exists db1, db2.
  split.
  { unfold JoinGroup. rewrite Hget, Hmember.
    unfold GroupRepository.AddMember, autoTime. cbn.
    rewrite Hfresh. unfold GroupRepository.GetGroupMembers.
    cbn [group_members set_group_members].
    rewrite filter_app. cbn [filter gmGroupID gmDeletedAt GroupRepository.liveMember isNone].
    rewrite String.eqb_refl. cbn [andb].
    rewrite length_app. cbn [length].
    replace (Z.of_nat (length (filter (fun row => GroupRepository.liveMember row
                                                  && (gmGroupID row =? groupID))
                                      (group_members db)) + 1))
      with (members + 1)%Z by (unfold members; lia).
    reflexivity. }
  split.
  { unfold LeaveGroup.
    rewrite (GetGroupByID_groups db db1 groupID eq_refl), Hget.
    rewrite (IsMember_true db1 groupID userID member).
    2:{ cbn. apply in_or_app. right. now left. }
    2:{ unfold GroupRepository.membership. cbn. now rewrite !String.eqb_refl. }
    cbn [negb]. apply String.eqb_neq in Hcreator. rewrite Hcreator.
    unfold GroupRepository.RemoveMember.
    assert (Htouched : filter (GroupRepository.membership groupID userID)
                              (group_members db1) = [member]).
    { unfold db1. cbn [group_members set_group_members].
      rewrite filter_app, Hnone. cbn. now rewrite !String.eqb_refl. }
    rewrite Htouched.
    rewrite FriendsRelations.forall_existsb_false.
    2:{ intros row Hin. unfold db1 in Hin. cbn [group_members set_group_members] in Hin.
        apply in_app_or in Hin. destruct Hin as [Hin | [<- | []]];
          [ | cbn; now rewrite andb_false_r].
        destruct (gmDeletedAt row) as [t | ] eqn:Hstamp; [ | now rewrite andb_false_r].
        specialize (Hlater row t Hin Hstamp).
        replace (t =? now2)%Z with false by (symmetry; apply Z.eqb_neq; lia).
        apply andb_false_r. }
    cbn [length Nat.ltb Nat.leb orb andb].
    fold db2. unfold GroupRepository.GetGroupMembers.
    unfold db2 at 1 2. cbn [group_members set_group_members].
    rewrite (Hrestored (fun row => gmGroupID row =? groupID)).
    reflexivity. }
  split.
  { unfold db2. apply (GroupsLeave.IsMember_removed now2 db1 groupID userID). }
  split; [ | reflexivity].
  intros g. unfold db2. cbn [group_members set_group_members].
  apply (Hrestored (fun row => gmGroupID row =? g)).
Qed.

Lemma JoinGroup_then_LeaveGroup_witness :
  exists db1 db2,
    JoinGroup 200 "gm3" Examples.group_db "group1" "user3" = ((true, 3%Z, None), db1)
    /\ LeaveGroup 300 db1 "group1" "user3" = ((true, 2%Z, None), db2)
    /\ GroupRepository.IsMember db2 "group1" "user3" = Ok false.
Proof.
  destruct (JoinGroup_then_LeaveGroup 200 300 "gm3" Examples.group_db "group1" "user3"
                                      Examples.group1)
    as (db1 & db2 & Hjoin & Hleave & Hgone & _);
    [reflexivity | discriminate | reflexivity | reflexivity | | ].
  - intros row t Hin. cbn in Hin.
    repeat (destruct Hin as [<- | Hin]; [discriminate | ]). destruct Hin.
  - exists db1, db2. repeat split; assumption.
Defined.

End GroupsMembership.

(** * The group service: updating, deleting and listing *)

Module GroupsAdmin.
Import Groups QueryFacts.

Lemma GetGroupByID_inv (db : DB) (id : string) (group : Group) :
  GroupRepository.GetGroupByID db id = Ok group ->
  In group (groups db) /\ gDeletedAt group = None /\ gID group = id.
Proof.
  unfold GroupRepository.GetGroupByID. intros H.
  apply first_filter_Ok in H. destruct H as [Hin H].
  apply andb_true_iff in H. destruct H as [Hlive Hid].
  apply String.eqb_eq in Hid. repeat split; try assumption.
  unfold GroupRepository.liveGroup in Hlive. now destruct (gDeletedAt group).
Qed.

(** The group found after [Save] has written [saved] over the live rows
    of its id. *)
Lemma GetGroupByID_saved (db : DB) (id : string) (group saved : Group) :
  GroupRepository.GetGroupByID db id = Ok group ->
  gID saved = id ->
  gDeletedAt saved = None ->
  GroupRepository.GetGroupByID
    (set_groups db
       (map (fun row => if GroupRepository.liveGroup row && (gID row =? id)
                        then saved else row)
            (groups db))) id
  = Ok saved
  /\ (forall other,
         other <> id ->
         GroupRepository.GetGroupByID
           (set_groups db
              (map (fun row => if GroupRepository.liveGroup row && (gID row =? id)
                               then saved else row)
                   (groups db))) other
         = GroupRepository.GetGroupByID db other).
Proof.
  intros Hget Hid Hlive.
  assert (Hsaved : GroupRepository.liveGroup saved && (gID saved =? id) = true).
  { unfold GroupRepository.liveGroup. now rewrite Hlive, Hid, String.eqb_refl. }
  unfold GroupRepository.GetGroupByID in *. cbn [groups set_groups]. split.
  - rewrite (filter_map_preserved
               (fun row => GroupRepository.liveGroup row && (gID row =? id))
               (fun row => if GroupRepository.liveGroup row && (gID row =? id)
                           then saved else row)).
    2:{ intros x. destruct (GroupRepository.liveGroup x && (gID x =? id)) eqn:E;
        [exact Hsaved | exact E]. }
    rewrite first_map, Hget.
    apply first_filter_Ok in Hget. destruct Hget as [_ Hrow]. now rewrite Hrow.
  - intros other Hother.
    rewrite (filter_map_other
               (fun row => GroupRepository.liveGroup row && (gID row =? other))
               (fun row => GroupRepository.liveGroup row && (gID row =? id))
               (fun _ => saved)); [reflexivity | ].
    intros x Hx. apply andb_true_iff in Hx. destruct Hx as [_ Hx].
    apply String.eqb_eq in Hx. rewrite Hx, Hid.
    destruct (String.eqb_spec id other) as [E | _]; [congruence | ].
    now rewrite !andb_false_r.
Qed.

(** X22.  [UpdateGroup] is for live members with the role "creator" or
    "admin": a caller without such a membership is told "not authorized
    to update this group" and nothing changes.  An accepted call
    overwrites the name, the description and the avatar that are not
    empty, sets the update time, keeps id, creator and creation time, and
    leaves the other groups and the memberships alone. *)
Theorem UpdateGroup_rules (now : Z) (db : DB) (id userID name description avatar : string) :
  (forall e,
      GroupRepository.GetGroupByID db id = Err e ->
      UpdateGroup now db id userID name description avatar = (Err e, db))
  /\ (forall group,
         GroupRepository.GetGroupByID db id = Ok group ->
         ((forall row,
              In row (group_members db) ->
              GroupRepository.membership id userID row = true ->
              gmRole row <> "creator" /\ gmRole row <> "admin") ->
          UpdateGroup now db id userID name description avatar
          = (Err (ErrorsNew "not authorized to update this group"), db))
         /\ ((exists row,
                 In row (group_members db)
                 /\ GroupRepository.membership id userID row = true) ->
             (forall row,
                 In row (group_members db) ->
                 GroupRepository.membership id userID row = true ->
                 gmRole row = "creator" \/ gmRole row = "admin") ->
             let saved :=
               mkGroup (gID group)
                       (if name =? "" then gName group else name)
                       (if description =? "" then gDescription group else description)
                       (if avatar =? "" then gAvatar group else avatar)
                       (gCreatorID group) (gCreatedAt group) now (gDeletedAt group) in
             exists db',
               UpdateGroup now db id userID name description avatar = (Ok saved, db')
               /\ GroupRepository.GetGroupByID db' id = Ok saved
               /\ (forall other,
                      other <> id ->
                      GroupRepository.GetGroupByID db' other
                      = GroupRepository.GetGroupByID db other)
               /\ group_members db' = group_members db)).
Proof.
  split.
  { intros e Hget. unfold UpdateGroup. now rewrite Hget. }
  intros group Hget. split.
  - intros Hroles. unfold UpdateGroup, GroupRepository.GetMemberByID. rewrite Hget.
    destruct (first (filter (GroupRepository.membership id userID) (group_members db)))
      as [member | e] eqn:Hfirst; [ | reflexivity].
    apply first_filter_Ok in Hfirst. destruct Hfirst as [Hin Hrow].
    destruct (Hroles member Hin Hrow) as [H1 H2].
    apply String.eqb_neq in H1. apply String.eqb_neq in H2. now rewrite H1, H2.
  - intros (row & Hin & Hrow) Hroles saved.
    destruct (GetGroupByID_inv db id group Hget) as (Hgroup & Hlive & Hid).
    assert (Hmember : exists member,
               GroupRepository.GetMemberByID db id userID = Ok member
               /\ negb (gmRole member =? "creator") && negb (gmRole member =? "admin")
                  = false).
    { unfold GroupRepository.GetMemberByID.
      destruct (first (filter (GroupRepository.membership id userID) (group_members db)))
        as [member | e] eqn:Hfirst.
      - exists member. split; [reflexivity | ].
        apply first_filter_Ok in Hfirst. destruct Hfirst as [Hin' Hrow'].
        destruct (Hroles member Hin' Hrow') as [-> | ->]; reflexivity.
      - apply first_Err_nil in Hfirst.
        pose proof (filter_nil_forall _ _ Hfirst row Hin) as Hno. congruence. }
    destruct Hmember as (member & Hfound & Hrole).
    assert (Hedit :
              set_gUpdatedAt
                (let g1 := if negb (name =? "") then set_gName group name else group in
                 let g2 := if negb (description =? "")
                           then set_gDescription g1 description else g1 in
                 if negb (avatar =? "") then set_gAvatar g2 avatar else g2) now
              = saved).
    { unfold saved. destruct (name =? ""), (description =? ""), (avatar =? "");
        reflexivity. }
    assert (Hexists : existsb (fun r => GroupRepository.liveGroup r && (gID r =? id))
                              (groups db) = true).
    { apply existsb_exists. exists group. split; [exact Hgroup | ].
      unfold GroupRepository.liveGroup. now rewrite Hlive, Hid, String.eqb_refl. }
    destruct (GetGroupByID_saved db id group saved Hget) as [Hsaved Hothers];
      [exact Hid | exact Hlive | ].
    eexists. split; [ | split; [exact Hsaved | split; [exact Hothers | reflexivity]]].
    unfold UpdateGroup. rewrite Hget, Hfound, Hrole.
    unfold GroupRepository.UpdateGroup. cbv zeta in Hedit |- *. rewrite Hedit.
    change (gID saved) with (gID group). rewrite Hid, Hexists. reflexivity.
Qed.

Lemma UpdateGroup_rules_witness :
  (exists db',
      UpdateGroup 200 Examples.group_db "group1" "user1" "" "renamed" ""
      = (Ok (Groups.mkGroup "group1" "Group A" "renamed" "" "user1" 100 200 None), db'))
  /\ UpdateGroup 200 Examples.group_db "group1" "user2" "Group Z" "" ""
     = (Err (ErrorsNew "not authorized to update this group"), Examples.group_db).
Proof.
  destruct (UpdateGroup_rules 200 Examples.group_db "group1" "user1" "" "renamed" "")
    as [_ Hfound].
  destruct (Hfound Examples.group1 eq_refl) as [_ Hok].
  destruct Hok as (db' & Hcall & _).
  - eexists. split; [left; reflexivity | reflexivity].
  - intros row Hin Hrow. cbn in Hin.
    destruct Hin as [<- | [<- | []]]; [now left | discriminate].
  - split; [exists db'; exact Hcall | ].
    destruct (UpdateGroup_rules 200 Examples.group_db "group1" "user2" "Group Z" "" "")
      as [_ Hfound'].
    destruct (Hfound' Examples.group1 eq_refl) as [Hdenied _].
    apply Hdenied. intros row Hin Hrow. cbn in Hin.
    destruct Hin as [<- | [<- | []]]; [discriminate | split; discriminate].
Defined.

(** X23.  [DeleteGroup] is for the creator of a live group.  After the
    creator's call the group is not found any more, while its membership
    rows stay as they are: everybody who was a member still is, and can
    neither leave nor be listed, because [LeaveGroup], [JoinGroup] and
    [GetGroupMembers] all look the group up first. *)
Theorem DeleteGroup_rules (now : Z) (db : DB) (id userID : string) :
  (forall e,
      GroupRepository.GetGroupByID db id = Err e ->
      DeleteGroup now db id userID = (Some e, db))
  /\ (forall group,
         GroupRepository.GetGroupByID db id = Ok group ->
         (gCreatorID group <> userID ->
          DeleteGroup now db id userID
          = (Some (ErrorsNew "not authorized to delete this group"), db))
         /\ (gCreatorID group = userID ->
             exists db',
               DeleteGroup now db id userID = (None, db')
               /\ GroupRepository.GetGroupByID db' id = Err ErrRecordNotFound
               /\ (forall other,
                      other <> id ->
                      GroupRepository.GetGroupByID db' other
                      = GroupRepository.GetGroupByID db other)
               /\ group_members db' = group_members db
               /\ (forall u,
                      GroupRepository.IsMember db' id u = GroupRepository.IsMember db id u)
               /\ (forall now' u,
                      LeaveGroup now' db' id u
                      = ((false, 0%Z, Some ErrRecordNotFound), db'))
               /\ (forall now' uuid u,
                      JoinGroup now' uuid db' id u
                      = ((false, 0%Z, Some ErrRecordNotFound), db'))
               /\ (forall page limit,
                      GetGroupMembers db' id page limit
                      = Returns (Err ErrRecordNotFound)))).
Proof.
  split.
  { intros e Hget. unfold DeleteGroup. now rewrite Hget. }
  intros group Hget. split.
  - intros Hcreator. apply String.eqb_neq in Hcreator.
    unfold DeleteGroup. now rewrite Hget, Hcreator.
  - intros Hcreator. apply String.eqb_eq in Hcreator.
    set (db' := set_groups db
                  (map (fun row =>
                          if GroupRepository.liveGroup row && (gID row =? id)
                          then softDeleteGroup row now else row)
                       (groups db))).
    assert (Hgone : GroupRepository.GetGroupByID db' id = Err ErrRecordNotFound).
    { unfold GroupRepository.GetGroupByID, db'. cbn [groups set_groups].
      now rewrite (filter_map_killed
                     (fun row => GroupRepository.liveGroup row && (gID row =? id))). }
    exists db'. split.
    { unfold DeleteGroup. now rewrite Hget, Hcreator. }
    split; [exact Hgone | ].
    split.
    { intros other Hother. unfold GroupRepository.GetGroupByID, db'.
      cbn [groups set_groups].
      rewrite (filter_map_other
                 (fun row => GroupRepository.liveGroup row && (gID row =? other))
                 (fun row => GroupRepository.liveGroup row && (gID row =? id)));
        [reflexivity | ].
      intros x Hx. apply andb_true_iff in Hx. destruct Hx as [_ Hx].
      apply String.eqb_eq in Hx. split; [ | reflexivity].
      rewrite Hx. destruct (String.eqb_spec id other) as [E | _]; [congruence | ].
      apply andb_false_r. }
    split; [reflexivity | ]. split; [reflexivity | ].
    split; [intros now' u; unfold LeaveGroup; now rewrite Hgone | ].
    split; [intros now' uuid u; unfold JoinGroup; now rewrite Hgone | ].
    intros page limit. unfold GetGroupMembers. now rewrite Hgone.
Qed.

Lemma DeleteGroup_rules_witness :
  let deleted := DeleteGroup 200 Examples.group_db "group1" "user1" in
  fst deleted = None
  /\ GroupRepository.IsMember (snd deleted) "group1" "user2" = Ok true
  /\ LeaveGroup 300 (snd deleted) "group1" "user2"
     = ((false, 0%Z, Some ErrRecordNotFound), snd deleted)
  /\ DeleteGroup 200 Examples.group_db "group1" "user2"
     = (Some (ErrorsNew "not authorized to delete this group"), Examples.group_db).
Proof.
  intros deleted.
  destruct (DeleteGroup_rules 200 Examples.group_db "group1" "user1") as [_ Hfound].
  destruct (Hfound Examples.group1 eq_refl) as [_ Hok].
  destruct (Hok eq_refl) as (db' & Hcall & _ & _ & _ & Hmembers & Hleave & _).
  assert (Hdb : snd deleted = db') by (unfold deleted; now rewrite Hcall).
  split; [unfold deleted; now rewrite Hcall | ].
  rewrite Hdb. split; [now rewrite Hmembers | ]. split; [apply Hleave | ].
  destruct (DeleteGroup_rules 200 Examples.group_db "group1" "user2") as [_ Hfound'].
  destruct (Hfound' Examples.group1 eq_refl) as [Hdenied _].
  apply Hdenied. discriminate.
Defined.

(** The listing of the repository for any limit agrees with the one the
    services use with a limit of 1. *)
Lemma GetGroupMembersPage_positive (db : DB) (groupID : string) (page limit : Z) :
  (1 <= limit)%Z ->
  GroupRepository.GetGroupMembersPage db groupID page limit
  = GroupRepository.GetGroupMembers db groupID page limit.
Proof.
  intros Hlimit. unfold GroupRepository.GetGroupMembersPage, GroupRepository.GetGroupMembers.
  now rewrite FriendsPages.window_positive.
Qed.

(** X24.  [GetGroupMembers] answers the lookup error for a group that is
    not found, whatever the limit.  For a live group a limit of 0 makes
    the page count divide by zero and the call panics; a limit of at least
    1 returns the page of the live membership rows of the group, in table
    order, their number and the ceiling of that number over the limit. *)
Theorem GetGroupMembers_outcome (db : DB) (groupID : string) (page limit : Z) :
  (forall e,
      GroupRepository.GetGroupByID db groupID = Err e ->
      GetGroupMembers db groupID page limit = Returns (Err e))
  /\ (forall group,
         GroupRepository.GetGroupByID db groupID = Ok group ->
         (limit = 0%Z ->
          GetGroupMembers db groupID page limit
          = Panics "runtime error: integer divide by zero")
         /\ ((1 <= limit < 2 ^ 31)%Z ->
             (- 2 ^ 31 <= page < 2 ^ 31)%Z ->
             (Z.of_nat (length (group_members db)) < 2 ^ 31)%Z ->
             let matching :=
               filter (fun row => GroupRepository.liveMember row
                                  && (gmGroupID row =? groupID))
                      (group_members db) in
             exists pages,
               GetGroupMembers db groupID page limit
               = Returns (Ok (firstn (Z.to_nat limit)
                                     (skipn (Z.to_nat ((page - 1) * limit)) matching),
                              Z.of_nat (length matching), pages))
               /\ Spec.ceiling pages (Z.of_nat (length matching)) limit)).
Proof.
  split.
  { intros e Hget. unfold GetGroupMembers. now rewrite Hget. }
  intros group Hget. split.
  - intros ->. unfold GetGroupMembers, GroupRepository.GetGroupMembersPage.
    now rewrite Hget, FriendsPages.window_zero, FriendsPages.totalPages_zero.
  - intros Hlimit Hpage Hrows matching.
    assert (H31 : (2 ^ 31 * 2 ^ 31 < 2 ^ 63)%Z) by reflexivity.
    assert (H62 : (2 ^ 31 < 2 ^ 62)%Z) by reflexivity.
    pose proof (PostsPagination.count_bound
                  (fun row => GroupRepository.liveMember row && (gmGroupID row =? groupID))
                  (group_members db) Hrows) as Hcount.
    fold matching in Hcount.
    destruct (FriendsPages.totalPages_positive
                (Z.of_nat (length matching)) limit Hcount ltac:(lia))
      as (pages & Hpages & Hceiling).
    exists pages. split; [ | exact Hceiling].
    unfold GetGroupMembers, GroupRepository.GetGroupMembersPage. rewrite Hget.
    fold matching. rewrite FriendsPages.window_positive by lia. rewrite Hpages.
    unfold paged. rewrite GoIntFacts.int64_small by (unfold in_int64; nia).
    reflexivity.
Qed.

Lemma GetGroupMembers_outcome_witness :
  GetGroupMembers Examples.group_db "group1" 1 0
  = Panics "runtime error: integer divide by zero"
  /\ GetGroupMembers Examples.group_db "group9" 1 0 = Returns (Err ErrRecordNotFound)
  /\ (exists pages,
         GetGroupMembers Examples.group_db "group1" 2 1
         = Returns (Ok ([mkGroupMember "gm2" "group1" "user2" "member" 100 100 100 None],
                        2%Z, pages))
         /\ Spec.ceiling pages 2 1).
Proof.
  destruct (GetGroupMembers_outcome Examples.group_db "group1" 1 0) as [_ Hfound].
  destruct (Hfound Examples.group1 eq_refl) as [Hzero _].
  split; [apply Hzero; reflexivity | ].
  split.
  - apply (proj1 (GetGroupMembers_outcome Examples.group_db "group9" 1 0)). reflexivity.
  - destruct (GetGroupMembers_outcome Examples.group_db "group1" 2 1) as [_ Hfound'].
    destruct (Hfound' Examples.group1 eq_refl) as [_ Hpage].
    apply Hpage; [lia | lia | cbn; lia].
Defined.

End GroupsAdmin.

(** * The post service: what a like shows *)

Module PostsLiked.
Import Posts QueryFacts.

(** X25.  After a successful [LikePost] the count returned is the old
    counter plus one, the post is stored with that counter, [IsLiked]
    answers true for the caller and what it answered before for everybody
    else, and [GetPost] shows the caller the post with the new counter
    and the like, when the post is visible to them. *)
Theorem LikePost_then_GetPost (now : Z) (uuid : string) (db db' : DB)
        (postID userID : string) (post : Post) (n : Z) :
  PostRepository.FindByID db postID = Ok post ->
  LikePost now uuid db postID userID = ((n, None), db') ->
  let liked := set_UpdatedAt (set_LikesCount post (LikesCount post + 1)) now in
  n = int32 (LikesCount post + 1)
  /\ PostRepository.FindByID db' postID = Ok liked
  /\ IsLiked db' postID userID = Ok true
  /\ (forall other, other <> userID ->
                    IsLiked db' postID other = IsLiked db postID other)
  /\ (isPostVisibleToUser post userID None = true ->
      GetPost db' postID userID = Ok (liked, true))
  /\ comments db' = comments db.
Proof.
  intros Hfind Hcall liked. revert Hcall. unfold LikePost, failed.
  destruct (String.eqb_spec postID "") as [ | Hpost]; [discriminate | ].
  destruct (String.eqb_spec userID "") as [ | Huser]; [discriminate | ].
  rewrite Hfind.
  destruct (LikeRepository.FindByPostAndUser db postID userID) as [like | e] eqn:Hnone;
    [discriminate | ].
  destruct (LikeRepository.Create uuid db (mkLike "" postID userID now None))
    as [db1 | e'] eqn:Hcreate; [ | discriminate].
  apply PostsLikes.Create_spec in Hcreate.
  destruct Hcreate as (Hlikes & Hposts & Hcomments & _).
  unfold PostRepository.IncrementLikesCount.
  assert (Hfind1 : PostRepository.FindByID db1 postID = Ok post).
  { rewrite <- Hfind. now apply PostsLikes.FindByID_posts. }
  pose proof (PostsLikes.FindByID_recount (fun k => (k + 1)%Z) now db1 postID post Hfind1)
    as Hliked.
  rewrite Hliked. intros [= <- <-].
  assert (Hlookup : LikeRepository.FindByPostAndUser
                      (set_posts db1
                         (map (fun row =>
                                 if PostRepository.live row && (ID row =? postID)
                                 then set_UpdatedAt (set_LikesCount row (LikesCount row + 1))
                                                    now
                                 else row)
                              (posts db1))) postID userID
                    = Ok (mkLike uuid postID userID now None)).
  { apply (PostsLikes.lookup_after_create db _ postID userID uuid now e Hnone).
    exact Hlikes. }
  assert (Hisliked : IsLiked (set_posts db1
                                (map (fun row =>
                                        if PostRepository.live row && (ID row =? postID)
                                        then set_UpdatedAt
                                               (set_LikesCount row (LikesCount row + 1)) now
                                        else row)
                                     (posts db1))) postID userID = Ok true).
  { unfold IsLiked. apply String.eqb_neq in Hpost. apply String.eqb_neq in Huser.
    now rewrite Hpost, Huser, Hlookup. }
  split; [reflexivity | ]. split; [exact Hliked | ]. split; [exact Hisliked | ].
  split.
  { intros other Hother. unfold IsLiked, LikeRepository.FindByPostAndUser.
    cbn [likes set_posts]. rewrite Hlikes, filter_app. cbn [filter lPostID lUserID].
    apply not_eq_sym in Hother. apply String.eqb_neq in Hother.
    rewrite Hother, !andb_false_r, app_nil_r. reflexivity. }
  split; [ | exact Hcomments].
  intros Hvisible.
  rewrite (PostsGetPost.GetPost_found _ postID userID liked Hpost Hliked).
  replace (isPostVisibleToUser liked userID None) with true.
  rewrite Hisliked. apply String.eqb_neq in Huser. now rewrite Huser.
Qed.

Lemma LikePost_then_GetPost_witness :
  let liked := LikePost 200 "like5" Examples.seed_db "post3" "user3" in
  fst liked = (2%Z, None)
  /\ IsLiked (snd liked) "post3" "user3" = Ok true
  /\ IsLiked Examples.seed_db "post3" "user3" = Ok false.
Proof.
  intros liked.
  destruct (LikePost_then_GetPost 200 "like5" Examples.seed_db (snd liked)
                                  "post3" "user3" (PostRepository.scan Examples.post3) 2)
    as (_ & _ & Hliked & _); [reflexivity | vm_compute; reflexivity | ].
  split; [reflexivity | ]. split; [exact Hliked | reflexivity].
Defined.

End PostsLiked.

(** * The friend service: who settles a request, and how often *)

Module FriendsRequests.
Import Friends QueryFacts.

(** The request found under an id after the status update of that id. *)
Lemma GetFriendRequestByID_settled (now : Z) (db db' : DB) (id status : string)
      (request : FriendRequest) :
  FriendRepository.GetFriendRequestByID db id = Ok request ->
  friend_requests db'
  = map (fun row =>
           if FriendRepository.liveRequest row && (frID row =? id)
           then set_frUpdatedAt (set_frStatus row status) now
           else row)
        (friend_requests db) ->
  FriendRepository.GetFriendRequestByID db' id
  = Ok (set_frUpdatedAt (set_frStatus request status) now).
Proof.
  intros Hget Hdb. unfold FriendRepository.GetFriendRequestByID in *. rewrite Hdb.
  rewrite filter_map_preserved.
  2:{ intros x. cbv beta.
      destruct (FriendRepository.liveRequest x && (frID x =? id)) eqn:E; exact E. }
  rewrite first_map, Hget.
  apply first_filter_Ok in Hget. destruct Hget as [_ Hrow]. now rewrite Hrow.
Qed.

(** What a successful [AcceptFriendRequest] or [RejectFriendRequest] has
    checked and written to the requests. *)
Lemma AcceptFriendRequest_settles (now : Z) (uuid1 uuid2 : string) (db db' : DB)
      (requestID userID : string) (request' : FriendRequest) :
  AcceptFriendRequest now uuid1 uuid2 db requestID userID = (Ok request', db') ->
  exists request,
    FriendRepository.GetFriendRequestByID db requestID = Ok request
    /\ friend_requests db'
       = map (fun row =>
                if FriendRepository.liveRequest row && (frID row =? requestID)
                then set_frUpdatedAt (set_frStatus row "accepted") now
                else row)
             (friend_requests db).
Proof.
  unfold AcceptFriendRequest.
  destruct (FriendRepository.GetFriendRequestByID db requestID) as [request | e];
    [ | discriminate].
  destruct (negb (frReceiverID request =? userID)); [discriminate | ].
  destruct (negb (frStatus request =? "pending")); [discriminate | ].
  unfold FriendRepository.UpdateFriendRequestStatus, FriendRepository.CreateFriendship.
  destruct (existsb _ _); [discriminate | ].
  destruct (existsb _ _); [discriminate | ].
  intros [= _ <-]. exists request. split; reflexivity.
Qed.

Lemma RejectFriendRequest_settles (now : Z) (db db' : DB)
      (requestID userID : string) (request' : FriendRequest) :
  RejectFriendRequest now db requestID userID = (Ok request', db') ->
  exists request,
    FriendRepository.GetFriendRequestByID db requestID = Ok request
    /\ friend_requests db'
       = map (fun row =>
                if FriendRepository.liveRequest row && (frID row =? requestID)
                then set_frUpdatedAt (set_frStatus row "rejected") now
                else row)
             (friend_requests db).
Proof.
  unfold RejectFriendRequest.
  destruct (FriendRepository.GetFriendRequestByID db requestID) as [request | e];
    [ | discriminate].
  destruct (negb (frReceiverID request =? userID)); [discriminate | ].
  destruct (negb (frStatus request =? "pending")); [discriminate | ].
  unfold FriendRepository.UpdateFriendRequestStatus.
  intros [= _ <-]. exists request. split; reflexivity.
Qed.

(** A request that is found but is not pending any more is refused to
    everybody, whichever way. *)
Lemma settled_refused (now : Z) (uuid1 uuid2 : string) (db : DB)
      (requestID userID : string) (request : FriendRequest) :
  FriendRepository.GetFriendRequestByID db requestID = Ok request ->
  frStatus request <> "pending" ->
  (exists msg,
      AcceptFriendRequest now uuid1 uuid2 db requestID userID = (Err (ErrorsNew msg), db))
  /\ (exists msg,
         RejectFriendRequest now db requestID userID = (Err (ErrorsNew msg), db)).
Proof.
  intros Hget Hstatus. apply String.eqb_neq in Hstatus.
  unfold AcceptFriendRequest, RejectFriendRequest. rewrite Hget, Hstatus.
  destruct (frReceiverID request =? userID); cbn; split; eexists; reflexivity.
Qed.

(** X26.  Only the receiver of a request may accept or reject it, and only
    while it is pending; a refused call changes nothing.  Once a request
    was accepted or rejected, every later [AcceptFriendRequest] and
    [RejectFriendRequest] on it is refused, whoever calls. *)
Theorem friend_request_settled_once (now : Z) (uuid1 uuid2 : string) (db : DB)
        (requestID userID : string) :
  (forall request,
      FriendRepository.GetFriendRequestByID db requestID = Ok request ->
      (frReceiverID request <> userID ->
       AcceptFriendRequest now uuid1 uuid2 db requestID userID
       = (Err (ErrorsNew "not authorized to accept this friend request"), db)
       /\ RejectFriendRequest now db requestID userID
          = (Err (ErrorsNew "not authorized to reject this friend request"), db))
      /\ (frReceiverID request = userID ->
          frStatus request <> "pending" ->
          AcceptFriendRequest now uuid1 uuid2 db requestID userID
          = (Err (ErrorsNew "friend request is not pending"), db)
          /\ RejectFriendRequest now db requestID userID
             = (Err (ErrorsNew "friend request is not pending"), db)))
  /\ (forall request' db',
         AcceptFriendRequest now uuid1 uuid2 db requestID userID = (Ok request', db')
         \/ RejectFriendRequest now db requestID userID = (Ok request', db') ->
         forall now' uuid1' uuid2' callerID,
           (exists msg,
               AcceptFriendRequest now' uuid1' uuid2' db' requestID callerID
               = (Err (ErrorsNew msg), db'))
           /\ (exists msg,
                  RejectFriendRequest now' db' requestID callerID
                  = (Err (ErrorsNew msg), db'))).
Proof.
  split.
  - intros request Hget. split.
    + intros Hother. apply String.eqb_neq in Hother.
      unfold AcceptFriendRequest, RejectFriendRequest. now rewrite Hget, Hother.
    + intros Hreceiver Hstatus.
      apply String.eqb_eq in Hreceiver. apply String.eqb_neq in Hstatus.
      unfold AcceptFriendRequest, RejectFriendRequest.
      now rewrite Hget, Hreceiver, Hstatus.
  - intros request' db' [Hcall | Hcall] now' uuid1' uuid2' callerID.
    + destruct (AcceptFriendRequest_settles _ _ _ _ _ _ _ _ Hcall)
        as (request & Hget & Hdb).
      apply (settled_refused now' uuid1' uuid2' db' requestID callerID
                             (set_frUpdatedAt (set_frStatus request "accepted") now)).
      * exact (GetFriendRequestByID_settled now db db' requestID "accepted" request
                                            Hget Hdb).
      * discriminate.
    + destruct (RejectFriendRequest_settles _ _ _ _ _ _ Hcall)
        as (request & Hget & Hdb).
      apply (settled_refused now' uuid1' uuid2' db' requestID callerID
                             (set_frUpdatedAt (set_frStatus request "rejected") now)).
      * exact (GetFriendRequestByID_settled now db db' requestID "rejected" request
                                            Hget Hdb).
      * discriminate.
Qed.

Lemma friend_request_settled_once_witness :
  let rejected := RejectFriendRequest 200 Examples.friends_seed "fr-001" "user-002" in
  (exists msg,
      AcceptFriendRequest 300 "f-005" "f-006" (snd rejected) "fr-001" "user-002"
      = (Err (ErrorsNew msg), snd rejected))
  /\ AcceptFriendRequest 200 "f-005" "f-006" Examples.friends_seed "fr-001" "user-001"
     = (Err (ErrorsNew "not authorized to accept this friend request"),
        Examples.friends_seed).
Proof.
  intros rejected.
  destruct (friend_request_settled_once 200 "f-005" "f-006" Examples.friends_seed
                                        "fr-001" "user-002") as [_ Hsettled].
  destruct (Hsettled
              (mkFriendRequest "fr-001" "user-001" "user-002" "rejected" 100 200 None)
              (snd rejected) (or_intror eq_refl) 300%Z "f-005" "f-006" "user-002")
    as [Haccept _].
  - split; [exact Haccept | ].
    destruct (friend_request_settled_once 200 "f-005" "f-006" Examples.friends_seed
                                          "fr-001" "user-001") as [Hrules _].
    destruct (Hrules (mkFriendRequest "fr-001" "user-001" "user-002" "pending" 100 100 None)
                     eq_refl) as [Hother _].
    apply Hother. discriminate.
Defined.

End FriendsRequests.

(** * The friend service: the status of a pair *)

Module FriendsStatus.
Import Friends QueryFacts.

Lemma blocked_symmetric (db : DB) (a b : string) :
  filter (fun row =>
            FriendRepository.liveBlocked row
            && (((buUserID row =? b) && (buBlockedUserID row =? a))
                || ((buUserID row =? a) && (buBlockedUserID row =? b))))
         (blocked_users db)
  = filter (fun row =>
              FriendRepository.liveBlocked row
              && (((buUserID row =? a) && (buBlockedUserID row =? b))
                  || ((buUserID row =? b) && (buBlockedUserID row =? a))))
           (blocked_users db).
Proof. apply filter_ext. intros row. now rewrite orb_comm. Qed.

(** The repository's answer for a pair without a live friendship row from
    the first user to the second. *)
Lemma CheckFriendship_not_friends (db : DB) (a b : string) :
  filter (FriendRepository.friendship a b) (friendships db) = [] ->
  FriendRepository.CheckFriendship db a b
  = match first (filter (fun row =>
                           FriendRepository.liveRequest row
                           && ((((frSenderID row =? a) && (frReceiverID row =? b))
                                || ((frSenderID row =? b) && (frReceiverID row =? a)))
                               && (frStatus row =? "pending")))
                        (friend_requests db)) with
    | Ok request => Ok ("pending", frID request)
    | Err _ =>
      if Z.gtb
           (Z.of_nat
              (length (filter (fun row =>
                                 FriendRepository.liveBlocked row
                                 && (((buUserID row =? a) && (buBlockedUserID row =? b))
                                     || ((buUserID row =? b) && (buBlockedUserID row =? a))))
                              (blocked_users db)))) 0%Z
      then Ok ("blocked", "")
      else Ok ("none", "")
    end.
Proof.
  intros Hnone. unfold FriendRepository.CheckFriendship.
  change (fun row => FriendRepository.liveFriendship row
                     && ((fsUserID row =? a) && (fsFriendID row =? b)))
    with (FriendRepository.friendship a b).
  rewrite Hnone. cbn [length Z.of_nat Z.gtb Z.compare].
  destruct (first _) as [request | e] eqn:Hfirst; [reflexivity | ].
  now rewrite (first_Err_not_found _ _ Hfirst).
Qed.

(** X27.  [CheckFriendship] always answers one of "self", "friends",
    "pending", "blocked" and "none", never the empty status of its error
    branch: "self" exactly for a user with themselves, "friends" exactly
    when a live friendship row leads from the first user to the second,
    and a request id only with "pending".  Where no live friendship row
    leads either way, the answer does not depend on the order of the two
    users. *)
Theorem CheckFriendship_symmetric (db : DB) (u f : string) :
  (exists status id,
      CheckFriendship db u f = Ok (status, id)
      /\ (status = "self" \/ status = "friends" \/ status = "pending"
          \/ status = "blocked" \/ status = "none")
      /\ (status = "self" <-> u = f)
      /\ (status = "friends"
          <-> u <> f /\ filter (FriendRepository.friendship u f) (friendships db) <> [])
      /\ (status <> "pending" -> id = ""))
  /\ (filter (FriendRepository.friendship u f) (friendships db) = [] ->
      filter (FriendRepository.friendship f u) (friendships db) = [] ->
      CheckFriendship db u f = CheckFriendship db f u).
Proof.
  split.
  - unfold CheckFriendship.
    destruct (String.eqb_spec u f) as [Huf | Huf].
    { exists "self", "". split; [reflexivity | ]. split; [now left | ].
      split; [tauto | ]. split; [ | reflexivity].
      split; [discriminate | tauto]. }
    destruct (filter (FriendRepository.friendship u f) (friendships db)) eqn:Hfriends.
    + rewrite (CheckFriendship_not_friends db u f Hfriends).
      destruct (first _) as [request | e].
      { exists "pending", (frID request). split; [reflexivity | ].
        split; [tauto | ]. split; [split; [discriminate | tauto] | ].
        split; [split; [discriminate | tauto] | congruence]. }
      destruct (_ >? 0)%Z.
      { exists "blocked", "". split; [reflexivity | ].
        split; [tauto | ]. split; [split; [discriminate | tauto] | ].
        split; [split; [discriminate | tauto] | reflexivity]. }
      exists "none", "". split; [reflexivity | ].
      split; [tauto | ]. split; [split; [discriminate | tauto] | ].
      split; [split; [discriminate | tauto] | reflexivity].
    + unfold FriendRepository.CheckFriendship.
      change (fun row => FriendRepository.liveFriendship row
                         && ((fsUserID row =? u) && (fsFriendID row =? f)))
        with (FriendRepository.friendship u f).
      rewrite Hfriends. cbn [length Z.of_nat Z.gtb Z.compare].
      exists "friends", "". split; [reflexivity | ].
      split; [tauto | ]. split; [split; [discriminate | tauto] | ].
      split; [ | reflexivity]. split; [ | reflexivity].
      intros _. split; [exact Huf | discriminate].
  - intros Huf Hfu. unfold CheckFriendship.
    destruct (String.eqb_spec u f) as [-> | Hne]; [now rewrite String.eqb_refl | ].
    destruct (String.eqb_spec f u) as [E | _]; [congruence | ].
    rewrite (CheckFriendship_not_friends db u f Huf),
            (CheckFriendship_not_friends db f u Hfu).
    now rewrite (FriendsRelations.pending_symmetric db u f), (blocked_symmetric db u f).
Qed.

Lemma CheckFriendship_symmetric_witness :
  CheckFriendship Examples.friends_seed "user-001" "user-002"
  = CheckFriendship Examples.friends_seed "user-002" "user-001"
  /\ CheckFriendship Examples.friends_seed "user-002" "user-001" = Ok ("pending", "fr-001").
Proof.
  split; [ | reflexivity].
  apply (proj2 (CheckFriendship_symmetric Examples.friends_seed "user-001" "user-002"));
    reflexivity.
Defined.

End FriendsStatus.
